(** * The payments controller of opencollective-api

    A shallow embedding of [app/controllers/payments.js]: the three request
    handlers [post], [paypalDonation] and [paypalCallback], the helpers
    [getOrCreatePlan] and [getOrCreateUser], and the [async.auto] task graph
    they are built on.

    Storage rows are records kept in lists, provider requests are appended to
    a log, and what the collaborators (provider SDKs, storage, account
    resolvers) answer during one run is read from an environment [Env], so
    that every theorem quantifies over all their answers, failures included.
    Amounts are numbers of the language, that is IEEE 754 doubles, and the
    arithmetic on them is the arithmetic of doubles. *)

From Stdlib Require Import ZArith List String Ascii Bool Lia DecimalString.
From Stdlib Require SpecFloat.
Import ListNotations.
Open Scope string_scope.
Open Scope Z_scope.

(** ** JavaScript values as this file uses them *)

Module Js.

(** [String(n)] for an integer. *)
Definition string_of_Z (z : Z) : string := NilZero.string_of_int (Z.to_int z).

(** Template-literal rendering of a possibly undefined string. *)
Definition show (o : option string) : string :=
  match o with Some s => s | None => "undefined" end.

Definition show_bool (b : bool) : string := if b then "true" else "false".

(** Truthiness: [undefined] and [""] are falsy. *)
Definition truthy_str (o : option string) : bool :=
  match o with Some s => negb (s =? "")%string | None => false end.

(** Numbers are IEEE 754 doubles: binary64, 53 bits of precision and
    exponents below 1024, with the operations rounding to nearest, ties to
    even.  The representatives built by [number_of_Z], [literal] and the
    operations are the canonical ones. *)
Definition number : Type := SpecFloat.spec_float.

Definition NaN : number := SpecFloat.S754_nan.

(** The double nearest to an integer. *)
Definition number_of_Z (z : Z) : number := SpecFloat.binary_normalize 53 1024 z 0 false.

(** [a * b] and [a / b]. *)
Definition mul (a b : number) : number := SpecFloat.SFmul 53 1024 a b.
Definition div (a b : number) : number := SpecFloat.SFdiv 53 1024 a b.

(** [a < b]; false when either side is [NaN]. *)
Definition ltb (a b : number) : bool := SpecFloat.SFltb a b.

(** The decimal literal with digits [m] and [k] digits after the point
    ([literal 1999 2] is [19.99]): the double nearest to [m / 10^k], for [m]
    below 2^53 and [k] at most 22, where both operands are exact. *)
Definition literal (m : Z) (k : nat) : number :=
  div (number_of_Z m) (number_of_Z (10 ^ Z.of_nat k)).

(** The integer a number is, when it is one. *)
Definition to_integer (n : number) : option Z :=
  match n with
  | SpecFloat.S754_zero _ => Some 0
  | SpecFloat.S754_finite s m e =>
    let sign := if s then -1 else 1 in
    if 0 <=? e then Some (sign * (Z.pos m * 2 ^ e))
    else if Z.pos m mod 2 ^ (- e) =? 0 then Some (sign * (Z.pos m / 2 ^ (- e)))
    else None
  | _ => None
  end.

(** [Number.isInteger(n)]. *)
Definition isInteger (n : number) : bool :=
  match to_integer n with Some _ => true | None => false end.

(** Truthiness: [undefined], [0], [-0] and [NaN] are falsy. *)
Definition truthy_num (o : option number) : bool :=
  match o with
  | Some (SpecFloat.S754_zero _) | Some SpecFloat.S754_nan | None => false
  | Some _ => true
  end.

(** [a || b] on strings. *)
Definition or_str (a : option string) (b : string) : string :=
  match a with
  | Some s => if (s =? "")%string then b else s
  | None => b
  end.

(** lodash [_.contains(collection, target)] on an array of strings
    (strict equality) ... *)
Definition contains_in (l : list string) (x : option string) : bool :=
  match x with
  | Some s => existsb (String.eqb s) l
  | None => false
  end.

(** ... and on a string (substring test). *)
Fixpoint substring_of (sub s : string) : bool :=
  String.prefix sub s ||
  match s with
  | EmptyString => false
  | String _ rest => substring_of sub rest
  end.

(** [_.contains(undefined, x)] is [false]. *)
Definition contains_str (s : option string) (sub : string) : bool :=
  match s with Some s => substring_of sub s | None => false end.

Definition upper_ascii (c : ascii) : ascii :=
  let n := nat_of_ascii c in
  if (Nat.leb 97 n && Nat.leb n 122)%bool then ascii_of_nat (n - 32) else c.

Fixpoint toUpperCase (s : string) : string :=
  match s with
  | EmptyString => EmptyString
  | String c rest => String (upper_ascii c) (toUpperCase rest)
  end.

(** *** [Number::toString]

    The rendering of a number inside a string concatenation: the digits of
    the shortest decimal that reads back as the same double (the closest one
    when there are several, the even one on a tie), laid out in positional
    or in exponent notation as the language prescribes. *)

Fixpoint zeros (n : nat) : string :=
  match n with O => "" | S n' => String "0" (zeros n') end.

(** The decimal [s * 10^t], with [s] an integer. *)
Record decimal_number := mkDecimal { dec_s : Z; dec_t : Z }.

(** A positive finite double [m * 2^e] is measured in units of [2^(e-2)]:
    its value is [4m] units, the reals that round to it go from
    [lower_bound] to [4m + 2] units (the ends included when [m] is even),
    and a unit is the fraction [fst / snd] of [unit_of]. *)
Definition unit_of (e : Z) : Z * Z :=
  if 2 <=? e then (2 ^ (e - 2), 1) else (1, 2 ^ (2 - e)).

Definition lower_bound (m : positive) (e : Z) : Z :=
  if (Z.pos m =? 2 ^ 52) && (-1074 <? e) then 4 * Z.pos m - 1 else 4 * Z.pos m - 2.

(** [s * 10^t] compared with [x] units. *)
Definition compare_units (e : Z) (d : decimal_number) (x : Z) : comparison :=
  let '(uN, uD) := unit_of e in
  let a := (if 0 <=? dec_t d then 10 ^ dec_t d else 1) * uD in
  let b := (if dec_t d <? 0 then 10 ^ (- dec_t d) else 1) * uN in
  (dec_s d * a ?= x * b).

Definition rounds_to (m : positive) (e : Z) (d : decimal_number) : bool :=
  let even := Z.even (Z.pos m) in
  match compare_units e d (lower_bound m e), compare_units e d (4 * Z.pos m + 2) with
  | Gt, Lt => true
  | Eq, Lt | Gt, Eq => even
  | _, _ => false
  end.

(** The [n] with [10^(n-1) <= m * 2^e < 10^n], looked for around an
    estimate from the binary logarithm. *)
Definition magnitude (m : positive) (e : Z) : Z :=
  let est := (Z.log2 (Z.pos m) + e) * 1233 / 4096 in
  let fits n :=
    match compare_units e (mkDecimal 1 (n - 1)) (4 * Z.pos m),
          compare_units e (mkDecimal 1 n) (4 * Z.pos m) with
    | (Lt | Eq), Gt => true
    | _, _ => false
    end in
  match find fits [est - 1; est; est + 1; est + 2] with
  | Some n => n
  | None => est
  end.

(** The decimals of [k] digits next to the value, below and above. *)
Definition neighbours (m : positive) (e : Z) (n0 : Z) (k : Z) : list decimal_number :=
  let t := n0 - k in
  let '(uN, uD) := unit_of e in
  let a := (if 0 <=? t then 10 ^ t else 1) * uD in
  let b := (if t <? 0 then 10 ^ (- t) else 1) * uN in
  let below := (4 * Z.pos m * b) / a in
  let above := below + 1 in
  [ mkDecimal below t;
    if above =? 10 ^ k then mkDecimal (10 ^ (k - 1)) (t + 1) else mkDecimal above t ].

(** Of two decimals the one closer to the value, the even one on a tie;
    the distances are brought to the finer of the two scales. *)
Definition closer (m : positive) (e : Z) (d1 d2 : decimal_number) : decimal_number :=
  let tmin := Z.min (dec_t d1) (dec_t d2) in
  let '(uN, uD) := unit_of e in
  let distance d :=
    Z.abs (dec_s d * 10 ^ (dec_t d - tmin) * uD * (if 0 <=? tmin then 10 ^ tmin else 1)
           - 4 * Z.pos m * uN * (if tmin <? 0 then 10 ^ (- tmin) else 1)) in
  match distance d1 ?= distance d2 with
  | Lt => d1
  | Gt => d2
  | Eq => if Z.even (dec_s d1) then d1 else d2
  end.

(** The shortest decimal that rounds to the value and its number of digits;
    seventeen digits always suffice. *)
Fixpoint shortest (fuel : nat) (m : positive) (e : Z) (n0 k : Z) : decimal_number * Z :=
  match fuel with
  | O => (mkDecimal (Z.pos m) 0, k)
  | S fuel' =>
    match filter (rounds_to m e) (neighbours m e n0 k) with
    | [] => shortest fuel' m e n0 (k + 1)
    | [d] => (d, k)
    | d1 :: d2 :: _ => (closer m e d1 d2, k)
    end
  end.

Definition substring_from (n : nat) (s : string) : string :=
  substring n (String.length s - n) s.

(** The layout of the digits [s] (there are [k] of them) of the value
    [s * 10^(n-k)]. *)
Definition render (m : positive) (e : Z) : string :=
  let n0 := magnitude m e in
  let '(d, k) := shortest 17 m e n0 1 in
  let n := dec_t d + k in
  let ds := string_of_Z (dec_s d) in
  if (k <=? n) && (n <=? 21) then ds ++ zeros (Z.to_nat (n - k))
  else if (0 <? n) && (n <=? 21) then
    substring 0 (Z.to_nat n) ds ++ "." ++ substring_from (Z.to_nat n) ds
  else if (-6 <? n) && (n <=? 0) then "0." ++ zeros (Z.to_nat (- n)) ++ ds
  else
    let x := n - 1 in
    let sign := if x <? 0 then "-" else "+" in
    let mantissa := if k =? 1 then ds
                    else substring 0 1 ds ++ "." ++ substring_from 1 ds in
    mantissa ++ "e" ++ sign ++ string_of_Z (Z.abs x).

Definition Number_toString (x : number) : string :=
  match x with
  | SpecFloat.S754_nan => "NaN"
  | SpecFloat.S754_zero _ => "0"
  | SpecFloat.S754_infinity s => if s then "-Infinity" else "Infinity"
  | SpecFloat.S754_finite s m e => (if s then "-" else "") ++ render m e
  end.

(** Exceptions raised by the language itself. *)
Inductive exn :=
| ReferenceError (identifier : string)
| TypeError (message : string).

End Js.
Import Js.

(** ** Data model *)

(** [req.required.payment]. *)
Record Payment := mkPayment {
  p_amount : option number;
  p_currency : option string;
  p_interval : option string;
  p_stripeToken : option string;
  p_email : option string
}.

Record User := mkUser {
  u_id : Z;
  u_email : string;
  u_hasFullAccount : bool
}.

Record Group := mkGroup {
  g_id : Z;
  g_name : string;
  g_currency : string;
  g_slug : string
}.

Record PaymentMethod := mkPaymentMethod {
  pm_id : Z;
  pm_token : option string;
  pm_serviceId : string;
  pm_service : string;
  pm_UserId : option Z
}.

(** Card provider objects. *)
Record Plan := mkPlan {
  plan_id : string;
  plan_interval : option string;
  plan_amount : number;
  plan_name : string;
  plan_currency : string
}.

Record Customer := mkCustomer { cus_id : string }.

(** What [stripe.charges.create] and [stripe.customers.createSubscription]
    yield; the code reads [id], [currency], [plan.currency] and
    [application_fee]. *)
Record Charge := mkCharge {
  ch_id : string;
  ch_currency : option string;
  ch_plan : option Plan;
  ch_application_fee : option number
}.

Record StripeAccount := mkStripeAccount { accessToken : option string }.

Record StripeError := mkStripeError {
  se_type : option string;
  se_message : option string
}.

(** Wallet provider objects. *)
Record ConnectedAccount := mkConnectedAccount {
  clientId : string;
  secret : string
}.

Record PaypalConfig := mkPaypalConfig {
  pc_mode : string;
  pc_client_id : string;
  pc_client_secret : string
}.

Record BillingPlan := mkBillingPlan { bp_id : string }.

Record Agreement := mkAgreement {
  ag_id : string;
  ag_links : list string;
  ag_payer_email : string
}.

(** Errors that travel through a node callback. *)
Inductive error :=
| BadRequest (message : string)
| StripeFailure (e : StripeError)
| PaypalFailure (message : string)
| StorageFailure (message : string)
| Rejected (x : exn).   (* an exception caught by a promise chain's [.catch(cb)] *)

Inductive result (A : Type) :=
| Ok (a : A)
| Err (e : error).
Arguments Ok {A} a.
Arguments Err {A} e.

(** *** Rows *)

Record SubscriptionDescriptor := mkSubscriptionDescriptor {
  sd_amount : number;
  sd_currency : string;
  sd_interval : option string;
  sd_stripeSubscriptionId : string;
  sd_data : Charge
}.

Record Donation := mkDonation {
  d_id : Z;
  d_UserId : Z;
  d_CollectiveId : Z;
  d_currency : string;
  d_amount : number;
  d_title : string;
  d_subscription : option SubscriptionDescriptor
}.

(** The [data] column of a Subscription in the wallet flow. *)
Record SubscriptionData := mkSubscriptionData {
  sdata_agreement : option Agreement;
  sdata_billingAgreementId : option string
}.

Record Subscription := mkSubscription {
  s_id : Z;
  s_amount : number;
  s_currency : string;
  s_interval : option string;
  s_data : SubscriptionData;
  s_isActive : bool;
  s_activatedAt : option Z
}.

Record Transaction := mkTransaction {
  t_id : Z;
  t_type : string;
  t_amount : option number;
  t_amountInteger : option number;
  t_currency : string;
  t_interval : option string;
  t_description : option string;
  t_tags : list string;
  t_approved : bool;
  t_platformFee : option number;
  t_stripeFee : option number;
  t_data : option Charge;
  t_DonationId : option Z;
  t_PaymentMethodId : option Z;
  t_GroupId : option Z;
  t_UserId : option Z;
  t_SubscriptionId : option Z;
  t_deletedAt : option Z
}.

Record UserGroup := mkUserGroup {
  ug_GroupId : Z;
  ug_UserId : Z;
  ug_role : string
}.

(** Requests sent to the collaborators outside the process. *)
Inductive Call :=
| stripe_customers_create (source : option string) (description : string) (email : option string)
| stripe_plans_retrieve (id : string)
| stripe_plans_create (plan : Plan)
| stripe_customers_createSubscription
    (customer plan : string) (application_fee_percent groupId paymentMethodId : Z)
| stripe_charges_create
    (amount : number) (currency customer description : string)
    (groupId paymentMethodId : Z)
| paypal_billingPlan_create
    (description callbackUrl currency : string) (value : number) (frequency : string)
| paypal_billingPlan_activate (id : string)
| paypal_billingAgreement_create (planId : string) (start_date : Z)
| paypal_billingAgreement_execute (token : string)
| emailLib_send (template recipient : string).

(** ** The world: storage tables, the log of outgoing requests, the clock *)

Record World := mkWorld {
  PaymentMethods : list PaymentMethod;
  Donations : list Donation;
  Transactions : list Transaction;
  Subscriptions : list Subscription;
  Users : list User;
  UserGroups : list UserGroup;
  calls : list Call;
  now : Z
}.

Definition set_PaymentMethods (l : list PaymentMethod) (w : World) : World :=
  mkWorld l (Donations w) (Transactions w) (Subscriptions w) (Users w)
          (UserGroups w) (calls w) (now w).
Definition set_Donations (l : list Donation) (w : World) : World :=
  mkWorld (PaymentMethods w) l (Transactions w) (Subscriptions w) (Users w)
          (UserGroups w) (calls w) (now w).
Definition set_Transactions (l : list Transaction) (w : World) : World :=
  mkWorld (PaymentMethods w) (Donations w) l (Subscriptions w) (Users w)
          (UserGroups w) (calls w) (now w).
Definition set_Subscriptions (l : list Subscription) (w : World) : World :=
  mkWorld (PaymentMethods w) (Donations w) (Transactions w) l (Users w)
          (UserGroups w) (calls w) (now w).
Definition set_Users (l : list User) (w : World) : World :=
  mkWorld (PaymentMethods w) (Donations w) (Transactions w) (Subscriptions w) l
          (UserGroups w) (calls w) (now w).
Definition set_UserGroups (l : list UserGroup) (w : World) : World :=
  mkWorld (PaymentMethods w) (Donations w) (Transactions w) (Subscriptions w)
          (Users w) l (calls w) (now w).

(** Sending a request appends it to the log. *)
Definition send (c : Call) (w : World) : World :=
  mkWorld (PaymentMethods w) (Donations w) (Transactions w) (Subscriptions w)
          (Users w) (UserGroups w) (calls w ++ [c]) (now w).

(** Primary keys are allocated above every key already in the table. *)
Definition fresh_id (ids : list Z) : Z := 1 + fold_right Z.max 0 ids.

(** ** Collaborators *)

(** Storage operations the controller invokes; each can fail. *)
Inductive StorageOp :=
| PaymentMethod_findOne
| PaymentMethod_create
| Donation_create
| transactions_create
| UserGroup_findOne
| group_addUserWithRole
| transaction_getSubscription
| subscription_save
| User_findOne
| users_create
| transaction_restore
| transaction_setUser.

(** What the collaborators answer during one run of a handler.  Every call
    site is reached at most once per run, so one answer per site suffices.
    The card provider's callbacks yield either an error object or a value. *)
Record Env := mkEnv {
  NODE_ENV : option string;                 (* process.env.NODE_ENV *)
  config_paypal_rest_mode : string;
  config_host_api : string;
  config_host_website : string;
  constants_DONATION : string;              (* constants/transactions *)
  constants_OC_FEE_PERCENT : number;
  utils_planId : string -> option string -> number -> string;
  new_user_hasFullAccount : bool;           (* flag of a user made by users._create *)
  group_getStripeAccount : result (option StripeAccount);
  group_getConnectedAccount : result (option ConnectedAccount);
  customers_create : StripeError + Customer;
  plans_retrieve : StripeError + Plan;
  plans_create : StripeError + Plan;
  customers_createSubscription : StripeError + Charge;
  charges_create : StripeError + Charge;
  billingPlan_create : result BillingPlan;
  billingPlan_activate : option error;
  billingAgreement_create : result Agreement;
  billingAgreement_execute : result Agreement;
  storage_fault : StorageOp -> option error
}.

Definition of_stripe {A : Type} (x : StripeError + A) : result A :=
  match x with
  | inl e => Err (StripeFailure e)
  | inr a => Ok a
  end.

(** [const OC_FEE_PERCENT = 5] at the top of the file. *)
Definition OC_FEE_PERCENT : Z := 5.

(** Modelled from the spec: [roles.BACKER] of constants/roles.js, which is not
    among the sources; the spec names the role BACKER. *)
Definition BACKER : string := "BACKER".

(** ** Step results and the values steps hand to each other *)

Inductive value :=
| VUndefined
| VNull
| VStripe (accessToken : string)            (* the client [Stripe(accessToken)] *)
| VPaymentMethod (pm : PaymentMethod)
| VCustomer (c : Customer)
| VCharge (c : Charge)
| VTransaction (t : Transaction)
| VUser (u : User)
| VUserGroup (ug : UserGroup)
| VPaypalConfig (c : PaypalConfig)
| VBillingPlan (p : BillingPlan)
| VAgreement (a : Agreement).

Definition truthy_value (v : value) : bool :=
  match v with
  | VUndefined | VNull => false
  | _ => true
  end.

(** How a step function ends. *)
Inductive step_result :=
| Done (v : value)      (* cb(null, v) *)
| Fail (e : error)      (* cb(e) *)
| Pending               (* the function returns and cb is never invoked *)
| Throw (x : exn).      (* an exception leaves the function *)

Definition step := World -> step_result * World.

(** ** [async.auto]

    Tasks are named, declare the names they depend on and receive the
    results gathered so far.  The executor starts, in declaration order, a
    task that has not been started and whose dependencies have all yielded;
    a failure goes to the completion callback at once and nothing further
    is started; when every task has yielded, the callback receives the
    results.  A task that never invokes its callback leaves its dependents
    waiting for ever, and then the completion callback is never invoked.

    The handlers' graphs are chains except for one fork in [post], so
    running one task at a time loses no behaviour.  The trace holds, oldest
    first, each started task with the way it ended and the world it left. *)

Module Async.

Definition results := list (string * value).

Fixpoint lookup (k : string) (r : results) : value :=
  match r with
  | [] => VUndefined
  | (k', v) :: rest => if (k =? k')%string then v else lookup k rest
  end.

Record task := mkTask {
  name : string;
  deps : list string;
  run : results -> step
}.

Inductive completion :=
| Completed (r : results)   (* callback(null, results) *)
| Failed (e : error)        (* callback(e) *)
| NeverCalled               (* some task is pending for ever *)
| Crashed (x : exn)         (* an exception left a task *)
| Exhausted.                (* the fuel of [loop] ran out; see [auto_fuel] *)

Record event := mkEvent {
  ev_step : string;
  ev_result : step_result;
  ev_world : World
}.

Definition trace := list event.

Definition has (k : string) (l : list string) : bool := existsb (String.eqb k) l.
Arguments has : simpl never.

Definition ready (started : list string) (r : results) (t : task) : bool :=
  negb (has (name t) started) && forallb (fun d => has d (map fst r)) (deps t).

Definition all_yielded (tasks : list task) (r : results) : bool :=
  forallb (fun t => has (name t) (map fst r)) tasks.

Fixpoint loop (fuel : nat) (tasks : list task) (started : list string)
         (r : results) (w : World) : completion * World * trace :=
  match fuel with
  | O => (Exhausted, w, [])
  | S fuel' =>
    match find (ready started r) tasks with
    | None => (if all_yielded tasks r then Completed r else NeverCalled, w, [])
    | Some t =>
      let '(o, w') := run t r w in
      match o with
      | Done v =>
        let '(c, wf, tr) := loop fuel' tasks (name t :: started) ((name t, v) :: r) w' in
        (c, wf, mkEvent (name t) o w' :: tr)
      | Pending =>
        let '(c, wf, tr) := loop fuel' tasks (name t :: started) r w' in
        (c, wf, mkEvent (name t) o w' :: tr)
      | Fail e => (Failed e, w', [mkEvent (name t) o w'])
      | Throw x => (Crashed x, w', [mkEvent (name t) o w'])
      end
    end
  end.

(** The event in which a task handed an error to its callback. *)
Fixpoint failure (tr : trace) : option event :=
  match tr with
  | [] => None
  | ev :: rest =>
    match ev_result ev with
    | Fail _ => Some ev
    | _ => failure rest
    end
  end.

Definition auto (tasks : list task) (w : World) : completion * World * trace :=
  loop (S (List.length tasks)) tasks [] [] w.

End Async.
Import Async.

(** ** What a handler does to the HTTP exchange *)

Inductive response :=
| next (e : error) (payload : option Payment)   (* next(e), with e.payload when set *)
| send_user (user : User) (hasFullAccount : bool)
| send_links (links : list string)
| redirect (url : string).

Inductive outcome :=
| Responded (r : response)
| NoResponse               (* the completion callback was never invoked *)
| Uncaught (x : exn).

(** Number of times the completion callback of the task graph ran. *)
Definition completions (c : completion) : nat :=
  match c with
  | Completed _ | Failed _ => 1
  | NeverCalled | Crashed _ | Exhausted => 0
  end.

Record Request := mkRequest {
  required_payment : Payment;
  req_user : option User;
  req_group : Group
}.

(** The request of the wallet callback: [req.paranoidtransaction] was loaded
    by the routing layer, [req.query.token] comes from the provider. *)
Record CallbackRequest := mkCallbackRequest {
  cb_group : Group;
  cb_token : option string;
  cb_paranoidtransaction : Transaction
}.

(** After validation [payment.amount] is a number; [undefined] in
    arithmetic is [NaN]. *)
Definition num (o : option number) : number :=
  match o with Some n => n | None => NaN end.

Definition opt_str_eqb (a b : option string) : bool :=
  match a, b with
  | Some x, Some y => (x =? y)%string
  | None, None => true
  | _, _ => false
  end.

Definition opt_Z_eqb (a b : option Z) : bool :=
  match a, b with
  | Some x, Some y => x =? y
  | None, None => true
  | _, _ => false
  end.

(** ** Storage helpers that live outside the controller *)

(** The default (paranoid) scope of the Transaction model hides rows whose
    [deletedAt] is set. *)
Definition visible (t : Transaction) : bool :=
  match t_deletedAt t with None => true | Some _ => false end.

Definition Transaction_findAll (w : World) : list Transaction :=
  filter visible (Transactions w).

Definition with_keys (t : Transaction) (id : Z) (group pm sub : option Z) : Transaction :=
  mkTransaction id (t_type t) (t_amount t) (t_amountInteger t) (t_currency t)
    (t_interval t) (t_description t) (t_tags t) (t_approved t) (t_platformFee t)
    (t_stripeFee t) (t_data t) (t_DonationId t) pm group (t_UserId t) sub
    (t_deletedAt t).

Definition with_deletedAt (t : Transaction) (d : option Z) : Transaction :=
  mkTransaction (t_id t) (t_type t) (t_amount t) (t_amountInteger t) (t_currency t)
    (t_interval t) (t_description t) (t_tags t) (t_approved t) (t_platformFee t)
    (t_stripeFee t) (t_data t) (t_DonationId t) (t_PaymentMethodId t) (t_GroupId t)
    (t_UserId t) (t_SubscriptionId t) d.

Definition with_UserId (t : Transaction) (u : option Z) : Transaction :=
  mkTransaction (t_id t) (t_type t) (t_amount t) (t_amountInteger t) (t_currency t)
    (t_interval t) (t_description t) (t_tags t) (t_approved t) (t_platformFee t)
    (t_stripeFee t) (t_data t) (t_DonationId t) (t_PaymentMethodId t) (t_GroupId t)
    u (t_SubscriptionId t) (t_deletedAt t).

(** Instance methods write the row that has the instance's primary key. *)
Definition update_transaction (id : Z) (f : Transaction -> Transaction) (w : World) : World :=
  set_Transactions
    (map (fun t => if t_id t =? id then f t else t) (Transactions w)) w.

Definition update_subscription (id : Z) (f : Subscription -> Subscription) (w : World) : World :=
  set_Subscriptions
    (map (fun s => if s_id s =? id then f s else s) (Subscriptions w)) w.

Record SubscriptionAttributes := mkSubscriptionAttributes {
  sa_amount : option number;
  sa_currency : string;
  sa_interval : option string
}.

(** The argument of [transactions._create]; [transaction] carries the
    attributes, its key columns are assigned on insertion. *)
Record CreatePayload := mkCreatePayload {
  payload_transaction : Transaction;
  payload_subscription : option SubscriptionAttributes;
  payload_group : option Group;
  payload_paymentMethod : value
}.

(** Modelled from the spec: [transactions._create] of
    controllers/transactions.js, which is not among the sources.  It inserts
    the Subscription when one is given, then the Transaction with the
    attributes it received (the [deletedAt] stamp included) linked to the
    group, the payment method and the subscription, and yields the
    Transaction. *)
Definition transactions__create (env : Env) (p : CreatePayload) : step :=
  fun w =>
    match storage_fault env transactions_create with
    | Some e => (Fail e, w)
    | None =>
      let '(sub, w1) :=
        match payload_subscription p with
        | Some a =>
          let s := mkSubscription (fresh_id (map s_id (Subscriptions w)))
                     (num (sa_amount a)) (sa_currency a) (sa_interval a)
                     (mkSubscriptionData None None) false None in
          (Some (s_id s), set_Subscriptions (Subscriptions w ++ [s]) w)
        | None => (None, w)
        end in
      let pm := match payload_paymentMethod p with
                | VPaymentMethod m => Some (pm_id m)
                | _ => None
                end in
      let t := with_keys (payload_transaction p)
                 (fresh_id (map t_id (Transactions w1)))
                 (option_map g_id (payload_group p)) pm sub in
      (Done (VTransaction t), set_Transactions (Transactions w1 ++ [t]) w1)
    end.

(** Modelled from the spec: [users._create] of controllers/users.js, which is
    not among the sources; it inserts a user with the given email and yields
    it with its account-completeness flag. *)
Definition users__create (env : Env) (email : string) : step :=
  fun w =>
    match storage_fault env users_create with
    | Some e => (Fail e, w)
    | None =>
      let u := mkUser (fresh_id (map u_id (Users w))) email (new_user_hasFullAccount env) in
      (Done (VUser u), set_Users (Users w ++ [u]) w)
    end.

(** Modelled from the spec: [group.addUserWithRole] of the Group model, which
    is not among the sources; it inserts the membership row. *)
Definition addUserWithRole (env : Env) (group : Group) (user : User) (role : string) : step :=
  fun w =>
    match storage_fault env group_addUserWithRole with
    | Some e => (Fail e, w)
    | None =>
      let ug := mkUserGroup (g_id group) (u_id user) role in
      (Done (VUserGroup ug), set_UserGroups (UserGroups w ++ [ug]) w)
    end.

Definition is_membership (group : Group) (user : User) (role : string) (ug : UserGroup) : bool :=
  (ug_GroupId ug =? g_id group) && (ug_UserId ug =? u_id user) && (ug_role ug =? role)%string.

(** ** The controller *)

(** [getOrCreatePlan(params, cb)]: what [cb] receives, and the world after. *)
Definition getOrCreatePlan (env : Env) (plan : Plan) (w : World) : result Plan * World :=
  let w1 := send (stripe_plans_retrieve (plan_id plan)) w in
  match plans_retrieve env with
  | inl err =>
    let type := se_type err in
    let message := se_message err in
    if opt_str_eqb type (Some "StripeInvalidRequest") && contains_str message "No such plan"
    then (of_stripe (plans_create env), send (stripe_plans_create plan) w1)
    else (Err (StripeFailure err), w1)
  | inr result => (Ok result, w1)
  end.

(** [getOrCreateUser(attributes, cb)] with [attributes = {email}]. *)
Definition getOrCreateUser (env : Env) (email : string) : step :=
  fun w =>
    match storage_fault env User_findOne with
    | Some e => (Fail e, w)
    | None =>
      match find (fun u => (u_email u =? email)%string) (Users w) with
      | Some user => (Done (VUser user), w)
      | None => users__create env email w
      end
    end.

(** The body shared, word for word, by the two [addUserToGroup] steps: look
    the BACKER membership up and insert it only when there is none. *)
Definition findOrAddBacker (env : Env) (group : Group) (user : User) : step :=
  fun w =>
    match storage_fault env UserGroup_findOne with
    | Some e => (Fail e, w)
    | None =>
      match find (is_membership group user BACKER) (UserGroups w) with
      | None => addUserWithRole env group user BACKER w
      | Some _ => (Done VUndefined, w)
      end
    end.

(** [charge.currency || charge.plan.currency]; [None] when the second
    operand raises a TypeError. *)
Definition charge_currency (charge : Charge) : option string :=
  if truthy_str (ch_currency charge) then ch_currency charge
  else option_map plan_currency (ch_plan charge).

(** Names bound where the step functions of [post] are written: the locals
    and parameters of [post], of the controller factory and of the module. *)
Definition post_scope : list string :=
  [ "payment"; "user"; "email"; "group"; "interval"; "isSubscription";
    "hasFullAccount"; "req"; "res"; "next";
    "models"; "errors"; "transactions"; "users"; "emailLib"; "constants";
    "getOrCreatePlan"; "getOrCreateUser"; "post"; "paypalDonation";
    "paypalCallback"; "app";
    "utils"; "roles"; "_"; "config"; "async"; "Stripe"; "paypal";
    "OC_FEE_PERCENT"; "require"; "module"; "process" ].

Definition bound (locals : list string) (x : string) : bool :=
  has x (locals ++ post_scope)%list.

(** *** [post]: the card provider *)

Module PostSteps.
Section Steps.

Variable req : Request.
Variable env : Env.

Let payment := required_payment req.
Let user := req_user req.
Let email := p_email payment.
Let group := req_group req.
Let interval := p_interval payment.
Let isSubscription := contains_in ["month"; "year"] interval.

Definition getGroupStripeAccount (_ : results) : step :=
  fun w =>
    match group_getStripeAccount env with
    | Err err => (Fail err, w)
    | Ok stripeAccount =>
      let token := match stripeAccount with
                   | Some a => accessToken a
                   | None => None
                   end in
      if negb (truthy_str token) then
        (Fail (BadRequest ("The host for the collective id " ++ string_of_Z (g_id group)
                           ++ " has no Stripe account set up")), w)
      else if negb (opt_str_eqb (NODE_ENV env) (Some "production"))
              && contains_str token "live" then
        (Fail (BadRequest ("You can't use a Stripe live key on " ++ show (NODE_ENV env))), w)
      else (Done (VStripe (show token)), w)
    end.

Definition getExistingPaymentMethod (_ : results) : step :=
  fun w =>
    match storage_fault env PaymentMethod_findOne with
    | Some e => (Fail e, w)
    | None =>
      match find (fun pm => opt_str_eqb (pm_token pm) (p_stripeToken payment)
                            && (pm_service pm =? "stripe")%string)
                 (PaymentMethods w) with
      | Some paymentMethod => (Done (VPaymentMethod paymentMethod), w)
      | None => (Done VNull, w)
      end
    end.

Definition createCustomer (r : results) : step :=
  fun w =>
    let stripe := lookup "getGroupStripeAccount" r in
    if truthy_value (lookup "getExistingPaymentMethod" r) then
      (Done (lookup "getExistingPaymentMethod" r), w)
    else
      match stripe with
      | VStripe _ =>
        let w1 := send (stripe_customers_create (p_stripeToken payment)
                          ("Paying " ++ show email ++ " to " ++ g_name group) email) w in
        match of_stripe (customers_create env) with
        | Ok customer => (Done (VCustomer customer), w1)
        | Err e => (Fail e, w1)
        end
      | _ => (Throw (TypeError "Cannot read property 'customers' of undefined"), w)
      end.

Definition createPaymentMethod (r : results) : step :=
  fun w =>
    if truthy_value (lookup "getExistingPaymentMethod" r) then
      (Done (lookup "getExistingPaymentMethod" r), w)
    else
      match lookup "createCustomer" r with
      | VCustomer customer =>
        match storage_fault env PaymentMethod_create with
        | Some e => (Fail e, w)
        | None =>
          let pm := mkPaymentMethod (fresh_id (map pm_id (PaymentMethods w)))
                      (p_stripeToken payment) (cus_id customer) "stripe"
                      (option_map u_id user) in
          (Done (VPaymentMethod pm), set_PaymentMethods (PaymentMethods w ++ [pm]) w)
        end
      | _ => (Throw (TypeError "Cannot read property 'id' of undefined"), w)
      end.

Definition createCharge (r : results) : step :=
  fun w =>
    match lookup "getGroupStripeAccount" r, lookup "createPaymentMethod" r with
    | VStripe _, VPaymentMethod paymentMethod =>
      let amount := mul (num (p_amount payment)) (number_of_Z 100) in
      let currency := or_str (p_currency payment) (g_currency group) in
      if isSubscription then
        let id := utils_planId env currency interval amount in
        let '(res, w1) := getOrCreatePlan env (mkPlan id interval amount id currency) w in
        match res with
        | Err err => (Fail err, w1)
        | Ok plan =>
          let w2 := send (stripe_customers_createSubscription
                            (pm_serviceId paymentMethod) (plan_id plan) OC_FEE_PERCENT
                            (g_id group) (pm_id paymentMethod)) w1 in
          match of_stripe (customers_createSubscription env) with
          | Ok subscription => (Done (VCharge subscription), w2)
          | Err e => (Fail e, w2)
          end
        end
      else
        let w1 := send (stripe_charges_create amount currency (pm_serviceId paymentMethod)
                          ("One time donation to " ++ g_name group)
                          (g_id group) (pm_id paymentMethod)) w in
        match of_stripe (charges_create env) with
        | Ok charge => (Done (VCharge charge), w1)
        | Err e => (Fail e, w1)
        end
    | _, _ => (Throw (TypeError "Cannot read property of undefined"), w)
    end.

(** The step ends with [models.Donation.create(donation);]: the insertion
    is started, its promise is dropped, and [cb] is not invoked on any
    path. *)
Definition createDonation (r : results) : step :=
  fun w =>
    match lookup "createCharge" r with
    | VCharge charge =>
      let amount := num (p_amount payment) in
      match charge_currency charge with
      | None => (Throw (TypeError "Cannot read property 'currency' of undefined"), w)
      | Some currency =>
        match user with
        | None => (Throw (TypeError "Cannot read property 'id' of undefined"), w)
        | Some u =>
          let subscription :=
            if isSubscription
            then Some (mkSubscriptionDescriptor amount currency interval (ch_id charge) charge)
            else None in
          let donation := mkDonation (fresh_id (map d_id (Donations w)))
                            (u_id u) (g_id group) currency
                            (mul (num (p_amount payment)) (number_of_Z 100))
                            ("Donation to " ++ g_name group) subscription in
          match storage_fault env Donation_create with
          | Some _ => (Pending, w)
          | None => (Pending, set_Donations (Donations w ++ [donation]) w)
          end
        end
      end
    | _ => (Throw (TypeError "Cannot read property 'currency' of undefined"), w)
    end.

Definition createTransaction (r : results) : step :=
  fun w =>
    if negb isSubscription then
      match lookup "createCharge" r with
      | VCharge charge =>
        let paymentMethod := lookup "createPaymentMethod" r in
        match charge_currency charge with
        | None => (Throw (TypeError "Cannot read property 'currency' of undefined"), w)
        | Some currency =>
          let amountInteger := mul (num (p_amount payment)) (number_of_Z 100) in
          let applicationFee :=
            if truthy_num (ch_application_fee charge)
            then num (ch_application_fee charge)
            else div (mul (constants_OC_FEE_PERCENT env) amountInteger)
                     (number_of_Z 100) in
          (* DonationId: results.createDonation, and createDonation hands
             no value to its callback *)
          let transaction :=
            mkTransaction 0 (constants_DONATION env) None (Some amountInteger) currency
              None None [] false (Some applicationFee) (Some (number_of_Z 0)) (Some charge)
              None None None None None None in
          transactions__create env
            (mkCreatePayload transaction None None paymentMethod) w
        end
      | _ => (Throw (TypeError "Cannot read property 'currency' of undefined"), w)
      end
    else (Done VUndefined, w).

(** The object literal for [data] reads [donation.info] first.  The only
    declaration of [donation] is the [const] inside the function of
    [createDonation]; here the name is looked up among this function's own
    names and the enclosing ones. *)
Definition sendThankYouEmail (_ : results) : step :=
  fun w =>
    if bound ["cb"; "user"; "data"; "template"] "donation" then
      match user with
      | None => (Throw (TypeError "Cannot read property 'info' of undefined"), w)
      | Some u =>
        let template := "thankyou" in
        let template :=
          if substring_of "WWCODE" (toUpperCase (g_name group))
          then template ++ ".wwcode" else template in
        let template :=
          if substring_of "ISPCWA" (toUpperCase (g_name group))
          then template ++ ".ispcwa" else template in
        (Done VUndefined, send (emailLib_send template (u_email u)) w)
      end
    else (Throw (ReferenceError "donation"), w).

Definition addUserToGroup (_ : results) : step :=
  fun w =>
    match user with
    | None => (Throw (TypeError "Cannot read property 'id' of undefined"), w)
    | Some u => findOrAddBacker env group u w
    end.

Definition tasks : list task :=
  [ mkTask "getGroupStripeAccount" [] getGroupStripeAccount;
    mkTask "getExistingPaymentMethod" ["getGroupStripeAccount"] getExistingPaymentMethod;
    mkTask "createCustomer" ["getGroupStripeAccount"; "getExistingPaymentMethod"] createCustomer;
    mkTask "createPaymentMethod" ["createCustomer"; "getExistingPaymentMethod"] createPaymentMethod;
    mkTask "createCharge" ["getGroupStripeAccount"; "createPaymentMethod"] createCharge;
    mkTask "createDonation" ["createCharge"] createDonation;
    mkTask "createTransaction" ["createDonation"] createTransaction;
    mkTask "sendThankYouEmail" ["createDonation"] sendThankYouEmail;
    mkTask "addUserToGroup" ["createTransaction"] addUserToGroup ].

(** The completion callback [function(e) {...}]. *)
Definition completion_callback (c : completion) : outcome :=
  match c with
  | Failed e => Responded (next e (Some payment))
  | Completed _ =>
    match user with
    | Some u => Responded (send_user u false)
    | None => Uncaught (TypeError "Cannot read property 'info' of undefined")
    end
  | NeverCalled | Exhausted => NoResponse
  | Crashed x => Uncaught x
  end.

End Steps.
End PostSteps.

(** What the validations at the top of [post] answer: the error handed to
    [next], or nothing when the task graph is to be started. *)
Definition post_validate (payment : Payment) : option error :=
  let interval := p_interval payment in
  let isSubscription := contains_in ["month"; "year"] interval in
  if truthy_str interval && negb isSubscription then
    Some (BadRequest "Interval should be month or year.")
  else if negb (truthy_str (p_stripeToken payment)) then
    Some (BadRequest "Stripe Token missing.")
  else if negb (truthy_num (p_amount payment)) then
    Some (BadRequest "Payment Amount missing.")
  else None.

(** The [async.auto({...}, function(e) {...})] call of [post]. *)
Definition post_graph (req : Request) (env : Env) (w : World) : completion * World * trace :=
  auto (PostSteps.tasks req env) w.

Definition post (req : Request) (env : Env) (w : World) : outcome * World :=
  match post_validate (required_payment req) with
  | Some e => (Responded (next e None), w)
  | None =>
    let '(c, w', _) := post_graph req env w in
    (PostSteps.completion_callback req c, w')
  end.

(** *** [paypalDonation]: initiation with the wallet provider *)

Module PaypalDonationSteps.
Section Steps.

Variable req : Request.
Variable env : Env.

Let group := req_group req.
Let payment := required_payment req.
Let currency := or_str (p_currency payment) (g_currency group).
Let amount := p_amount payment.
Let interval := p_interval payment.

Definition getPaypalConfig (_ : results) : step :=
  fun w =>
    match group_getConnectedAccount env with
    | Err e => (Fail e, w)
    | Ok None =>
      (Fail (Rejected (TypeError "Cannot read property 'clientId' of null")), w)
    | Ok (Some connectedAccount) =>
      (Done (VPaypalConfig (mkPaypalConfig (config_paypal_rest_mode env)
                              (clientId connectedAccount) (secret connectedAccount))), w)
    end.

(** The transaction is created with [deletedAt: new Date()]. *)
Definition createTransaction (_ : results) : step :=
  fun w =>
    let transaction :=
      mkTransaction 0 "payment" amount None currency interval
        (Some ("Donation to " ++ g_name group)) ["Donation"] true
        None None None None None None None None (Some (now w)) in
    let subscription := mkSubscriptionAttributes amount currency interval in
    transactions__create env
      (mkCreatePayload transaction (Some subscription) (Some group) VUndefined) w.

Definition createPlan (r : results) : step :=
  fun w =>
    match lookup "createTransaction" r, interval with
    | VTransaction t, Some i =>
      let transactionId := t_id t in
      let callbackUrl :=
        config_host_api env ++ "/groups/" ++ string_of_Z (g_id group)
        ++ "/transactions/" ++ string_of_Z transactionId ++ "/callback" in
      let description :=
        "Plan for donation to " ++ g_name group ++ " (" ++ currency ++ " "
        ++ Number_toString (num amount) ++ " / " ++ i ++ ")" in
      let w1 := send (paypal_billingPlan_create description callbackUrl currency
                        (num amount) (toUpperCase i)) w in
      match billingPlan_create env with
      | Ok plan => (Done (VBillingPlan plan), w1)
      | Err e => (Fail e, w1)
      end
    | _, _ => (Throw (TypeError "Cannot read property of undefined"), w)
    end.

Definition activatePlan (r : results) : step :=
  fun w =>
    match lookup "createPlan" r with
    | VBillingPlan plan =>
      let w1 := send (paypal_billingPlan_activate (bp_id plan)) w in
      match billingPlan_activate env with
      | None => (Done VUndefined, w1)
      | Some e => (Fail e, w1)
      end
    | _ => (Throw (TypeError "Cannot read property 'id' of undefined"), w)
    end.

(** [start_date] is four seconds ahead of the clock. *)
Definition createBillingAgreement (r : results) : step :=
  fun w =>
    match lookup "createPlan" r with
    | VBillingPlan plan =>
      let w1 := send (paypal_billingAgreement_create (bp_id plan) (now w + 4)) w in
      match billingAgreement_create env with
      | Ok agreement => (Done (VAgreement agreement), w1)
      | Err e => (Fail e, w1)
      end
    | _ => (Throw (TypeError "Cannot read property 'id' of undefined"), w)
    end.

Definition updateSubscription (r : results) : step :=
  fun w =>
    match lookup "createTransaction" r, lookup "createBillingAgreement" r with
    | VTransaction transaction, VAgreement agreement =>
      match storage_fault env transaction_getSubscription with
      | Some e => (Fail e, w)
      | None =>
        match find (fun s => opt_Z_eqb (Some (s_id s)) (t_SubscriptionId transaction))
                   (Subscriptions w) with
        | None => (Fail (Rejected (TypeError "Cannot set property 'data' of null")), w)
        | Some subscription =>
          match storage_fault env subscription_save with
          | Some e => (Fail e, w)
          | None =>
            (Done VUndefined,
             update_subscription (s_id subscription)
               (fun s => mkSubscription (s_id s) (s_amount s) (s_currency s) (s_interval s)
                           (mkSubscriptionData (Some agreement) None)
                           (s_isActive s) (s_activatedAt s)) w)
          end
        end
      end
    | _, _ => (Throw (TypeError "Cannot read property of undefined"), w)
    end.

Definition tasks : list task :=
  [ mkTask "getPaypalConfig" [] getPaypalConfig;
    mkTask "createTransaction" ["getPaypalConfig"] createTransaction;
    mkTask "createPlan" ["createTransaction"] createPlan;
    mkTask "activatePlan" ["createPlan"] activatePlan;
    mkTask "createBillingAgreement" ["activatePlan"] createBillingAgreement;
    mkTask "updateSubscription" ["createBillingAgreement"] updateSubscription ].

Definition completion_callback (c : completion) : outcome :=
  match c with
  | Failed e => Responded (next e (Some payment))
  | Completed r =>
    match lookup "createBillingAgreement" r with
    | VAgreement a => Responded (send_links (ag_links a))
    | _ => Uncaught (TypeError "Cannot read property 'links' of undefined")
    end
  | NeverCalled | Exhausted => NoResponse
  | Crashed x => Uncaught x
  end.

End Steps.
End PaypalDonationSteps.

Definition paypalDonation_validate (payment : Payment) : option error :=
  if negb (contains_in ["month"; "year"] (p_interval payment)) then
    Some (BadRequest "Interval should be month or year.")
  else if negb (truthy_num (p_amount payment)) then
    Some (BadRequest "Payment Amount missing.")
  else None.

Definition paypalDonation_graph (req : Request) (env : Env) (w : World)
  : completion * World * trace :=
  auto (PaypalDonationSteps.tasks req env) w.

Definition paypalDonation (req : Request) (env : Env) (w : World) : outcome * World :=
  match paypalDonation_validate (required_payment req) with
  | Some e => (Responded (next e None), w)
  | None =>
    let '(c, w', _) := paypalDonation_graph req env w in
    (PaypalDonationSteps.completion_callback req c, w')
  end.

(** *** [paypalCallback]: the provider sends the payer back *)

Module PaypalCallbackSteps.
Section Steps.

Variable req : CallbackRequest.
Variable env : Env.

Let transaction := cb_paranoidtransaction req.
Let group := cb_group req.
Let token := cb_token req.

Definition getPaypalConfig (_ : results) : step :=
  fun w =>
    match group_getConnectedAccount env with
    | Err e => (Fail e, w)
    | Ok None =>
      (Fail (Rejected (TypeError "Cannot read property 'clientId' of null")), w)
    | Ok (Some connectedAccount) =>
      (Done (VPaypalConfig (mkPaypalConfig (config_paypal_rest_mode env)
                              (clientId connectedAccount) (secret connectedAccount))), w)
    end.

Definition executeBillingAgreement (_ : results) : step :=
  fun w =>
    let w1 := send (paypal_billingAgreement_execute (show token)) w in
    match billingAgreement_execute env with
    | Ok agreement => (Done (VAgreement agreement), w1)
    | Err e => (Fail e, w1)
    end.

Definition activateSubscription (r : results) : step :=
  fun w =>
    match storage_fault env transaction_getSubscription with
    | Some e => (Fail e, w)
    | None =>
      match find (fun s => opt_Z_eqb (Some (s_id s)) (t_SubscriptionId transaction))
                 (Subscriptions w),
            lookup "executeBillingAgreement" r with
      | Some subscription, VAgreement agreement =>
        match storage_fault env subscription_save with
        | Some e => (Fail e, w)
        | None =>
          (Done VUndefined,
           update_subscription (s_id subscription)
             (fun s => mkSubscription (s_id s) (s_amount s) (s_currency s) (s_interval s)
                         (mkSubscriptionData (sdata_agreement (s_data s))
                                             (Some (ag_id agreement)))
                         true (Some (now w))) w)
        end
      | _, _ => (Fail (Rejected (TypeError "Cannot read property of null")), w)
      end
    end.

Definition getOrCreateUser_step (r : results) : step :=
  fun w =>
    match lookup "executeBillingAgreement" r with
    | VAgreement agreement => getOrCreateUser env (ag_payer_email agreement) w
    | _ => (Throw (TypeError "Cannot read property 'payer' of undefined"), w)
    end.

Definition addUserToGroup (r : results) : step :=
  fun w =>
    match lookup "getOrCreateUser" r with
    | VUser user => findOrAddBacker env group user w
    | _ => (Throw (TypeError "Cannot read property 'id' of undefined"), w)
    end.

(** [transaction.restore()] clears [deletedAt]; [transaction.setUser(user)]
    follows only when it succeeded. *)
Definition updateTransaction (r : results) : step :=
  fun w =>
    match storage_fault env transaction_restore with
    | Some e => (Fail e, w)
    | None =>
      let w1 := update_transaction (t_id transaction)
                  (fun t => with_deletedAt t None) w in
      match storage_fault env transaction_setUser with
      | Some e => (Fail e, w1)
      | None =>
        let UserId := match lookup "getOrCreateUser" r with
                      | VUser user => Some (u_id user)
                      | _ => None
                      end in
        (Done VUndefined,
         update_transaction (t_id transaction) (fun t => with_UserId t UserId) w1)
      end
    end.

Definition tasks : list task :=
  [ mkTask "getPaypalConfig" [] getPaypalConfig;
    mkTask "executeBillingAgreement" ["getPaypalConfig"] executeBillingAgreement;
    mkTask "activateSubscription" ["executeBillingAgreement"] activateSubscription;
    mkTask "getOrCreateUser" ["activateSubscription"] getOrCreateUser_step;
    mkTask "addUserToGroup" ["getOrCreateUser"] addUserToGroup;
    mkTask "updateTransaction" ["addUserToGroup"] updateTransaction ].

Definition completion_callback (c : completion) : outcome :=
  match c with
  | Failed err => Responded (next err None)
  | Completed r =>
    match lookup "getOrCreateUser" r with
    | VUser user =>
      Responded (redirect (config_host_website env ++ "/" ++ g_slug group
                           ++ "?status=payment_success&userid=" ++ string_of_Z (u_id user)
                           ++ "&has_full_account=" ++ show_bool (u_hasFullAccount user)))
    | _ => Uncaught (TypeError "Cannot read property 'id' of undefined")
    end
  | NeverCalled | Exhausted => NoResponse
  | Crashed x => Uncaught x
  end.

End Steps.
End PaypalCallbackSteps.

Definition paypalCallback_validate (req : CallbackRequest) : option error :=
  if negb (truthy_str (cb_token req)) then
    Some (BadRequest "Token to execute agreement is missing")
  else None.

Definition paypalCallback_graph (req : CallbackRequest) (env : Env) (w : World)
  : completion * World * trace :=
  auto (PaypalCallbackSteps.tasks req env) w.

Definition paypalCallback (req : CallbackRequest) (env : Env) (w : World) : outcome * World :=
  match paypalCallback_validate req with
  | Some e => (Responded (next e None), w)
  | None =>
    let '(c, w', _) := paypalCallback_graph req env w in
    (PaypalCallbackSteps.completion_callback req env c, w')
  end.

(** ** Vocabulary of the statements *)

(** [new] extends [old] by rows that all satisfy [P]. *)
Definition grows {A : Type} (P : A -> Prop) (old new : list A) : Prop :=
  exists added, new = (old ++ added)%list /\ Forall P added.

(** A transaction id that no normal (paranoid) query returns. *)
Definition hidden (id : Z) (w : World) : Prop :=
  ~ In id (map t_id (Transaction_findAll w)).

Definition count_backer (group : Group) (user : User) (w : World) : nat :=
  List.length (filter (is_membership group user BACKER) (UserGroups w)).


(** The provider's not-found condition as [getOrCreatePlan] recognises it. *)
Definition no_such_plan (err : StripeError) : Prop :=
  se_type err = Some "StripeInvalidRequest" /\
  exists m, se_message err = Some m /\ substring_of "No such plan" m = true.

Definition is_month_or_year (interval : option string) : Prop :=
  interval = Some "month" \/ interval = Some "year".

(** A request the validations of [post] let through as a one-time charge. *)
Definition one_time_charge (p : Payment) : Prop :=
  truthy_str (p_stripeToken p) = true /\
  truthy_num (p_amount p) = true /\
  truthy_str (p_interval p) = false.

Definition is_customers_create (c : Call) : bool :=
  match c with stripe_customers_create _ _ _ => true | _ => false end.


(** The customer a charge or a subscription request is made for. *)
Definition charged_customer (c : Call) : option string :=
  match c with
  | stripe_customers_createSubscription customer _ _ _ _ => Some customer
  | stripe_charges_create _ _ customer _ _ _ => Some customer
  | _ => None
  end.

(** The amount a request to the card provider carries. *)
Definition stripe_amount (c : Call) : option number :=
  match c with
  | stripe_plans_create plan => Some (plan_amount plan)
  | stripe_charges_create amount _ _ _ _ _ => Some amount
  | _ => None
  end.

(** The amount a request to the wallet provider carries. *)
Definition paypal_amount (c : Call) : option number :=
  match c with
  | paypal_billingPlan_create _ _ _ value _ => Some value
  | _ => None
  end.

(** ** Vocabulary of the proofs *)

(** Tasks of a graph that have not been started. *)
Definition unstarted (tasks : list task) (started : list string) : list task :=
  filter (fun t => negb (has (name t) started)) tasks.

(** A step maintains the invariant [I] of the executor's state and leaves an
    event that satisfies [Q]. *)
Definition maintains (I : results -> World -> Prop) (Q : event -> Prop)
           (n : string) (ds : list string) (f : results -> step) : Prop :=
  forall r w o w',
    has n (map fst r) = false ->
    forallb (fun d => has d (map fst r)) ds = true ->
    I r w -> f r w = (o, w') ->
    Q (mkEvent n o w') /\
    match o with
    | Done v => I ((n, v) :: r) w'
    | Pending => I r w'
    | Fail _ | Throw _ => True
    end.

(** Steps run one after the other, each receiving the results of those
    before it: what [auto] amounts to on a graph whose tasks become ready
    one at a time in declaration order. *)
Fixpoint run_chain (steps : list (string * (results -> step)))
         (r : results) (w : World) : completion * World * trace :=
  match steps with
  | [] => (Completed r, w, [])
  | (n, f) :: rest =>
    let '(o, w') := f r w in
    match o with
    | Done v =>
      let '(c, wf, tr) := run_chain rest ((n, v) :: r) w' in
      (c, wf, mkEvent n o w' :: tr)
    | Pending => (NeverCalled, w', [mkEvent n o w'])
    | Fail e => (Failed e, w', [mkEvent n o w'])
    | Throw x => (Crashed x, w', [mkEvent n o w'])
    end
  end.

(** A transaction written by the initiation that is being looked at: it
    is soft-deleted and its id was not in use in the world [w] before. *)
Definition provisional (w : World) (t : Transaction) : Prop :=
  visible t = false /\ ~ In (t_id t) (map t_id (Transactions w)).

(** What the wallet initiation of [req], started in world [w], has done by
    the time the world is [w']: the Transaction rows it wrote are
    provisional and carry the amount of the request as given, and so do the
    Subscription rows it wrote and the requests it sent. *)
Definition initiation_effect (req : Request) (w w' : World) : Prop :=
  let amount := p_amount (required_payment req) in
  grows (fun t => provisional w t /\ t_amount t = amount /\ t_amountInteger t = None)
        (Transactions w) (Transactions w') /\
  grows (fun a => a = num amount)
        (map s_amount (Subscriptions w)) (map s_amount (Subscriptions w')) /\
  grows (fun c => forall a, paypal_amount c = Some a -> a = num amount)
        (calls w) (calls w').

(** A step of the initiation that writes no row. *)
Definition initiation_frame (req : Request) (w1 w2 : World) : Prop :=
  Transactions w2 = Transactions w1 /\
  map s_amount (Subscriptions w2) = map s_amount (Subscriptions w1) /\
  (calls w2 = calls w1 \/
   exists c, calls w2 = (calls w1 ++ [c])%list /\
             forall a, paypal_amount c = Some a ->
                       a = num (p_amount (required_payment req))).

(** What a run of [post] for [req], started in world [w], has done by the
    time the world is [w']: the Donation rows it wrote carry the amount of
    the request times 100 (and, in their subscription descriptor, the amount
    as given), and the requests it sent to the card provider carry the
    amount times 100.  The product is the one of doubles; nothing rounds
    it to an integer. *)
Definition post_effect (req : Request) (w w' : World) : Prop :=
  let amount := num (p_amount (required_payment req)) in
  grows (fun d => d_amount d = mul amount (number_of_Z 100) /\
                  forall sd, d_subscription d = Some sd -> sd_amount sd = amount)
        (Donations w) (Donations w') /\
  grows (fun c => forall a, stripe_amount c = Some a -> a = mul amount (number_of_Z 100))
        (calls w) (calls w').

(** The PaymentMethod rows [getExistingPaymentMethod] looks for. *)
Definition method_matches (token : option string) (pm : PaymentMethod) : bool :=
  opt_str_eqb (pm_token pm) token && (pm_service pm =? "stripe")%string.

Definition existing_method (token : option string) (w : World) : option PaymentMethod :=
  find (method_matches token) (PaymentMethods w).


(** A request that creates no provider customer and charges customer
    [serviceId] if it charges anyone. *)
Definition reuses_customer (serviceId : string) (c : Call) : Prop :=
  is_customers_create c = false /\
  forall customer, charged_customer c = Some customer -> customer = serviceId.

(** The plan [getOrCreatePlan] hands back under the answers of [env]: the
    one retrieved or, when retrieval reports that there is no such plan, the
    one created. *)
Definition resolved_plan (env : Env) (plan : Plan) : Prop :=
  plans_retrieve env = inr plan \/
  exists err,
    plans_retrieve env = inl err /\ no_such_plan err /\ plans_create env = inr plan.

(** What a request sent by [post] for [req] looks like. *)
Definition post_sends (req : Request) (env : Env) (c : Call) : Prop :=
  let p := required_payment req in
  let group := req_group req in
  let amount := mul (num (p_amount p)) (number_of_Z 100) in
  let currency := or_str (p_currency p) (g_currency group) in
  let id := utils_planId env currency (p_interval p) amount in
  match c with
  | stripe_customers_create source description email =>
    source = p_stripeToken p /\ email = p_email p /\
    description = ("Paying " ++ show (p_email p) ++ " to " ++ g_name group)%string
  | stripe_plans_retrieve i =>
    is_month_or_year (p_interval p) /\ i = id
  | stripe_plans_create plan =>
    is_month_or_year (p_interval p) /\
    plan = mkPlan id (p_interval p) amount id currency /\
    exists err, plans_retrieve env = inl err /\ no_such_plan err
  | stripe_customers_createSubscription _ plan fee gid _ =>
    is_month_or_year (p_interval p) /\ fee = 5 /\ gid = g_id group /\
    exists resolved, resolved_plan env resolved /\ plan = plan_id resolved
  | stripe_charges_create a cur _ description gid _ =>
    ~ is_month_or_year (p_interval p) /\ a = amount /\ cur = currency /\
    gid = g_id group /\
    description = ("One time donation to " ++ g_name group)%string
  | _ => False
  end.

(** What a Donation row written by [post] for [req] looks like; [charge] is
    what the provider answered to the subscription or to the charge. *)
Definition post_writes (req : Request) (env : Env) (d : Donation) : Prop :=
  let p := required_payment req in
  d_CollectiveId d = g_id (req_group req) /\
  d_amount d = mul (num (p_amount p)) (number_of_Z 100) /\
  d_title d = ("Donation to " ++ g_name (req_group req))%string /\
  (exists u, req_user req = Some u /\ d_UserId d = u_id u) /\
  exists charge,
    charge_currency charge = Some (d_currency d) /\
    (is_month_or_year (p_interval p) ->
     customers_createSubscription env = inr charge /\
     d_subscription d
     = Some (mkSubscriptionDescriptor (num (p_amount p)) (d_currency d) (p_interval p)
                                      (ch_id charge) charge)) /\
    (~ is_month_or_year (p_interval p) ->
     charges_create env = inr charge /\ d_subscription d = None).

(** The three requests a complete wallet initiation of [req] sends when it
    starts in world [w]: the billing plan, whose return and cancel URL name
    the collective and the id the provisional transaction receives, the
    activation of the plan the provider answered with, and the agreement
    against that plan, starting four seconds after the clock. *)
Definition initiation_requests (req : Request) (env : Env) (w : World) : list Call :=
  let group := req_group req in
  let p := required_payment req in
  let currency := or_str (p_currency p) (g_currency group) in
  let interval := match p_interval p with Some i => i | None => "" end in
  let transactionId := fresh_id (map t_id (Transactions w)) in
  let plan := match billingPlan_create env with Ok plan => bp_id plan | Err _ => "" end in
  [ paypal_billingPlan_create
      ("Plan for donation to " ++ g_name group ++ " (" ++ currency ++ " "
       ++ Number_toString (num (p_amount p)) ++ " / " ++ interval ++ ")")
      (config_host_api env ++ "/groups/" ++ string_of_Z (g_id group)
       ++ "/transactions/" ++ string_of_Z transactionId ++ "/callback")
      currency (num (p_amount p)) (toUpperCase interval);
    paypal_billingPlan_activate plan;
    paypal_billingAgreement_create plan (now w + 4) ].

(** What [activateSubscription] does to the subscription row: it records
    the id of the executed agreement and marks the row active at [at_]. *)
Definition activated (a : Agreement) (at_ : Z) (s : Subscription) : Subscription :=
  mkSubscription (s_id s) (s_amount s) (s_currency s) (s_interval s)
    (mkSubscriptionData (sdata_agreement (s_data s)) (Some (ag_id a))) true (Some at_).

(** What [transaction.restore()] alone does to a row. *)
Definition reveal_for (id : Z) (t : Transaction) : Transaction :=
  if t_id t =? id then with_deletedAt t None else t.

(** What [updateTransaction] does to a row when both of its writes succeed. *)
Definition restore_for (id : Z) (user : User) (t : Transaction) : Transaction :=
  if t_id t =? id then with_UserId (with_deletedAt t None) (Some (u_id user)) else t.

(** ** Sample requests, worlds and collaborator answers *)

Module Sample.

Definition world : World := mkWorld [] [] [] [] [] [] [] 1000.

Definition alice : User := mkUser 1 "alice@example.com" true.

Definition group : Group := mkGroup 7 "WWCode Austin" "USD" "wwcode-austin".

Definition no_fault : StorageOp -> option error := fun _ => None.

Definition plan : Plan :=
  mkPlan "USD-MONTH-1000" (Some "month") (number_of_Z 1000) "USD-MONTH-1000" "USD".

Definition not_found : StripeError :=
  mkStripeError (Some "StripeInvalidRequest") (Some "No such plan: USD-MONTH-1000").

Definition card_declined : StripeError :=
  mkStripeError (Some "StripeCardError") (Some "Your card was declined.").

Definition rate_limited : StripeError :=
  mkStripeError (Some "StripeRateLimitError") (Some "Too many requests").

(** Every collaborator succeeds; the plan does not exist yet; the charge
    comes back without an application fee. *)
Definition env_with (retrieve : StripeError + Plan) (faults : StorageOp -> option error) : Env :=
  mkEnv (Some "test") "sandbox" "https://api.example" "https://www.example"
        "donation" (number_of_Z 5)
        (fun c i a => toUpperCase (c ++ "-" ++ show i ++ "-" ++ Number_toString a)) false
        (Ok (Some (mkStripeAccount (Some "sk_test_1"))))
        (Ok (Some (mkConnectedAccount "client-id" "client-secret")))
        (inr (mkCustomer "cus_1"))
        retrieve
        (inr plan)
        (inr (mkCharge "sub_1" None (Some plan) None))
        (inr (mkCharge "ch_1" (Some "usd") None None))
        (Ok (mkBillingPlan "P-1")) None
        (Ok (mkAgreement "I-1" ["https://approve.example/I-1"] "bob@example.com"))
        (Ok (mkAgreement "I-1" [] "bob@example.com"))
        faults.

Definition env : Env := env_with (inl not_found) no_fault.

(** [{amount: 10, currency: "USD", stripeToken: "tok_valid"}] *)
Definition one_time : Request :=
  mkRequest (mkPayment (Some (number_of_Z 10)) (Some "USD") None (Some "tok_valid")
               (Some "alice@example.com"))
            (Some alice) group.

Definition monthly : Request :=
  mkRequest (mkPayment (Some (number_of_Z 10)) (Some "USD") (Some "month") (Some "tok_valid")
               (Some "alice@example.com"))
            (Some alice) group.

Definition weekly : Request :=
  mkRequest (mkPayment (Some (number_of_Z 10)) (Some "USD") (Some "week") (Some "tok_valid")
               (Some "alice@example.com"))
            (Some alice) group.

Definition negative : Request :=
  mkRequest (mkPayment (Some (number_of_Z (-5))) (Some "USD") None (Some "tok_valid")
               (Some "alice@example.com"))
            (Some alice) group.

(** [{amount: 5, interval: "month", currency: "EUR"}] *)
Definition wallet : Request :=
  mkRequest (mkPayment (Some (number_of_Z 5)) (Some "EUR") (Some "month") None None) None group.

(** The world the wallet initiation leaves, its provisional transaction,
    and the callback request that refers to it. *)
Definition initiated : World := snd (paypalDonation wallet env world).

Definition provisional : Transaction :=
  mkTransaction 1 "payment" (Some (number_of_Z 5)) None "EUR" (Some "month")
    (Some "Donation to WWCode Austin") ["Donation"] true
    None None None None None (Some 7) None (Some 1) (Some 1000).

Definition callback : CallbackRequest :=
  mkCallbackRequest group (Some "EC-1") provisional.

(** Storage refuses to attach the user to the restored transaction. *)
Definition setUser_fails : StorageOp -> option error :=
  fun op => match op with
            | transaction_setUser => Some (StorageFailure "connection lost")
            | _ => None
            end.

Definition restore_fails : StorageOp -> option error :=
  fun op => match op with
            | transaction_restore => Some (StorageFailure "connection lost")
            | _ => None
            end.

Definition User_findOne_fails : StorageOp -> option error :=
  fun op => match op with
            | User_findOne => Some (StorageFailure "connection lost")
            | _ => None
            end.


(** Variations of the answers. *)
Definition with_NODE_ENV (v : option string) (e : Env) : Env :=
mkEnv v (config_paypal_rest_mode e) (config_host_api e) (config_host_website e)
      (constants_DONATION e) (constants_OC_FEE_PERCENT e) (utils_planId e)
      (new_user_hasFullAccount e) (group_getStripeAccount e) (group_getConnectedAccount e)
      (customers_create e) (plans_retrieve e) (plans_create e)
      (customers_createSubscription e) (charges_create e) (billingPlan_create e)
      (billingPlan_activate e) (billingAgreement_create e) (billingAgreement_execute e)
      (storage_fault e).

Definition with_StripeAccount (v : result (option StripeAccount)) (e : Env) : Env :=
mkEnv (NODE_ENV e) (config_paypal_rest_mode e) (config_host_api e) (config_host_website e)
      (constants_DONATION e) (constants_OC_FEE_PERCENT e) (utils_planId e)
      (new_user_hasFullAccount e) v (group_getConnectedAccount e)
      (customers_create e) (plans_retrieve e) (plans_create e)
      (customers_createSubscription e) (charges_create e) (billingPlan_create e)
      (billingPlan_activate e) (billingAgreement_create e) (billingAgreement_execute e)
      (storage_fault e).

Definition with_ConnectedAccount (v : result (option ConnectedAccount)) (e : Env) : Env :=
mkEnv (NODE_ENV e) (config_paypal_rest_mode e) (config_host_api e) (config_host_website e)
      (constants_DONATION e) (constants_OC_FEE_PERCENT e) (utils_planId e)
      (new_user_hasFullAccount e) (group_getStripeAccount e) v
      (customers_create e) (plans_retrieve e) (plans_create e)
      (customers_createSubscription e) (charges_create e) (billingPlan_create e)
      (billingPlan_activate e) (billingAgreement_create e) (billingAgreement_execute e)
      (storage_fault e).

Definition with_charge (v : StripeError + Charge) (e : Env) : Env :=
mkEnv (NODE_ENV e) (config_paypal_rest_mode e) (config_host_api e) (config_host_website e)
      (constants_DONATION e) (constants_OC_FEE_PERCENT e) (utils_planId e)
      (new_user_hasFullAccount e) (group_getStripeAccount e) (group_getConnectedAccount e)
      (customers_create e) (plans_retrieve e) (plans_create e)
      (customers_createSubscription e) v (billingPlan_create e)
      (billingPlan_activate e) (billingAgreement_create e) (billingAgreement_execute e)
      (storage_fault e).

Definition live_account : StripeAccount := mkStripeAccount (Some "sk_live_1").

Definition anonymous : Request :=
mkRequest (mkPayment (Some (number_of_Z 10)) (Some "USD") None (Some "tok_valid")
             (Some "carol@example.com"))
          None group.

(** A one-time request that names no currency. *)
Definition no_currency : Request :=
mkRequest (mkPayment (Some (number_of_Z 10)) None None (Some "tok_valid") (Some "alice@example.com"))
          (Some alice) group.

Definition bob : User := mkUser 1 "bob@example.com" false.

(** [{amount: 19.99, currency: "USD", stripeToken: "tok_valid"}] *)
Definition cents : Request :=
mkRequest (mkPayment (Some (literal 1999 2)) (Some "USD") None (Some "tok_valid")
             (Some "alice@example.com"))
          (Some alice) group.

(** [{amount: 7000000000000002, currency: "USD", stripeToken: "tok_valid"}] *)
Definition large : Request :=
mkRequest (mkPayment (Some (number_of_Z 7000000000000002)) (Some "USD") None
             (Some "tok_valid") (Some "alice@example.com"))
          (Some alice) group.

End Sample.

(** * Properties *)

(** ** The task graph executor *)

Lemma last_cons_default {A : Type} (a d : A) (l : list A) :
  last (a :: l) d = last l a.
Proof.
  revert a d; induction l as [|b l IH]; intros a d; [reflexivity|].
  change (last (a :: b :: l) d) with (last (b :: l) d).
  rewrite (IH b d), (IH b a). reflexivity.
Qed.

Lemma has_cons (k x : string) (l : list string) :
  has k (x :: l) = ((k =? x)%string || has k l)%bool.
Proof. reflexivity. Qed.

Lemma filter_length_le {A : Type} (p q : A -> bool) (l : list A) :
  (forall x, q x = true -> p x = true) ->
  (List.length (filter q l) <= List.length (filter p l))%nat.
Proof.
  intros Hpq; induction l as [|a l IH]; simpl; [lia|].
  destruct (q a) eqn:Hq.
  - rewrite (Hpq a Hq). simpl. lia.
  - destruct (p a); simpl; lia.
Qed.

Lemma filter_length_lt {A : Type} (p q : A -> bool) (l : list A) (x : A) :
  (forall y, q y = true -> p y = true) ->
  In x l -> p x = true -> q x = false ->
  (List.length (filter q l) < List.length (filter p l))%nat.
Proof.
  intros Hpq; induction l as [|a l IH]; simpl; [tauto|].
  intros [-> | Hin] Hp Hq.
  - rewrite Hp, Hq. simpl.
    pose proof (filter_length_le p q l Hpq). lia.
  - specialize (IH Hin Hp Hq).
    destruct (q a) eqn:Hqa.
    + rewrite (Hpq a Hqa). simpl. lia.
    + destruct (p a); simpl; lia.
Qed.

Section Executor.

Variable tasks : list task.

(** The fuel [auto] gives to [loop] is never used up: every round starts a
    task that had not been started. *)
Lemma loop_fuel : forall fuel started r w,
  (List.length (unstarted tasks started) < fuel)%nat ->
  fst (fst (loop fuel tasks started r w)) <> Exhausted.
Proof.
  induction fuel as [|fuel IH]; intros started r w Hlt; [lia|].
  simpl. destruct (find (ready started r) tasks) as [t|] eqn:Hfind.
  - apply find_some in Hfind. destruct Hfind as [Hin Hready].
    unfold ready in Hready. apply andb_true_iff in Hready.
    destruct Hready as [Hnew _].
    assert (Hdec : (List.length (unstarted tasks (name t :: started)) < fuel)%nat).
    { assert (List.length (unstarted tasks (name t :: started))
              < List.length (unstarted tasks started))%nat; [|lia].
      unfold unstarted. apply filter_length_lt with (x := t); auto.
      - intros y Hy. rewrite has_cons in Hy.
        apply negb_true_iff in Hy. apply orb_false_iff in Hy.
        destruct Hy as [_ Hy]. now rewrite Hy.
      - rewrite has_cons, String.eqb_refl. reflexivity. }
    destruct (run t r w) as [o w'] eqn:Hrun.
    destruct o; simpl.
    + specialize (IH (name t :: started) ((name t, v) :: r) w' Hdec).
      destruct (loop fuel tasks (name t :: started) ((name t, v) :: r) w')
        as [[c wf] tr]. exact IH.
    + discriminate.
    + specialize (IH (name t :: started) r w' Hdec).
      destruct (loop fuel tasks (name t :: started) r w') as [[c wf] tr].
      exact IH.
    + discriminate.
  - simpl. destruct (all_yielded tasks r); discriminate.
Qed.

Lemma auto_fuel (w : World) : fst (fst (auto tasks w)) <> Exhausted.
Proof.
  unfold auto. apply loop_fuel.
  unfold unstarted.
  pose proof (filter_length_le (fun _ => true)
                (fun t => negb (has (name t) [])) tasks (fun _ _ => eq_refl)) as H.
  assert (Hall : filter (fun _ : task => true) tasks = tasks).
  { clear H. induction tasks as [|a l IH]; simpl; [reflexivity|now rewrite IH]. }
  rewrite Hall in H. lia.
Qed.

(** An invariant [I] of the executor's state (results gathered, world)
    that every runnable task maintains holds whenever the graph completes;
    [Q] records what each started task leaves behind. *)
Variable I : results -> World -> Prop.
Variable Q : event -> Prop.

Hypothesis Hstep : forall t r w o w',
  In t tasks ->
  has (name t) (map fst r) = false ->
  forallb (fun d => has d (map fst r)) (deps t) = true ->
  I r w ->
  run t r w = (o, w') ->
  Q (mkEvent (name t) o w') /\
  match o with
  | Done v => I ((name t, v) :: r) w'
  | Pending => I r w'
  | Fail _ | Throw _ => True
  end.

Lemma loop_invariant : forall fuel started r w c wf tr,
  (forall k, has k (map fst r) = true -> has k started = true) ->
  I r w ->
  loop fuel tasks started r w = (c, wf, tr) ->
  Forall Q tr /\
  wf = last (map ev_world tr) w /\
  (forall r', c = Completed r' -> I r' wf /\ all_yielded tasks r' = true) /\
  (forall e, c = Failed e ->
     exists ev, failure tr = Some ev /\ ev_result ev = Fail e /\ ev_world ev = wf).
Proof.
  induction fuel as [|fuel IH]; intros started r w c wf tr Hsub HI Hloop.
  - simpl in Hloop. inversion Hloop; subst.
    repeat split; [constructor | discriminate | discriminate | discriminate].
  - simpl in Hloop.
    destruct (find (ready started r) tasks) as [t|] eqn:Hfind.
    + apply find_some in Hfind. destruct Hfind as [Hin Hready].
      unfold ready in Hready. apply andb_true_iff in Hready.
      destruct Hready as [Hnew Hdeps]. apply negb_true_iff in Hnew.
      assert (Hnot : has (name t) (map fst r) = false).
      { destruct (has (name t) (map fst r)) eqn:E; [|reflexivity].
        apply Hsub in E. congruence. }
      destruct (run t r w) as [o w'] eqn:Hrun.
      destruct (Hstep t r w o w' Hin Hnot Hdeps HI Hrun) as [HQ Ho].
      destruct o.
      * destruct (loop fuel tasks (name t :: started) ((name t, v) :: r) w')
          as [[c1 wf1] tr1] eqn:Hrec.
        inversion Hloop; subst; clear Hloop.
        apply IH in Hrec; [|
          intros k Hk;
          change (map fst ((name t, v) :: r)) with (name t :: map fst r) in Hk;
          rewrite has_cons in Hk; rewrite has_cons;
          apply orb_true_iff in Hk; apply orb_true_iff;
          destruct Hk as [Hk|Hk]; [left; exact Hk | right; apply Hsub, Hk] | exact Ho].
        destruct Hrec as [HF [Hlast [Hc Hf]]].
        split; [constructor; [exact HQ | exact HF]|].
        split; [|split; [exact Hc | exact Hf]].
        simpl map. rewrite last_cons_default. exact Hlast.
      * inversion Hloop; subst; clear Hloop.
        split; [constructor; [exact HQ | constructor]|].
        split; [reflexivity|]. split; [discriminate|].
        intros e0 He0. inversion He0; subst.
        eexists; split; [reflexivity | split; reflexivity].
      * destruct (loop fuel tasks (name t :: started) r w')
          as [[c1 wf1] tr1] eqn:Hrec.
        inversion Hloop; subst; clear Hloop.
        apply IH in Hrec; [|
          intros k Hk; rewrite has_cons; apply orb_true_iff;
          right; apply Hsub, Hk | exact Ho].
        destruct Hrec as [HF [Hlast [Hc Hf]]].
        split; [constructor; [exact HQ | exact HF]|].
        split; [|split; [exact Hc | exact Hf]].
        simpl map. rewrite last_cons_default. exact Hlast.
      * inversion Hloop; subst; clear Hloop.
        split; [constructor; [exact HQ | constructor]|].
        split; [reflexivity|]. split; discriminate.
    + inversion Hloop; subst; clear Hloop.
      split; [constructor|]. split; [reflexivity|].
      split.
      * intros r' Hr'. destruct (all_yielded tasks r) eqn:Hall; [|discriminate].
        inversion Hr'; subst. split; [exact HI | exact Hall].
      * intros e He. destruct (all_yielded tasks r); discriminate.
Qed.

Lemma auto_invariant (w : World) c wf tr :
  I [] w ->
  auto tasks w = (c, wf, tr) ->
  Forall Q tr /\
  wf = last (map ev_world tr) w /\
  (forall r', c = Completed r' -> I r' wf /\ all_yielded tasks r' = true) /\
  (forall e, c = Failed e ->
     exists ev, failure tr = Some ev /\ ev_result ev = Fail e /\ ev_world ev = wf).
Proof.
  intros HI Hauto. unfold auto in Hauto.
  eapply loop_invariant; [| exact HI | exact Hauto].
  simpl. intros k Hk. discriminate.
Qed.

End Executor.

(** Once a task has handed an error to its callback the graph has failed
    with that error. *)
Lemma loop_failed_event (tasks : list task) :
  forall fuel started r w c wf tr ev e,
    loop fuel tasks started r w = (c, wf, tr) ->
    In ev tr -> ev_result ev = Fail e -> c = Failed e.
Proof.
  induction fuel as [|fuel IH]; intros started r w c wf tr ev e Hloop Hin Hres.
  - simpl in Hloop. inversion Hloop; subst. destruct Hin.
  - simpl in Hloop.
    destruct (find (ready started r) tasks) as [t|].
    + destruct (run t r w) as [o w'].
      destruct o.
      * destruct (loop fuel tasks (name t :: started) ((name t, v) :: r) w')
          as [[c1 wf1] tr1] eqn:Hrec.
        inversion Hloop; subst; clear Hloop.
        destruct Hin as [<- | Hin]; [discriminate|].
        eapply IH; eauto.
      * inversion Hloop; subst; clear Hloop.
        destruct Hin as [<- | []]. simpl in Hres. congruence.
      * destruct (loop fuel tasks (name t :: started) r w')
          as [[c1 wf1] tr1] eqn:Hrec.
        inversion Hloop; subst; clear Hloop.
        destruct Hin as [<- | Hin]; [discriminate|].
        eapply IH; eauto.
      * inversion Hloop; subst; clear Hloop.
        destruct Hin as [<- | []]. discriminate.
    + inversion Hloop; subst. destruct Hin.
Qed.

(** ** The plan resolver *)

Lemma no_such_plan_test (err : StripeError) :
  opt_str_eqb (se_type err) (Some "StripeInvalidRequest")
  && contains_str (se_message err) "No such plan" = true <-> no_such_plan err.
Proof.
  unfold no_such_plan. destruct err as [ty msg]; simpl. split.
  - intros H. apply andb_true_iff in H. destruct H as [Ht Hm].
    destruct ty as [ty|]; [|discriminate]. apply String.eqb_eq in Ht. subst ty.
    destruct msg as [m|]; [|discriminate]. split; [reflexivity|].
    exists m. split; [reflexivity | exact Hm].
  - intros [Ht [m [Hm Hsub]]]. subst. simpl. exact Hsub.
Qed.

(** C7: the provider-plan resolver [getOrCreatePlan].  For every plan
    identity it first asks the provider for the plan.  (1) When the retrieval
    succeeds it hands the existing plan on and sends no creation request.
    (2) When the retrieval fails with the not-found condition (type
    StripeInvalidRequest, message containing "No such plan") it sends the
    creation request and hands on what that request yields.  (3) Any other
    retrieval error is handed on unchanged, nothing is created, the
    [createCharge] step of a subscription request fails with it without
    asking for a subscription, and a graph in which a step failed with it
    ends in [next] receiving that error. *)
Theorem C7_getOrCreatePlan_retrieves_creates_or_fails (env : Env) :
  (forall plan w existing,
      plans_retrieve env = inr existing ->
      getOrCreatePlan env plan w
      = (Ok existing, send (stripe_plans_retrieve (plan_id plan)) w)) /\
  (forall plan w err,
      plans_retrieve env = inl err -> no_such_plan err ->
      getOrCreatePlan env plan w
      = (of_stripe (plans_create env),
         send (stripe_plans_create plan) (send (stripe_plans_retrieve (plan_id plan)) w))) /\
  (forall err,
      plans_retrieve env = inl err -> ~ no_such_plan err ->
      (forall plan w,
          getOrCreatePlan env plan w
          = (Err (StripeFailure err), send (stripe_plans_retrieve (plan_id plan)) w)) /\
      (forall req r w key pm,
          is_month_or_year (p_interval (required_payment req)) ->
          lookup "getGroupStripeAccount" r = VStripe key ->
          lookup "createPaymentMethod" r = VPaymentMethod pm ->
          exists id,
            PostSteps.createCharge req env r w
            = (Fail (StripeFailure err), send (stripe_plans_retrieve id) w)) /\
      (forall req w c wf tr ev,
          post_graph req env w = (c, wf, tr) ->
          In ev tr -> ev_result ev = Fail (StripeFailure err) ->
          PostSteps.completion_callback req c
          = Responded (next (StripeFailure err) (Some (required_payment req))))).
Proof.
  split; [|split].
  - intros plan w existing H. unfold getOrCreatePlan. rewrite H. reflexivity.
  - intros plan w err H Hnf. unfold getOrCreatePlan. rewrite H.
    apply no_such_plan_test in Hnf. rewrite Hnf. reflexivity.
  - intros err H Hother.
    assert (Htest : opt_str_eqb (se_type err) (Some "StripeInvalidRequest")
                    && contains_str (se_message err) "No such plan" = false).
    { destruct (opt_str_eqb (se_type err) (Some "StripeInvalidRequest")
                && contains_str (se_message err) "No such plan") eqn:E; [|reflexivity].
      apply no_such_plan_test in E. contradiction. }
    assert (Hplan : forall plan w,
               getOrCreatePlan env plan w
               = (Err (StripeFailure err), send (stripe_plans_retrieve (plan_id plan)) w)).
    { intros plan w. unfold getOrCreatePlan. rewrite H, Htest. reflexivity. }
    split; [exact Hplan|]. split.
    + intros req r w key pm Hint Hs Hpm.
      eexists. unfold PostSteps.createCharge. rewrite Hs, Hpm.
      assert (Hsub : contains_in ["month"; "year"] (p_interval (required_payment req)) = true).
      { destruct Hint as [-> | ->]; reflexivity. }
      rewrite Hsub. rewrite Hplan. reflexivity.
    + intros req w c wf tr ev Hg Hin Hres.
      unfold post_graph, auto in Hg.
      rewrite (loop_failed_event _ _ _ _ _ _ _ _ _ _ Hg Hin Hres).
      reflexivity.
Qed.

Lemma C7_getOrCreatePlan_witness :
  let limited := Sample.env_with (inl Sample.rate_limited) Sample.no_fault in
  getOrCreatePlan (Sample.env_with (inr Sample.plan) Sample.no_fault) Sample.plan Sample.world
  = (Ok Sample.plan, send (stripe_plans_retrieve "USD-MONTH-1000") Sample.world) /\
  getOrCreatePlan Sample.env Sample.plan Sample.world
  = (Ok Sample.plan,
     send (stripe_plans_create Sample.plan)
          (send (stripe_plans_retrieve "USD-MONTH-1000") Sample.world)) /\
  getOrCreatePlan limited Sample.plan Sample.world
  = (Err (StripeFailure Sample.rate_limited),
     send (stripe_plans_retrieve "USD-MONTH-1000") Sample.world) /\
  PostSteps.completion_callback Sample.monthly
    (fst (fst (post_graph Sample.monthly limited Sample.world)))
  = Responded (next (StripeFailure Sample.rate_limited)
                    (Some (required_payment Sample.monthly))) /\
  exists id,
    PostSteps.createCharge Sample.monthly limited
      [("createPaymentMethod",
        VPaymentMethod (mkPaymentMethod 1 (Some "tok_valid") "cus_1" "stripe" (Some 1)));
       ("getGroupStripeAccount", VStripe "sk_test_1")] Sample.world
    = (Fail (StripeFailure Sample.rate_limited),
       send (stripe_plans_retrieve id) Sample.world).
Proof.
  intros limited.
  assert (Hother : ~ no_such_plan Sample.rate_limited).
  { intros [H _]. discriminate H. }
  split; [|split; [|split; [|split]]].
  - apply (proj1 (C7_getOrCreatePlan_retrieves_creates_or_fails
                    (Sample.env_with (inr Sample.plan) Sample.no_fault))).
    reflexivity.
  - apply (proj1 (proj2 (C7_getOrCreatePlan_retrieves_creates_or_fails Sample.env))
             Sample.plan Sample.world Sample.not_found).
    + reflexivity.
    + split; [reflexivity|]. eexists. split; reflexivity.
  - apply (proj1 (proj2 (proj2 (C7_getOrCreatePlan_retrieves_creates_or_fails limited))
                    Sample.rate_limited eq_refl Hother)).
  - apply (proj2 (proj2 (proj2 (proj2 (C7_getOrCreatePlan_retrieves_creates_or_fails limited))
                           Sample.rate_limited eq_refl Hother))
             Sample.monthly Sample.world
             (fst (fst (post_graph Sample.monthly limited Sample.world)))
             (snd (fst (post_graph Sample.monthly limited Sample.world)))
             (snd (post_graph Sample.monthly limited Sample.world))
             (nth 4 (snd (post_graph Sample.monthly limited Sample.world))
                  (mkEvent "" Pending Sample.world))).
    + destruct (post_graph Sample.monthly limited Sample.world) as [[c wf] tr].
      reflexivity.
    + vm_compute. do 4 right. left. reflexivity.
    + reflexivity.
  - apply (proj1 (proj2 (proj2 (proj2 (C7_getOrCreatePlan_retrieves_creates_or_fails limited))
                           Sample.rate_limited eq_refl Hother))
             Sample.monthly _ Sample.world "sk_test_1"
             (mkPaymentMethod 1 (Some "tok_valid") "cus_1" "stripe" (Some 1))).
    + left. reflexivity.
    + reflexivity.
    + reflexivity.
Defined.

(** ** Validation *)

Lemma month_or_year_test (interval : option string) :
  contains_in ["month"; "year"] interval = true <-> is_month_or_year interval.
Proof.
  unfold is_month_or_year. destruct interval as [i|]; simpl.
  - split.
    + intros H. apply orb_true_iff in H. destruct H as [H|H].
      * apply String.eqb_eq in H. left. now subst.
      * apply orb_true_iff in H. destruct H as [H|H]; [|discriminate].
        apply String.eqb_eq in H. right. now subst.
    + intros [H|H]; inversion H; reflexivity.
  - split; [discriminate | intros [H|H]; discriminate].
Qed.

Lemma month_or_year_test_false (interval : option string) :
  ~ is_month_or_year interval -> contains_in ["month"; "year"] interval = false.
Proof.
  intros H. destruct (contains_in ["month"; "year"] interval) eqn:E; [|reflexivity].
  apply month_or_year_test in E. contradiction.
Qed.

(** C8, as the code has it: [post] rejects a request whose interval is given
    and is not month or year, whose charge token is missing, or whose amount
    is missing, zero (of either sign) or NaN; [paypalDonation] rejects a
    request whose interval is not month or year or whose amount is missing,
    zero or NaN (it reads no charge token).  A rejection hands a BadRequest to [next] and leaves the world as
    it was: no row is written and no request is sent.  An interval that is
    given and is neither month nor year is rejected by both handlers with the
    same error.  A negative amount passes the validations of both. *)
Theorem C8_validation_rejects_without_effect (req : Request) (env : Env) (w : World) :
  let p := required_payment req in
  ((truthy_str (p_interval p) = true /\ ~ is_month_or_year (p_interval p)) \/
   truthy_str (p_stripeToken p) = false \/
   p_amount p = None \/ (exists s, p_amount p = Some (SpecFloat.S754_zero s)) \/
   p_amount p = Some NaN ->
   exists msg, post req env w = (Responded (next (BadRequest msg) None), w)) /\
  (~ is_month_or_year (p_interval p) \/
   p_amount p = None \/ (exists s, p_amount p = Some (SpecFloat.S754_zero s)) \/
   p_amount p = Some NaN ->
   exists msg, paypalDonation req env w = (Responded (next (BadRequest msg) None), w)) /\
  (truthy_str (p_interval p) = true -> ~ is_month_or_year (p_interval p) ->
   post req env w
   = (Responded (next (BadRequest "Interval should be month or year.") None), w) /\
   paypalDonation req env w
   = (Responded (next (BadRequest "Interval should be month or year.") None), w)) /\
  (forall n, p_amount p = Some n -> ltb n (number_of_Z 0) = true ->
   (truthy_str (p_stripeToken p) = true ->
    truthy_str (p_interval p) = false \/ is_month_or_year (p_interval p) ->
    post_validate p = None) /\
   (is_month_or_year (p_interval p) -> paypalDonation_validate p = None)).
Proof.
  intros p. unfold post, paypalDonation. fold p.
  split; [|split; [|split]].
  - intros H. unfold post_validate.
    destruct (truthy_str (p_interval p) && negb (contains_in ["month"; "year"] (p_interval p)))
      eqn:E1; [eexists; reflexivity|].
    destruct (truthy_str (p_stripeToken p)) eqn:E2; simpl; [|eexists; reflexivity].
    destruct (truthy_num (p_amount p)) eqn:E3; simpl; [|eexists; reflexivity].
    exfalso. destruct H as [[Hi Hn] | [H | [H | [[sg H] | H]]]].
    + rewrite Hi, (month_or_year_test_false _ Hn) in E1. discriminate.
    + discriminate.
    + rewrite H in E3. discriminate.
    + rewrite H in E3. discriminate.
    + rewrite H in E3. discriminate.
  - intros H. unfold paypalDonation_validate.
    destruct (contains_in ["month"; "year"] (p_interval p)) eqn:E1; simpl;
      [|eexists; reflexivity].
    destruct (truthy_num (p_amount p)) eqn:E3; simpl; [|eexists; reflexivity].
    exfalso. destruct H as [Hn | [H | [[sg H] | H]]].
    + apply month_or_year_test in E1. contradiction.
    + rewrite H in E3. discriminate.
    + rewrite H in E3. discriminate.
    + rewrite H in E3. discriminate.
  - intros Hi Hn. unfold post_validate, paypalDonation_validate.
    rewrite Hi, (month_or_year_test_false _ Hn). split; reflexivity.
  - intros n Hn Hneg.
    assert (Hnum : truthy_num (p_amount p) = true).
    { rewrite Hn. destruct n as [sg|sg| |sg m e]; try reflexivity;
        cbv in Hneg; discriminate Hneg. }
    split.
    + intros Ht Hi. unfold post_validate. rewrite Ht, Hnum.
      destruct Hi as [Hi | Hi].
      * rewrite Hi. reflexivity.
      * apply month_or_year_test in Hi. rewrite Hi.
        rewrite andb_false_r. reflexivity.
    + intros Hi. unfold paypalDonation_validate. rewrite Hnum.
      apply month_or_year_test in Hi. rewrite Hi. reflexivity.
Qed.

Lemma C8_validation_witness :
  (exists msg, post Sample.weekly Sample.env Sample.world
               = (Responded (next (BadRequest msg) None), Sample.world)) /\
  (exists msg, paypalDonation Sample.weekly Sample.env Sample.world
               = (Responded (next (BadRequest msg) None), Sample.world)) /\
  (post Sample.weekly Sample.env Sample.world
   = (Responded (next (BadRequest "Interval should be month or year.") None), Sample.world) /\
   paypalDonation Sample.weekly Sample.env Sample.world
   = (Responded (next (BadRequest "Interval should be month or year.") None), Sample.world)) /\
  post_validate (required_payment Sample.negative) = None.
Proof.
  assert (Hweek : ~ is_month_or_year (p_interval (required_payment Sample.weekly))).
  { intros [H|H]; discriminate H. }
  split; [|split; [|split]].
  - apply (proj1 (C8_validation_rejects_without_effect Sample.weekly Sample.env Sample.world)).
    left. split; [reflexivity | exact Hweek].
  - apply (proj1 (proj2 (C8_validation_rejects_without_effect
                           Sample.weekly Sample.env Sample.world))).
    left. exact Hweek.
  - apply (proj1 (proj2 (proj2 (C8_validation_rejects_without_effect
                                  Sample.weekly Sample.env Sample.world)))).
    + reflexivity.
    + exact Hweek.
  - apply (proj1 (proj2 (proj2 (proj2 (C8_validation_rejects_without_effect
                                         Sample.negative Sample.env Sample.world)))
                    (number_of_Z (-5)) eq_refl eq_refl)).
    + reflexivity.
    + left. reflexivity.
Defined.

(** C8 as stated fails: a request whose amount is the non-positive -5 is not
    rejected by [post]; the graph starts, the provider is asked for a
    customer and for a charge of -500, and a Donation row is written. *)
Lemma C8_negative_amount_not_rejected :
  p_amount (required_payment Sample.negative) = Some (number_of_Z (-5)) /\
  fst (post Sample.negative Sample.env Sample.world) = NoResponse /\
  calls (snd (post Sample.negative Sample.env Sample.world))
  = [ stripe_customers_create (Some "tok_valid")
        "Paying alice@example.com to WWCode Austin" (Some "alice@example.com");
      stripe_charges_create (number_of_Z (-500)) "USD" "cus_1"
        "One time donation to WWCode Austin" 7 1 ] /\
  List.length (Donations (snd (post Sample.negative Sample.env Sample.world))) = 1%nat.
Proof. vm_compute. repeat split. Qed.

(** ** The card workflow as written *)

(** The donor acknowledgment step on its own.  Whatever the request, the
    results gathered and the world (the step consults no collaborator), the
    step raises a ReferenceError for [donation] before [emailLib.send] and
    before [cb()]. *)
Lemma sendThankYouEmail_raises (req : Request) (r : results) (w : World) :
  PostSteps.sendThankYouEmail req r w = (Throw (ReferenceError "donation"), w).
Proof. reflexivity. Qed.

(** C1 at the request [{amount: 10, currency: "USD", stripeToken:
    "tok_valid"}] with every collaborator succeeding: one charge of 1000
    minor units is requested and one Donation of 1000 is written, but no
    Transaction is written and no response is sent. *)
Theorem C1_one_time_charge_writes_no_transaction :
  let '(out, w) := post Sample.one_time Sample.env Sample.world in
  out = NoResponse /\
  map d_amount (Donations w) = [number_of_Z 1000] /\
  Transactions w = [] /\
  calls w = [ stripe_customers_create (Some "tok_valid")
                "Paying alice@example.com to WWCode Austin" (Some "alice@example.com");
              stripe_charges_create (number_of_Z 1000) "USD" "cus_1"
                "One time donation to WWCode Austin" 7 1 ].
Proof. vm_compute. repeat split. Qed.

(** C2 at the same request: every step that runs succeeds, none fails, and
    the completion callback of the graph is not invoked; the steps after
    [createDonation] are never started. *)
Theorem C2_completion_callback_not_invoked :
  let '(c, _, tr) := post_graph Sample.one_time Sample.env Sample.world in
  completions c = 0%nat /\
  failure tr = None /\
  map ev_step tr
  = [ "getGroupStripeAccount"; "getExistingPaymentMethod"; "createCustomer";
      "createPaymentMethod"; "createCharge"; "createDonation" ] /\
  post_validate (required_payment Sample.one_time) = None.
Proof. vm_compute. repeat split. Qed.

(** ** Invariants of the three task graphs *)

Lemma createDonation_never_yields (req : Request) (env : Env) (r : results) (w : World) :
  forall v, fst (PostSteps.createDonation req env r w) <> Done v.
Proof.
  intros v. unfold PostSteps.createDonation.
  destruct (lookup "createCharge" r) as [| | | | |charge| | | | | |]; try discriminate.
  destruct (charge_currency charge); try discriminate.
  destruct (req_user req); try discriminate.
  destruct (storage_fault env Donation_create); discriminate.
Qed.

Section PostInvariant.

Variable req : Request.
Variable env : Env.
Variable I : results -> World -> Prop.
Variable Q : event -> Prop.

Hypothesis H1 :
  maintains I Q "getGroupStripeAccount" []
            (PostSteps.getGroupStripeAccount req env).
Hypothesis H2 :
  maintains I Q "getExistingPaymentMethod" ["getGroupStripeAccount"]
            (PostSteps.getExistingPaymentMethod req env).
Hypothesis H3 :
  maintains I Q "createCustomer" ["getGroupStripeAccount"; "getExistingPaymentMethod"]
            (PostSteps.createCustomer req env).
Hypothesis H4 :
  maintains I Q "createPaymentMethod" ["createCustomer"; "getExistingPaymentMethod"]
            (PostSteps.createPaymentMethod req env).
Hypothesis H5 :
  maintains I Q "createCharge" ["getGroupStripeAccount"; "createPaymentMethod"]
            (PostSteps.createCharge req env).
Hypothesis H6 :
  maintains I Q "createDonation" ["createCharge"]
            (PostSteps.createDonation req env).

(** The graph of [post] never gets past [createDonation]: the three steps
    behind it are not started and the graph does not complete. *)
Lemma post_graph_invariant (w : World) c wf tr :
  I [] w ->
  post_graph req env w = (c, wf, tr) ->
  Forall Q tr /\
  wf = last (map ev_world tr) w /\
  (forall r', c <> Completed r') /\
  (forall e, c = Failed e ->
     exists ev, failure tr = Some ev /\ ev_result ev = Fail e /\ ev_world ev = wf).
Proof.
  intros HI Hg. unfold post_graph in Hg.
  pose (I' := fun r w => I r w /\ has "createDonation" (map fst r) = false
                         /\ has "createTransaction" (map fst r) = false).
  assert (HI' : I' [] w) by (split; [exact HI | split; reflexivity]).
  assert (Hstep : forall t r w0 o w',
             In t (PostSteps.tasks req env) ->
             has (name t) (map fst r) = false ->
             forallb (fun d => has d (map fst r)) (deps t) = true ->
             I' r w0 -> run t r w0 = (o, w') ->
             Q (mkEvent (name t) o w') /\
             match o with
             | Done v => I' ((name t, v) :: r) w'
             | Pending => I' r w'
             | Fail _ | Throw _ => True
             end).
  { intros t r w0 o w' Hin Hnot Hdeps [HI0 [Hd Ht]] Hrun.
    simpl in Hin.
    destruct Hin as [<-|[<-|[<-|[<-|[<-|[<-|[<-|[<-|[<-|[]]]]]]]]]];
      cbn [name deps run forallb] in *.
    + destruct (H1 r w0 o w' Hnot Hdeps HI0 Hrun) as [HQ Ho]. split; [exact HQ|].
      destruct o; auto; (split; [exact Ho | split; [exact Hd | exact Ht]]).
    + destruct (H2 r w0 o w' Hnot Hdeps HI0 Hrun) as [HQ Ho]. split; [exact HQ|].
      destruct o; auto; (split; [exact Ho | split; [exact Hd | exact Ht]]).
    + destruct (H3 r w0 o w' Hnot Hdeps HI0 Hrun) as [HQ Ho]. split; [exact HQ|].
      destruct o; auto; (split; [exact Ho | split; [exact Hd | exact Ht]]).
    + destruct (H4 r w0 o w' Hnot Hdeps HI0 Hrun) as [HQ Ho]. split; [exact HQ|].
      destruct o; auto; (split; [exact Ho | split; [exact Hd | exact Ht]]).
    + destruct (H5 r w0 o w' Hnot Hdeps HI0 Hrun) as [HQ Ho]. split; [exact HQ|].
      destruct o; auto; (split; [exact Ho | split; [exact Hd | exact Ht]]).
    + destruct (H6 r w0 o w' Hnot Hdeps HI0 Hrun) as [HQ Ho]. split; [exact HQ|].
      destruct o; auto.
      * exfalso. apply (createDonation_never_yields req env r w0 v).
        rewrite Hrun. reflexivity.
      * split; [exact Ho | split; [exact Hd | exact Ht]].
    + rewrite Hd in Hdeps. discriminate.
    + rewrite Hd in Hdeps. discriminate.
    + rewrite Ht in Hdeps. discriminate. }
  destruct (auto_invariant (PostSteps.tasks req env) I' Q Hstep w c wf tr HI' Hg)
    as [HF [Hlast [Hc Hf]]].
  - split; [exact HF|]. split; [exact Hlast|]. split; [|exact Hf].
    intros r' Hr'. destruct (Hc r' Hr') as [[_ [Hd _]] Hall].
    unfold all_yielded in Hall. cbn [PostSteps.tasks forallb name] in Hall.
    rewrite Hd in Hall. repeat rewrite andb_false_r in Hall.
    repeat rewrite andb_false_l in Hall.
    destruct (has "getGroupStripeAccount" (map fst r'));
    destruct (has "getExistingPaymentMethod" (map fst r'));
    destruct (has "createCustomer" (map fst r'));
    destruct (has "createPaymentMethod" (map fst r'));
    destruct (has "createCharge" (map fst r')); discriminate.
Qed.

End PostInvariant.

Lemma last_world_property (P : World -> Prop) (Q : event -> Prop) (tr : trace) (w : World) :
  (forall ev, Q ev -> P (ev_world ev)) ->
  Forall Q tr -> P w -> P (last (map ev_world tr) w).
Proof.
  intros HQP HF. revert w. induction HF as [|ev tr Hev HF IH]; intros w Hw.
  - exact Hw.
  - simpl map. rewrite last_cons_default. apply IH. apply HQP, Hev.
Qed.

(** Case analysis on everything a step function branches on. *)
Ltac break_step :=
  repeat match goal with
         | H : context [match ?x with _ => _ end] |- _ => destruct x eqn:?
         end;
  repeat match goal with
         | H : (_, _) = (_, _) |- _ => inversion H; subst; clear H
         end.

(** No run of [post] writes a Transaction or a membership row, and none
    completes its task graph: the completion callback runs only when one of
    the first five steps fails. *)
Lemma post_graph_stops_at_createDonation (req : Request) (env : Env) (w : World) c wf tr :
  post_graph req env w = (c, wf, tr) ->
  Transactions wf = Transactions w /\
  UserGroups wf = UserGroups w /\
  (forall r', c <> Completed r').
Proof.
  intros Hg.
  pose (P := fun w' : World =>
               Transactions w' = Transactions w /\ UserGroups w' = UserGroups w).
  destruct (post_graph_invariant req env (fun _ w' => P w') (fun ev => P (ev_world ev)))
    with (w := w) (c := c) (wf := wf) (tr := tr) as [HF [Hlast [Hc _]]];
    try exact Hg; try (split; reflexivity).
  - intros r w0 o w' _ _ [Ht Hu] Hrun. unfold PostSteps.getGroupStripeAccount in Hrun.
    break_step; repeat split; auto.
  - intros r w0 o w' _ _ [Ht Hu] Hrun. unfold PostSteps.getExistingPaymentMethod in Hrun.
    break_step; repeat split; auto.
  - intros r w0 o w' _ _ [Ht Hu] Hrun. unfold PostSteps.createCustomer in Hrun.
    break_step; repeat split; auto.
  - intros r w0 o w' _ _ [Ht Hu] Hrun. unfold PostSteps.createPaymentMethod in Hrun.
    break_step; repeat split; auto.
  - intros r w0 o w' _ _ [Ht Hu] Hrun.
    unfold PostSteps.createCharge, getOrCreatePlan in Hrun.
    break_step; repeat split; auto.
  - intros r w0 o w' _ _ [Ht Hu] Hrun. unfold PostSteps.createDonation in Hrun.
    break_step; repeat split; auto.
  - subst wf. split; [|split; [|exact Hc]].
    + apply (last_world_property (fun w' => Transactions w' = Transactions w)
               (fun ev => P (ev_world ev))); [intros ev [H _]; exact H | exact HF | reflexivity].
    + apply (last_world_property (fun w' => UserGroups w' = UserGroups w)
               (fun ev => P (ev_world ev))); [intros ev [_ H]; exact H | exact HF | reflexivity].
Qed.

(** ** Membership *)

Lemma find_none_filter {A : Type} (p : A -> bool) (l : list A) :
  find p l = None -> filter p l = [].
Proof.
  induction l as [|a l IH]; simpl; [reflexivity|].
  destruct (p a); [discriminate | exact IH].
Qed.

Lemma find_some_filter {A : Type} (p : A -> bool) (l : list A) (x : A) :
  find p l = Some x -> (1 <= List.length (filter p l))%nat.
Proof.
  induction l as [|a l IH]; simpl; [discriminate|].
  destruct (p a); simpl; [lia | exact IH].
Qed.

Lemma filter_none_find {A : Type} (p : A -> bool) (l : list A) :
  (1 <= List.length (filter p l))%nat -> exists x, find p l = Some x.
Proof.
  induction l as [|a l IH]; simpl; [lia|].
  destruct (p a); simpl; [eexists; reflexivity | exact IH].
Qed.

Lemma is_membership_new (group : Group) (user : User) :
  is_membership group user BACKER (mkUserGroup (g_id group) (u_id user) BACKER) = true.
Proof.
  unfold is_membership. simpl. rewrite !Z.eqb_refl. reflexivity.
Qed.





(** ** The graphs as chains

    In each of the three graphs the tasks become ready one at a time, in
    declaration order; [post] never gets past [createDonation]. *)

Lemma post_graph_chain (req : Request) (env : Env) (w : World) :
  post_graph req env w
  = run_chain
      [ ("getGroupStripeAccount", PostSteps.getGroupStripeAccount req env);
        ("getExistingPaymentMethod", PostSteps.getExistingPaymentMethod req env);
        ("createCustomer", PostSteps.createCustomer req env);
        ("createPaymentMethod", PostSteps.createPaymentMethod req env);
        ("createCharge", PostSteps.createCharge req env);
        ("createDonation", PostSteps.createDonation req env) ] [] w.
Proof.
  unfold post_graph, auto, PostSteps.tasks.
  cbv [List.length loop find ready name deps run has existsb forallb negb andb orb map fst
       String.eqb Ascii.eqb Bool.eqb run_chain all_yielded].
  destruct (PostSteps.getGroupStripeAccount req env [] w) as [[v1| | |] w1]; try reflexivity.
  destruct (PostSteps.getExistingPaymentMethod req env _ w1) as [[v2| | |] w2]; try reflexivity.
  destruct (PostSteps.createCustomer req env _ w2) as [[v3| | |] w3]; try reflexivity.
  destruct (PostSteps.createPaymentMethod req env _ w3) as [[v4| | |] w4]; try reflexivity.
  destruct (PostSteps.createCharge req env _ w4) as [[v5| | |] w5]; try reflexivity.
  destruct (PostSteps.createDonation req env _ w5) as [[v6| | |] w6] eqn:E6; try reflexivity.
  exfalso. eapply createDonation_never_yields. rewrite E6. reflexivity.
Qed.




Lemma paypalDonation_graph_chain (req : Request) (env : Env) (w : World) :
  paypalDonation_graph req env w
  = run_chain
      [ ("getPaypalConfig", PaypalDonationSteps.getPaypalConfig env);
        ("createTransaction", PaypalDonationSteps.createTransaction req env);
        ("createPlan", PaypalDonationSteps.createPlan req env);
        ("activatePlan", PaypalDonationSteps.activatePlan env);
        ("createBillingAgreement", PaypalDonationSteps.createBillingAgreement env);
        ("updateSubscription", PaypalDonationSteps.updateSubscription env) ] [] w.
Proof. reflexivity. Qed.

Lemma paypalCallback_graph_chain (req : CallbackRequest) (env : Env) (w : World) :
  paypalCallback_graph req env w
  = run_chain
      [ ("getPaypalConfig", PaypalCallbackSteps.getPaypalConfig env);
        ("executeBillingAgreement", PaypalCallbackSteps.executeBillingAgreement req env);
        ("activateSubscription", PaypalCallbackSteps.activateSubscription req env);
        ("getOrCreateUser", PaypalCallbackSteps.getOrCreateUser_step env);
        ("addUserToGroup", PaypalCallbackSteps.addUserToGroup req env);
        ("updateTransaction", PaypalCallbackSteps.updateTransaction req env) ] [] w.
Proof. reflexivity. Qed.

(** One step of symbolic execution of a chain held in [H]. *)
Ltac chain_step H E :=
  match type of H with
  | context [let '(_, _) := ?s in _] =>
    destruct s as [[?v|?e| |?x] ?w] eqn:E
  end.

(** ** The wallet callback, step by step *)

Lemma callback_getPaypalConfig_world (env : Env) r w o w' :
  PaypalCallbackSteps.getPaypalConfig env r w = (o, w') -> w' = w.
Proof.
  unfold PaypalCallbackSteps.getPaypalConfig. intros H. break_step; reflexivity.
Qed.

Lemma callback_executeBillingAgreement_spec (req : CallbackRequest) (env : Env) r w o w' :
  PaypalCallbackSteps.executeBillingAgreement req env r w = (o, w') ->
  Transactions w' = Transactions w /\ UserGroups w' = UserGroups w /\
  Subscriptions w' = Subscriptions w /\ Users w' = Users w /\
  (forall v, o = Done v ->
             exists a, v = VAgreement a /\ billingAgreement_execute env = Ok a).
Proof.
  unfold PaypalCallbackSteps.executeBillingAgreement. intros H. break_step;
    repeat split; try discriminate.
  intros v Hv. inversion Hv; subst. eexists; split; reflexivity.
Qed.

Lemma callback_activateSubscription_spec (req : CallbackRequest) (env : Env) r w o w' :
  PaypalCallbackSteps.activateSubscription req env r w = (o, w') ->
  Transactions w' = Transactions w /\ UserGroups w' = UserGroups w /\
  Users w' = Users w /\
  (forall e, o = Fail e -> w' = w).
Proof.
  unfold PaypalCallbackSteps.activateSubscription. intros H. break_step;
    repeat split; try discriminate.
Qed.

Lemma getOrCreateUser_spec (env : Env) (email : string) w o w' :
  getOrCreateUser env email w = (o, w') ->
  Transactions w' = Transactions w /\ UserGroups w' = UserGroups w /\
  Subscriptions w' = Subscriptions w /\
  (forall e, o = Fail e -> w' = w) /\
  (forall v, o = Done v ->
             exists u, v = VUser u /\ In u (Users w') /\ u_email u = email).
Proof.
  unfold getOrCreateUser, users__create. intros H.
  destruct (storage_fault env User_findOne).
  - inversion H; subst. repeat split; try discriminate.
  - destruct (find (fun u => (u_email u =? email)%string) (Users w)) as [u|] eqn:Hfind.
    + inversion H; subst. repeat split; try discriminate.
      intros v Hv. inversion Hv; subst. exists u.
      apply find_some in Hfind. destruct Hfind as [Hin He].
      apply String.eqb_eq in He. auto.
    + destruct (storage_fault env users_create); inversion H; subst;
        repeat split; try discriminate.
      intros v Hv. inversion Hv; subst. eexists. split; [reflexivity|].
      split; [|reflexivity]. simpl. apply in_or_app. right. left. reflexivity.
Qed.

Lemma callback_getOrCreateUser_spec (env : Env) r w o w' :
  PaypalCallbackSteps.getOrCreateUser_step env r w = (o, w') ->
  Transactions w' = Transactions w /\ UserGroups w' = UserGroups w /\
  Subscriptions w' = Subscriptions w /\
  (forall e, o = Fail e -> w' = w) /\
  (forall v, o = Done v ->
             exists u a, v = VUser u /\ In u (Users w') /\
                         lookup "executeBillingAgreement" r = VAgreement a /\
                         u_email u = ag_payer_email a).
Proof.
  unfold PaypalCallbackSteps.getOrCreateUser_step. intros H.
  destruct (lookup "executeBillingAgreement" r) eqn:Hl;
    try (inversion H; subst; repeat split; discriminate).
  apply getOrCreateUser_spec in H. destruct H as (Ht & Hg & Hs & Hf & Hd).
  repeat split; auto.
  intros v Hv. destruct (Hd v Hv) as (u & -> & Hin & He).
  exists u, a. auto.
Qed.

Lemma callback_addUserToGroup_spec (req : CallbackRequest) (env : Env) r w o w' :
  PaypalCallbackSteps.addUserToGroup req env r w = (o, w') ->
  Transactions w' = Transactions w /\ Users w' = Users w /\
  Subscriptions w' = Subscriptions w /\
  (forall e, o = Fail e -> w' = w) /\
  (forall v, o = Done v -> exists u, lookup "getOrCreateUser" r = VUser u).
Proof.
  unfold PaypalCallbackSteps.addUserToGroup, findOrAddBacker, addUserWithRole. intros H.
  break_step; repeat split; try discriminate; eauto.
Qed.

Lemma callback_updateTransaction_spec (req : CallbackRequest) (env : Env) r w o w' u :
  lookup "getOrCreateUser" r = VUser u ->
  PaypalCallbackSteps.updateTransaction req env r w = (o, w') ->
  Users w' = Users w /\
  (forall v, o = Done v ->
             Transactions w'
             = map (restore_for (t_id (cb_paranoidtransaction req)) u) (Transactions w)).
Proof.
  unfold PaypalCallbackSteps.updateTransaction. intros Hu H. rewrite Hu in H.
  break_step; split; try reflexivity; try discriminate.
  intros v _. unfold update_transaction. simpl. rewrite map_map.
  apply map_ext. intros t. unfold restore_for.
  destruct (t_id t =? t_id (cb_paranoidtransaction req)) eqn:E; simpl; rewrite E; reflexivity.
Qed.

(** Instantiate the outcome-specific parts of the step lemmas. *)
Ltac settle_outcomes :=
  repeat match goal with
         | H : forall e, Fail ?x = Fail e -> _ |- _ => specialize (H _ eq_refl)
         | H : forall v, Done ?x = Done v -> _ |- _ => specialize (H _ eq_refl)
         | H : forall e, Done _ = Fail e -> _ |- _ => clear H
         | H : forall e, Pending = Fail e -> _ |- _ => clear H
         | H : forall e, Throw _ = Fail e -> _ |- _ => clear H
         | H : forall v, Fail _ = Done v -> _ |- _ => clear H
         | H : forall v, Pending = Done v -> _ |- _ => clear H
         | H : forall v, Throw _ = Done v -> _ |- _ => clear H
         | H : exists _, _ |- _ => destruct H
         | H : _ /\ _ |- _ => destruct H
         end.

Ltac each_event Hin tac :=
  cbn [In] in Hin;
  repeat (destruct Hin as [<- | Hin];
          [cbn [ev_step ev_world ev_result] in *; tac | ]);
  try contradiction.

Ltac failing_event :=
  match goal with
  | |- exists ev, In ev ?l /\ _ =>
    exists (last l (mkEvent "" Pending (mkWorld [] [] [] [] [] [] [] 0)));
    cbn [last]; split;
    [ cbn [In]; repeat (first [left; reflexivity | right]) | split; reflexivity ]
  end.

Lemma paypalCallback_graph_facts (req : CallbackRequest) (env : Env) (w : World) c wf tr :
  paypalCallback_graph req env w = (c, wf, tr) ->
  (forall ev, In ev tr -> ev_step ev <> "updateTransaction" ->
      Transactions (ev_world ev) = Transactions w /\
      (forall e, ev_result ev = Fail e -> UserGroups (ev_world ev) = UserGroups w)) /\
  (forall e, c = Failed e ->
      exists ev, In ev tr /\ ev_result ev = Fail e /\ ev_world ev = wf) /\
  (forall r', c = Completed r' ->
      exists a u, billingAgreement_execute env = Ok a /\
                  In u (Users wf) /\ u_email u = ag_payer_email a /\
                  Transactions wf
                  = map (restore_for (t_id (cb_paranoidtransaction req)) u) (Transactions w)).
Proof.
  rewrite paypalCallback_graph_chain. cbn [run_chain]. intros H.
  chain_step H E1; [chain_step H E2; [chain_step H E3; [chain_step H E4;
    [chain_step H E5; [chain_step H E6|..]|..]|..]|..]|..];
    inversion H; subst; clear H;
    try apply callback_getPaypalConfig_world in E1;
    try apply callback_executeBillingAgreement_spec in E2;
    try apply callback_activateSubscription_spec in E3;
    try apply callback_getOrCreateUser_spec in E4;
    try apply callback_addUserToGroup_spec in E5;
    subst; settle_outcomes; cbn [lookup String.eqb Ascii.eqb Bool.eqb] in *.
  all: (split;
        [ intros ev Hin Hne;
          each_event Hin ltac:(split; [congruence | intros ? Hf; try discriminate Hf; congruence])
        | split;
          [ intros ? Hc; try discriminate Hc; inversion Hc; subst; failing_event
          | intros ? Hc; try discriminate Hc ] ]).
  subst.
  apply callback_updateTransaction_spec with (u := x0) in E6; [|reflexivity].
  destruct E6 as [HU HT]. specialize (HT _ eq_refl).
  assert (x1 = x2) by congruence. subst x1.
  exists x2, x0. repeat split; try assumption.
  - congruence.
  - rewrite HT. f_equal. congruence.
Qed.

(** ** The wallet initiation, step by step *)

Lemma fold_max_ge (ids : list Z) (x : Z) : In x ids -> x <= fold_right Z.max 0 ids.
Proof.
  induction ids as [|a ids IH]; simpl; [tauto|].
  intros [-> | Hin]; [lia | specialize (IH Hin); lia].
Qed.

Lemma fresh_id_not_in (ids : list Z) : ~ In (fresh_id ids) ids.
Proof.
  intros Hin. apply fold_max_ge in Hin. unfold fresh_id in Hin. lia.
Qed.

Lemma initiation_getPaypalConfig_world (env : Env) r w o w' :
  PaypalDonationSteps.getPaypalConfig env r w = (o, w') -> w' = w.
Proof.
  unfold PaypalDonationSteps.getPaypalConfig. intros H. break_step; reflexivity.
Qed.

Lemma transactions__create_spec (env : Env) (p : CreatePayload) w o w' :
  transactions__create env p w = (o, w') ->
  calls w' = calls w /\
  ((w' = w /\ exists e, o = Fail e) \/
   exists tx,
     o = Done (VTransaction tx) /\
     Transactions w' = (Transactions w ++ [tx])%list /\
     t_id tx = fresh_id (map t_id (Transactions w)) /\
     t_deletedAt tx = t_deletedAt (payload_transaction p) /\
     t_amount tx = t_amount (payload_transaction p) /\
     t_amountInteger tx = t_amountInteger (payload_transaction p) /\
     t_platformFee tx = t_platformFee (payload_transaction p) /\
     t_currency tx = t_currency (payload_transaction p) /\
     match payload_subscription p with
     | Some a =>
       exists s, Subscriptions w' = (Subscriptions w ++ [s])%list /\
                 s_amount s = num (sa_amount a) /\
                 t_SubscriptionId tx = Some (s_id s)
     | None => Subscriptions w' = Subscriptions w
     end).
Proof.
  unfold transactions__create. intros H.
  destruct (storage_fault env transactions_create).
  - inversion H; subst. split; [reflexivity|]. left. split; [reflexivity | eauto].
  - destruct (payload_subscription p) as [a|]; inversion H; subst; clear H;
      (split; [reflexivity|]); right; eexists; (split; [reflexivity|]);
      repeat (split; [reflexivity|]).
    + eexists. split; [reflexivity|]. split; reflexivity.
    + reflexivity.
Qed.

Lemma grows_refl {A : Type} (P : A -> Prop) (l : list A) : grows P l l.
Proof. exists []. split; [now rewrite app_nil_r | constructor]. Qed.

Lemma grows_snoc {A : Type} (P : A -> Prop) (l l1 : list A) (x : A) :
  grows P l l1 -> P x -> grows P l (l1 ++ [x]).
Proof.
  intros [added [-> HF]] Hx. exists (added ++ [x])%list.
  split; [now rewrite app_assoc|].
  apply Forall_app. split; [exact HF | constructor; [exact Hx | constructor]].
Qed.

Lemma grows_incl {A : Type} (P : A -> Prop) (l l1 : list A) (x : A) :
  grows P l l1 -> In x l -> In x l1.
Proof. intros [added [-> _]] Hin. apply in_or_app. now left. Qed.

Lemma initiation_effect_refl (req : Request) (w : World) : initiation_effect req w w.
Proof. repeat split; apply grows_refl. Qed.

Lemma initiation_effect_frame (req : Request) (w w1 w2 : World) :
  initiation_effect req w w1 -> initiation_frame req w1 w2 -> initiation_effect req w w2.
Proof.
  intros (Ht & Hs & Hc) (Ft & Fs & Fc). unfold initiation_effect.
  rewrite Ft, Fs. split; [exact Ht|]. split; [exact Hs|].
  destruct Fc as [-> | [c [-> Hcall]]]; [exact Hc|].
  apply grows_snoc; assumption.
Qed.

Lemma initiation_createTransaction_spec (req : Request) (env : Env) r w o w' :
  PaypalDonationSteps.createTransaction req env r w = (o, w') ->
  (w' = w /\ exists e, o = Fail e) \/
  exists tx s,
    o = Done (VTransaction tx) /\
    Transactions w' = (Transactions w ++ [tx])%list /\
    Subscriptions w' = (Subscriptions w ++ [s])%list /\
    calls w' = calls w /\
    t_id tx = fresh_id (map t_id (Transactions w)) /\
    t_deletedAt tx = Some (now w) /\
    t_amount tx = p_amount (required_payment req) /\
    t_amountInteger tx = None /\
    s_amount s = num (p_amount (required_payment req)).
Proof.
  unfold PaypalDonationSteps.createTransaction. intros H.
  apply transactions__create_spec in H. destruct H as [Hc [[-> He] | [tx H]]].
  - left. split; [reflexivity | exact He].
  - right. cbn [payload_subscription payload_transaction payload_group
                payload_paymentMethod t_deletedAt t_amount t_amountInteger] in H.
    destruct H as (-> & HT & Hid & Hd & Ha & Hai & _ & _ & s & HS & Hs & _).
    exists tx, s. repeat split; assumption.
Qed.

Lemma initiation_createPlan_frame (req : Request) (env : Env) r w o w' :
  PaypalDonationSteps.createPlan req env r w = (o, w') ->
  initiation_frame req w w' /\
  (forall v, o = Done v -> exists tx, lookup "createTransaction" r = VTransaction tx).
Proof.
  unfold PaypalDonationSteps.createPlan, initiation_frame. intros H.
  break_step; (split; [split; [reflexivity | split; [reflexivity|]] | ]);
    try (left; reflexivity); try discriminate; eauto.
  all: right; eexists; split; [reflexivity|];
    intros ? Ha; inversion Ha; reflexivity.
Qed.

Lemma initiation_activatePlan_frame (req : Request) (env : Env) r w o w' :
  PaypalDonationSteps.activatePlan env r w = (o, w') -> initiation_frame req w w'.
Proof.
  unfold PaypalDonationSteps.activatePlan, initiation_frame. intros H.
  break_step; (split; [reflexivity | split; [reflexivity|]]);
    try (left; reflexivity).
  all: right; eexists; split; [reflexivity|]; intros ? Ha; discriminate Ha.
Qed.

Lemma initiation_createBillingAgreement_frame (req : Request) (env : Env) r w o w' :
  PaypalDonationSteps.createBillingAgreement env r w = (o, w') -> initiation_frame req w w'.
Proof.
  unfold PaypalDonationSteps.createBillingAgreement, initiation_frame. intros H.
  break_step; (split; [reflexivity | split; [reflexivity|]]);
    try (left; reflexivity).
  all: right; eexists; split; [reflexivity|]; intros ? Ha; discriminate Ha.
Qed.

Lemma update_subscription_amounts (id : Z) (f : Subscription -> Subscription) (w : World) :
  (forall s, s_amount (f s) = s_amount s) ->
  map s_amount (Subscriptions (update_subscription id f w)) = map s_amount (Subscriptions w).
Proof.
  intros Hf. unfold update_subscription. simpl. rewrite map_map.
  apply map_ext. intros s. destruct (s_id s =? id); [apply Hf | reflexivity].
Qed.

Lemma initiation_updateSubscription_frame (req : Request) (env : Env) r w o w' :
  PaypalDonationSteps.updateSubscription env r w = (o, w') -> initiation_frame req w w'.
Proof.
  unfold PaypalDonationSteps.updateSubscription, initiation_frame. intros H.
  break_step; (split; [reflexivity | split; [|left; reflexivity]]);
    try reflexivity.
  apply update_subscription_amounts. reflexivity.
Qed.

Lemma initiation_effect_createTransaction (req : Request) (w w1 w2 : World) tx s :
  initiation_effect req w w1 ->
  Transactions w2 = (Transactions w1 ++ [tx])%list ->
  Subscriptions w2 = (Subscriptions w1 ++ [s])%list ->
  calls w2 = calls w1 ->
  t_id tx = fresh_id (map t_id (Transactions w1)) ->
  t_deletedAt tx = Some (now w1) ->
  t_amount tx = p_amount (required_payment req) ->
  t_amountInteger tx = None ->
  s_amount s = num (p_amount (required_payment req)) ->
  initiation_effect req w w2 /\ provisional w tx.
Proof.
  intros (Ht & Hs & Hc) HT HS HC Hid Hd Ha Hai Hsa.
  assert (Hprov : provisional w tx).
  { split.
    - unfold visible. rewrite Hd. reflexivity.
    - intros Hin. apply in_map_iff in Hin. destruct Hin as [t [Heq Hin]].
      apply (grows_incl _ _ _ _ Ht) in Hin.
      apply (fresh_id_not_in (map t_id (Transactions w1))).
      rewrite <- Hid, <- Heq. apply in_map. exact Hin. }
  split; [|exact Hprov].
  unfold initiation_effect. rewrite HT, HS, HC, map_app. simpl.
  split; [apply grows_snoc; auto|]. split; [apply grows_snoc; auto | exact Hc].
Qed.

Lemma paypalDonation_graph_facts (req : Request) (env : Env) (w : World) c wf tr :
  paypalDonation_graph req env w = (c, wf, tr) ->
  (forall ev, In ev tr -> initiation_effect req w (ev_world ev)) /\
  initiation_effect req w wf /\
  (forall r', c = Completed r' ->
      exists tx, lookup "createTransaction" r' = VTransaction tx /\
                 In tx (Transactions wf) /\ provisional w tx).
Proof.
  rewrite paypalDonation_graph_chain. cbn [run_chain]. intros H.
  pose proof (initiation_effect_refl req w) as F0.
  chain_step H E1; apply initiation_getPaypalConfig_world in E1; subst;
    [|inversion H; subst; clear H;
      (split; [intros ev Hin; each_event Hin ltac:(assumption)
              | split; [assumption | intros ? Hc; discriminate Hc]])..].
  chain_step H E2; apply initiation_createTransaction_spec in E2;
    (destruct E2 as [[-> [? He]] | (tx & s & Ho & HT & HS & HC & Hid & Hd & Ha & Hai & Hsa)];
     [try discriminate He | try discriminate Ho]).
  2: { inversion H; subst; clear H.
       split; [intros ev Hin; each_event Hin ltac:(assumption)
              | split; [assumption | intros ? Hc; discriminate Hc]]. }
  inversion Ho; subst v0; clear Ho.
  destruct (initiation_effect_createTransaction req w w w0 tx s F0 HT HS HC Hid Hd Ha Hai Hsa)
    as [F2 Hprov].
  assert (Hin2 : In tx (Transactions w0)).
  { rewrite HT. apply in_or_app. right. left. reflexivity. }
  chain_step H E3; apply initiation_createPlan_frame in E3; destruct E3 as [E3 _];
    pose proof (initiation_effect_frame _ _ _ _ F2 E3) as F3;
    [|inversion H; subst; clear H;
      (split; [intros ev Hin; each_event Hin ltac:(assumption)
              | split; [assumption | intros ? Hc; discriminate Hc]])..].
  chain_step H E4; apply (initiation_activatePlan_frame req) in E4;
    pose proof (initiation_effect_frame _ _ _ _ F3 E4) as F4;
    [|inversion H; subst; clear H;
      (split; [intros ev Hin; each_event Hin ltac:(assumption)
              | split; [assumption | intros ? Hc; discriminate Hc]])..].
  chain_step H E5; apply (initiation_createBillingAgreement_frame req) in E5;
    pose proof (initiation_effect_frame _ _ _ _ F4 E5) as F5;
    [|inversion H; subst; clear H;
      (split; [intros ev Hin; each_event Hin ltac:(assumption)
              | split; [assumption | intros ? Hc; discriminate Hc]])..].
  chain_step H E6; apply (initiation_updateSubscription_frame req) in E6;
    pose proof (initiation_effect_frame _ _ _ _ F5 E6) as F6;
    inversion H; subst; clear H;
    (split; [intros ev Hin; each_event Hin ltac:(assumption)
            | split; [assumption | intros ? Hc; try discriminate Hc]]).
  inversion Hc; subst. exists tx. split; [reflexivity|]. split; [|exact Hprov].
  destruct E3 as [T3 _], E4 as [T4 _], E5 as [T5 _], E6 as [T6 _].
  rewrite T6, T5, T4, T3. exact Hin2.
Qed.

(** ** Provisional transactions *)

Lemma initiation_effect_findAll (req : Request) (w w' : World) :
  initiation_effect req w w' ->
  Transaction_findAll w' = Transaction_findAll w /\
  forall t, In t (Transactions w') -> ~ In (t_id t) (map t_id (Transactions w)) ->
            visible t = false /\ hidden (t_id t) w'.
Proof.
  intros [[added [HT HF]] _].
  assert (Hall : Transaction_findAll w' = Transaction_findAll w).
  { unfold Transaction_findAll. rewrite HT, filter_app.
    assert (Hnone : filter visible added = []).
    { clear HT. induction HF as [|t l [[Hv _] _] _ IH]; simpl; [reflexivity|].
      rewrite Hv. exact IH. }
    rewrite Hnone. apply app_nil_r. }
  split; [exact Hall|].
  intros t Hin Hnew. split.
  - rewrite HT in Hin. apply in_app_or in Hin. destruct Hin as [Hin | Hin].
    + exfalso. apply Hnew. apply in_map. exact Hin.
    + rewrite Forall_forall in HF. apply (HF t Hin).
  - unfold hidden. rewrite Hall. intros Hvis. apply Hnew.
    unfold Transaction_findAll in Hvis. apply in_map_iff in Hvis.
    destruct Hvis as [t0 [Heq Hin0]]. apply filter_In in Hin0.
    rewrite <- Heq. apply in_map. exact (proj1 Hin0).
Qed.

Lemma hidden_same_rows (id : Z) (w w' : World) :
  Transactions w' = Transactions w -> hidden id w -> hidden id w'.
Proof. unfold hidden, Transaction_findAll. intros ->. exact (fun H => H). Qed.

Lemma restored_row_visible (id : Z) (u : User) (l : list Transaction) :
  In id (map t_id l) ->
  exists t, In t (filter visible (map (restore_for id u) l)) /\
            t_id t = id /\ t_UserId t = Some (u_id u).
Proof.
  intros Hin. apply in_map_iff in Hin. destruct Hin as [t0 [Hid Hin]].
  exists (restore_for id u t0).
  assert (Hr : restore_for id u t0 = with_UserId (with_deletedAt t0 None) (Some (u_id u))).
  { unfold restore_for. rewrite Hid, Z.eqb_refl. reflexivity. }
  split; [|rewrite Hr; split; [exact Hid | reflexivity]].
  apply filter_In. split; [apply in_map; exact Hin|].
  rewrite Hr. reflexivity.
Qed.

(** ** Failure of the wallet callback *)

(** C4, as the code has it: when a step of the wallet callback other than
    [updateTransaction] fails, the Transaction rows and the membership rows
    are what they were before the callback, so no transaction has been
    revealed and no BACKER row has been written, and [next] receives the
    error of that step.  (A failure of [updateTransaction] itself comes after
    [addUserToGroup] has written its row.) *)
Theorem C4_failure_before_updateTransaction (req : CallbackRequest) (env : Env)
        (w : World) e wf tr :
  paypalCallback_graph req env w = (Failed e, wf, tr) ->
  exists ev,
    In ev tr /\ ev_result ev = Fail e /\ ev_world ev = wf /\
    (ev_step ev <> "updateTransaction" ->
     Transactions wf = Transactions w /\
     Transaction_findAll wf = Transaction_findAll w /\
     UserGroups wf = UserGroups w /\
     (paypalCallback_validate req = None ->
      paypalCallback req env w = (Responded (next e None), wf))).
Proof.
  intros Hg.
  destruct (paypalCallback_graph_facts req env w _ wf tr Hg) as (Hev & Hfail & _).
  destruct (Hfail e eq_refl) as (ev & Hin & Hres & Hw).
  exists ev. repeat split; try assumption.
  - destruct (Hev ev Hin H) as [HT _]. congruence.
  - destruct (Hev ev Hin H) as [HT _]. unfold Transaction_findAll. congruence.
  - destruct (Hev ev Hin H) as [_ HU]. rewrite <- Hw. apply (HU e Hres).
  - intros Hv. unfold paypalCallback. rewrite Hv, Hg. reflexivity.
Qed.

Lemma C4_failure_witness :
  let env := Sample.env_with (inl Sample.not_found) Sample.User_findOne_fails in
  let g := paypalCallback_graph Sample.callback env Sample.initiated in
  exists ev,
    In ev (snd g) /\ ev_result ev = Fail (StorageFailure "connection lost") /\
    ev_world ev = snd (fst g) /\
    (ev_step ev <> "updateTransaction" ->
     Transactions (snd (fst g)) = Transactions Sample.initiated /\
     Transaction_findAll (snd (fst g)) = Transaction_findAll Sample.initiated /\
     UserGroups (snd (fst g)) = UserGroups Sample.initiated /\
     (paypalCallback_validate Sample.callback = None ->
      paypalCallback Sample.callback env Sample.initiated
      = (Responded (next (StorageFailure "connection lost") None), snd (fst g)))).
Proof.
  intros env g.
  apply (C4_failure_before_updateTransaction Sample.callback env Sample.initiated
           (StorageFailure "connection lost") (snd (fst g)) (snd g)).
  vm_compute. reflexivity.
Defined.

(** C4 as stated fails: storage refuses [transaction.setUser] in the last
    step, after [restore] succeeded.  The callback fails, [next] receives the
    error, and yet the BACKER row written by [addUserToGroup] is there and
    the transaction is returned by the normal query. *)
Lemma C4_failed_callback_keeps_membership :
  let env := Sample.env_with (inl Sample.not_found) Sample.setUser_fails in
  let '(out, wf) := paypalCallback Sample.callback env Sample.initiated in
  out = Responded (next (StorageFailure "connection lost") None) /\
  UserGroups Sample.initiated = [] /\
  UserGroups wf = [mkUserGroup 7 1 "BACKER"] /\
  map t_id (Transaction_findAll Sample.initiated) = [] /\
  map t_id (Transaction_findAll wf) = [1].
Proof. vm_compute. repeat split. Qed.

(** ** Amounts *)

Lemma grows_trans {A : Type} (P : A -> Prop) (l l1 l2 : list A) :
  grows P l l1 -> grows P l1 l2 -> grows P l l2.
Proof.
  intros [a1 [-> H1]] [a2 [-> H2]]. exists (a1 ++ a2)%list.
  split; [now rewrite app_assoc | apply Forall_app; split; assumption].
Qed.

Lemma grows_one {A : Type} (P : A -> Prop) (l : list A) (x : A) :
  P x -> grows P l (l ++ [x]).
Proof. intros Hx. apply grows_snoc; [apply grows_refl | exact Hx]. Qed.

Lemma post_effect_refl (req : Request) (w : World) : post_effect req w w.
Proof. split; apply grows_refl. Qed.

Lemma post_effect_trans (req : Request) (w w1 w2 : World) :
  post_effect req w w1 -> post_effect req w1 w2 -> post_effect req w w2.
Proof.
  intros [Hd Hc] [Hd' Hc']. split; eapply grows_trans; eassumption.
Qed.

Lemma post_step_effect (req : Request) (env : Env) r w o w' :
  PostSteps.getGroupStripeAccount req env r w = (o, w') \/
  PostSteps.getExistingPaymentMethod req env r w = (o, w') \/
  PostSteps.createCustomer req env r w = (o, w') \/
  PostSteps.createPaymentMethod req env r w = (o, w') \/
  PostSteps.createCharge req env r w = (o, w') \/
  PostSteps.createDonation req env r w = (o, w') ->
  post_effect req w w'.
Proof.
  intros [H|[H|[H|[H|[H|H]]]]].
  - unfold PostSteps.getGroupStripeAccount in H. break_step; apply post_effect_refl.
  - unfold PostSteps.getExistingPaymentMethod in H. break_step; apply post_effect_refl.
  - unfold PostSteps.createCustomer in H.
    break_step; try apply post_effect_refl;
      (split; [apply grows_refl | apply grows_one; intros ? Ha; discriminate Ha]).
  - unfold PostSteps.createPaymentMethod in H.
    break_step; try apply post_effect_refl; (split; apply grows_refl).
  - unfold PostSteps.createCharge, getOrCreatePlan in H.
    break_step; try apply post_effect_refl;
      (split; [apply grows_refl|]); cbn [calls send];
      repeat (apply grows_snoc); try apply grows_refl;
      intros ? Ha; try discriminate Ha; inversion Ha; reflexivity.
  - unfold PostSteps.createDonation in H.
    break_step; try apply post_effect_refl;
      (split; [|apply grows_refl]); cbn [Donations set_Donations];
      apply grows_one; (split; [reflexivity|]);
      intros ? Hsd; try discriminate Hsd; inversion Hsd; reflexivity.
Qed.

Lemma post_graph_amounts (req : Request) (env : Env) (w : World) c wf tr :
  post_graph req env w = (c, wf, tr) ->
  post_effect req w wf /\ Forall (fun ev => post_effect req w (ev_world ev)) tr.
Proof.
  intros Hg.
  assert (Hm : forall n ds f,
             (forall r w0 o w', f r w0 = (o, w') -> post_effect req w0 w') ->
             maintains (fun _ w' => post_effect req w w')
                       (fun ev => post_effect req w (ev_world ev)) n ds f).
  { intros n ds f Hf r w0 o w' _ _ HI Hrun.
    pose proof (post_effect_trans req w w0 w' HI (Hf r w0 o w' Hrun)) as HE.
    split; [exact HE | destruct o; auto]. }
  destruct (post_graph_invariant req env (fun _ w' => post_effect req w w')
              (fun ev => post_effect req w (ev_world ev)))
    with (w := w) (c := c) (wf := wf) (tr := tr) as [HF [Hlast _]];
    try exact Hg; try apply post_effect_refl;
    try (apply Hm; intros r w0 o w' Hrun; apply (post_step_effect req env r w0 o w'); tauto).
  split; [|exact HF]. subst wf.
  apply (last_world_property (post_effect req w)
           (fun ev => post_effect req w (ev_world ev)));
    [auto | exact HF | apply post_effect_refl].
Qed.

(** C9, as the code has it, with [n] the amount of the request, a double.
    A run of [post] writes Donation rows whose amount is the product of
    doubles [n * 100], which nothing rounds to an integer, and sends the card
    provider charges and plans of that same product, but the subscription descriptor of the
    Donation carries [n]; it writes no Transaction.  A run of
    [paypalDonation] carries the amount as it was given: the provisional
    Transaction row has [amount = n] (and no [amountInteger]), the
    Subscription row has [n], and the billing plan sent to the wallet
    provider has value [n]. *)
Theorem C9_amount_units (req : Request) (env : Env) (w : World) :
  (forall c wf tr,
      post_graph req env w = (c, wf, tr) ->
      post_effect req w wf /\ Transactions wf = Transactions w) /\
  (forall c wf tr,
      paypalDonation_graph req env w = (c, wf, tr) ->
      initiation_effect req w wf).
Proof.
  split.
  - intros c wf tr Hg. split.
    + apply (post_graph_amounts req env w c wf tr Hg).
    + apply (post_graph_stops_at_createDonation req env w c wf tr Hg).
  - intros c wf tr Hg. apply (paypalDonation_graph_facts req env w c wf tr Hg).
Qed.

Lemma C9_amount_units_witness :
  let g1 := post_graph Sample.monthly Sample.env Sample.world in
  let g2 := paypalDonation_graph Sample.wallet Sample.env Sample.world in
  (post_effect Sample.monthly Sample.world (snd (fst g1)) /\
   Transactions (snd (fst g1)) = Transactions Sample.world) /\
  initiation_effect Sample.wallet Sample.world (snd (fst g2)).
Proof.
  intros g1 g2. split.
  - apply (proj1 (C9_amount_units Sample.monthly Sample.env Sample.world)
             (fst (fst g1)) (snd (fst g1)) (snd g1)).
    subst g1. destruct (post_graph Sample.monthly Sample.env Sample.world) as [[c wf] tr].
    reflexivity.
  - apply (proj2 (C9_amount_units Sample.wallet Sample.env Sample.world)
             (fst (fst g2)) (snd (fst g2)) (snd g2)).
    subst g2.
    destruct (paypalDonation_graph Sample.wallet Sample.env Sample.world) as [[c wf] tr].
    reflexivity.
Defined.

(** C9 as stated fails, in both halves.  Major units: for the wallet
    request of amount 5 the Transaction row and the Subscription row carry 5
    and the billing plan is sent with value 5, not 500 minor units; for the
    monthly card request of amount 10 the Donation carries 1000 and its
    subscription descriptor 10.  Floating point: for the one-time card
    request of amount 19.99 the Donation is written, and the charge is sent,
    with the double 19.99 * 100 = 1998.9999999999998, which is not an
    integer; and for the amount 7000000000000002 the Donation carries
    700000000000000256, not 700000000000000200. *)
Lemma C9_major_units_and_floating_point :
  let w1 := snd (paypalDonation Sample.wallet Sample.env Sample.world) in
  let w2 := snd (post Sample.monthly Sample.env Sample.world) in
  let w3 := snd (post Sample.cents Sample.env Sample.world) in
  let w4 := snd (post Sample.large Sample.env Sample.world) in
  (map t_amount (Transactions w1) = [Some (number_of_Z 5)] /\
   map t_amountInteger (Transactions w1) = [None] /\
   map s_amount (Subscriptions w1) = [number_of_Z 5] /\
   map paypal_amount (calls w1) = [Some (number_of_Z 5); None; None] /\
   map d_amount (Donations w2) = [number_of_Z 1000] /\
   map (fun d => option_map sd_amount (d_subscription d)) (Donations w2)
   = [Some (number_of_Z 10)]) /\
  (post_validate (required_payment Sample.cents) = None /\
   map d_amount (Donations w3) = [SpecFloat.S754_finite false 8791694975696895 (-42)] /\
   map stripe_amount (calls w3)
   = [None; Some (SpecFloat.S754_finite false 8791694975696895 (-42))] /\
   map (fun d => Number_toString (d_amount d)) (Donations w3) = ["1998.9999999999998"] /\
   map isInteger (map d_amount (Donations w3)) = [false] /\
   map (fun d => to_integer (d_amount d)) (Donations w4) = [Some 700000000000000256]).
Proof. vm_compute. repeat split. Qed.

(** ** Payment methods *)


Lemma post_getGroupStripeAccount_world (req : Request) (env : Env) r w o w' :
  PostSteps.getGroupStripeAccount req env r w = (o, w') -> w' = w.
Proof.
  unfold PostSteps.getGroupStripeAccount. intros H. break_step; reflexivity.
Qed.

Lemma post_getExistingPaymentMethod_spec (req : Request) (env : Env) r w o w' :
  PostSteps.getExistingPaymentMethod req env r w = (o, w') ->
  w' = w /\
  (forall v, o = Done v ->
             v = match existing_method (p_stripeToken (required_payment req)) w with
                 | Some pm => VPaymentMethod pm
                 | None => VNull
                 end).
Proof.
  unfold PostSteps.getExistingPaymentMethod, existing_method, method_matches. intros H.
  destruct (storage_fault env PaymentMethod_findOne);
    [inversion H; subst; split; [reflexivity | discriminate]|].
  match type of H with
  | context [find ?f ?l] => destruct (find f l)
  end; inversion H; subst; (split; [reflexivity|]);
    intros v Hv; inversion Hv; reflexivity.
Qed.



Lemma post_createCharge_spec (req : Request) (env : Env) r w o w' :
  PostSteps.createCharge req env r w = (o, w') ->
  PaymentMethods w' = PaymentMethods w /\
  (forall pm, lookup "createPaymentMethod" r = VPaymentMethod pm ->
              grows (reuses_customer (pm_serviceId pm)) (calls w) (calls w')).
Proof.
  unfold PostSteps.createCharge, getOrCreatePlan. intros H. split.
  - break_step; reflexivity.
  - intros pm Hl. rewrite Hl in H.
    break_step; try apply grows_refl; cbn [calls send];
      repeat (apply grows_snoc); try apply grows_refl;
      (split; [reflexivity | intros ? Hc; try discriminate Hc; inversion Hc; reflexivity]).
Qed.

Lemma post_createDonation_spec (req : Request) (env : Env) r w o w' :
  PostSteps.createDonation req env r w = (o, w') ->
  PaymentMethods w' = PaymentMethods w /\ calls w' = calls w.
Proof.
  unfold PostSteps.createDonation. intros H. break_step; split; reflexivity.
Qed.

Lemma find_app_last {A : Type} (p : A -> bool) (l : list A) (x : A) :
  find p l = None -> p x = true -> find p (l ++ [x]) = Some x.
Proof.
  induction l as [|a l IH]; simpl; intros Hn Hx.
  - rewrite Hx. reflexivity.
  - destruct (p a); [discriminate | auto].
Qed.












(** * Further properties of the controller *)

(** ** Configuration errors *)

Lemma post_fails_at_first_step (req : Request) (env : Env) (w : World) e w' :
  post_validate (required_payment req) = None ->
  PostSteps.getGroupStripeAccount req env [] w = (Fail e, w') ->
  post req env w = (Responded (next e (Some (required_payment req))), w').
Proof.
  intros Hv H1. unfold post. rewrite Hv, post_graph_chain. cbn [run_chain].
  rewrite H1. reflexivity.
Qed.

(** Resolving the collective's card account.  For a request that passed
    validation: when the account lookup fails, [next] receives that error;
    when there is no account, or the account has no access token, [next]
    receives the BadRequest that names the collective; when the access token
    contains "live" and NODE_ENV is not production, [next] receives the
    BadRequest about live keys.  In each case the error carries the request
    payload and the world is untouched: no provider request, no row. *)
Theorem post_rejects_unusable_stripe_account (req : Request) (env : Env) (w : World) :
  post_validate (required_payment req) = None ->
  (forall e, group_getStripeAccount env = Err e ->
     post req env w = (Responded (next e (Some (required_payment req))), w)) /\
  (forall account,
     group_getStripeAccount env = Ok account ->
     (account = None \/ exists a, account = Some a /\ truthy_str (accessToken a) = false) ->
     post req env w
     = (Responded
          (next (BadRequest ("The host for the collective id "
                             ++ string_of_Z (g_id (req_group req))
                             ++ " has no Stripe account set up"))
                (Some (required_payment req))), w)) /\
  (forall a key,
     group_getStripeAccount env = Ok (Some a) ->
     accessToken a = Some key -> key <> "" ->
     NODE_ENV env <> Some "production" ->
     substring_of "live" key = true ->
     post req env w
     = (Responded
          (next (BadRequest ("You can't use a Stripe live key on " ++ show (NODE_ENV env)))
                (Some (required_payment req))), w)).
Proof.
  intros Hv. split; [|split].
  - intros e He. apply post_fails_at_first_step; [exact Hv|].
    unfold PostSteps.getGroupStripeAccount. rewrite He. reflexivity.
  - intros account Ha Hno. apply post_fails_at_first_step; [exact Hv|].
    unfold PostSteps.getGroupStripeAccount. rewrite Ha.
    destruct Hno as [-> | [a [-> Ht]]]; [reflexivity | rewrite Ht; reflexivity].
  - intros a key Ha Hk Hne Hprod Hlive.
    apply post_fails_at_first_step; [exact Hv|].
    unfold PostSteps.getGroupStripeAccount. rewrite Ha, Hk.
    assert (Ht : truthy_str (Some key) = true).
    { simpl. apply negb_true_iff. apply String.eqb_neq. exact Hne. }
    rewrite Ht. cbn [negb].
    assert (Hp : opt_str_eqb (NODE_ENV env) (Some "production") = false).
    { destruct (NODE_ENV env) as [n|]; [|reflexivity]. simpl.
      apply String.eqb_neq. intros ->. apply Hprod. reflexivity. }
    rewrite Hp. cbn [negb andb contains_str]. rewrite Hlive. reflexivity.
Qed.

Lemma post_rejects_unusable_stripe_account_witness :
  post Sample.one_time
       (Sample.with_StripeAccount (Err (StorageFailure "connection lost")) Sample.env)
       Sample.world
  = (Responded (next (StorageFailure "connection lost")
                     (Some (required_payment Sample.one_time))), Sample.world) /\
  post Sample.one_time (Sample.with_StripeAccount (Ok None) Sample.env) Sample.world
  = (Responded
       (next (BadRequest "The host for the collective id 7 has no Stripe account set up")
             (Some (required_payment Sample.one_time))), Sample.world) /\
  post Sample.one_time
       (Sample.with_StripeAccount (Ok (Some Sample.live_account)) Sample.env) Sample.world
  = (Responded
       (next (BadRequest "You can't use a Stripe live key on test")
             (Some (required_payment Sample.one_time))), Sample.world).
Proof.
  split; [|split].
  - apply (proj1 (post_rejects_unusable_stripe_account Sample.one_time
                    (Sample.with_StripeAccount (Err (StorageFailure "connection lost"))
                                               Sample.env)
                    Sample.world eq_refl)).
    reflexivity.
  - apply (proj1 (proj2 (post_rejects_unusable_stripe_account Sample.one_time
                           (Sample.with_StripeAccount (Ok None) Sample.env)
                           Sample.world eq_refl)) None).
    + reflexivity.
    + left. reflexivity.
  - apply (proj2 (proj2 (post_rejects_unusable_stripe_account Sample.one_time
                           (Sample.with_StripeAccount (Ok (Some Sample.live_account))
                                                      Sample.env)
                           Sample.world eq_refl)) Sample.live_account "sk_live_1").
    + reflexivity.
    + reflexivity.
    + discriminate.
    + discriminate.
    + reflexivity.
Defined.

(** The same step accepts every other account: a non-empty access token
    is handed on as the client, in production whatever the key, elsewhere
    when the key does not contain "live". *)
Theorem post_accepts_stripe_account (req : Request) (env : Env) (w : World) a key :
  group_getStripeAccount env = Ok (Some a) ->
  accessToken a = Some key -> key <> "" ->
  NODE_ENV env = Some "production" \/ substring_of "live" key = false ->
  PostSteps.getGroupStripeAccount req env [] w = (Done (VStripe key), w).
Proof.
  intros Ha Hk Hne Hok. unfold PostSteps.getGroupStripeAccount. rewrite Ha, Hk.
  assert (Ht : truthy_str (Some key) = true).
  { simpl. apply negb_true_iff. apply String.eqb_neq. exact Hne. }
  rewrite Ht. cbn [negb contains_str show].
  destruct Hok as [Hp | Hl].
  - rewrite Hp. reflexivity.
  - rewrite Hl, andb_false_r. reflexivity.
Qed.

Lemma post_accepts_stripe_account_witness :
  PostSteps.getGroupStripeAccount Sample.one_time
    (Sample.with_NODE_ENV (Some "production")
       (Sample.with_StripeAccount (Ok (Some Sample.live_account)) Sample.env))
    [] Sample.world
  = (Done (VStripe "sk_live_1"), Sample.world) /\
  PostSteps.getGroupStripeAccount Sample.one_time Sample.env [] Sample.world
  = (Done (VStripe "sk_test_1"), Sample.world).
Proof.
  split.
  - apply (post_accepts_stripe_account Sample.one_time _ Sample.world Sample.live_account).
    + reflexivity.
    + reflexivity.
    + discriminate.
    + left. reflexivity.
  - apply (post_accepts_stripe_account Sample.one_time Sample.env Sample.world
             (mkStripeAccount (Some "sk_test_1"))).
    + reflexivity.
    + reflexivity.
    + discriminate.
    + right. reflexivity.
Defined.

(** Resolving the collective's wallet credentials: when the connected
    account cannot be read, or there is none, the initiation and the
    callback both end in [next] with the world untouched (no row, no provider
    request); the initiation attaches the request payload, the callback does
    not. *)
Theorem wallet_rejects_missing_connected_account (env : Env) (w : World) :
  (group_getConnectedAccount env = Ok None \/
   exists e, group_getConnectedAccount env = Err e) ->
  (forall req, paypalDonation_validate (required_payment req) = None ->
     exists e, paypalDonation req env w
               = (Responded (next e (Some (required_payment req))), w)) /\
  (forall req, paypalCallback_validate req = None ->
     exists e, paypalCallback req env w = (Responded (next e None), w)).
Proof.
  intros Hacc. split.
  - intros req Hv. unfold paypalDonation.
    rewrite Hv, paypalDonation_graph_chain. cbn [run_chain].
    unfold PaypalDonationSteps.getPaypalConfig.
    destruct Hacc as [-> | [e ->]]; eexists; reflexivity.
  - intros req Hv. unfold paypalCallback.
    rewrite Hv, paypalCallback_graph_chain. cbn [run_chain].
    unfold PaypalCallbackSteps.getPaypalConfig.
    destruct Hacc as [-> | [e ->]]; eexists; reflexivity.
Qed.

Lemma wallet_rejects_missing_connected_account_witness :
  (exists e, paypalDonation Sample.wallet (Sample.with_ConnectedAccount (Ok None) Sample.env)
                            Sample.world
             = (Responded (next e (Some (required_payment Sample.wallet))), Sample.world)) /\
  (exists e, paypalCallback Sample.callback
                            (Sample.with_ConnectedAccount (Ok None) Sample.env)
                            Sample.initiated
             = (Responded (next e None), Sample.initiated)).
Proof.
  pose proof (wallet_rejects_missing_connected_account
                (Sample.with_ConnectedAccount (Ok None) Sample.env)) as H.
  split.
  - apply (proj1 (H Sample.world (or_introl eq_refl))). reflexivity.
  - apply (proj2 (H Sample.initiated (or_introl eq_refl))). reflexivity.
Defined.

(** ** Users *)

(** [getOrCreateUser] finds or creates once.  A call that yields hands on a
    stored user with the email asked for, having added that user only when
    no stored user had the email; and a second call for the same email adds
    no row and, unless the lookup fails, yields the same user. *)
Theorem getOrCreateUser_reuses_user (env1 env2 : Env) (email : string) (w : World) v1 w1 :
  getOrCreateUser env1 email w = (Done v1, w1) ->
  exists u,
    v1 = VUser u /\ u_email u = email /\ In u (Users w1) /\
    (w1 = w \/
     (Users w1 = (Users w ++ [u])%list /\
      forall u', In u' (Users w) -> u_email u' <> email)) /\
    forall o2 w2,
      getOrCreateUser env2 email w1 = (o2, w2) ->
      w2 = w1 /\ (o2 = Done (VUser u) \/ exists e, o2 = Fail e).
Proof.
  unfold getOrCreateUser, users__create. intros H.
  destruct (storage_fault env1 User_findOne); [discriminate|].
  destruct (find (fun u => (u_email u =? email)%string) (Users w)) as [u|] eqn:Hfind.
  - inversion H; subst; clear H. exists u.
    pose proof (find_some _ _ Hfind) as [Hin He]. apply String.eqb_eq in He.
    repeat split; auto.
    + destruct (storage_fault env2 User_findOne); [inversion H; reflexivity|].
      rewrite Hfind in H. inversion H. reflexivity.
    + destruct (storage_fault env2 User_findOne); [inversion H; eauto|].
      rewrite Hfind in H. inversion H. left. reflexivity.
  - destruct (storage_fault env1 users_create); [discriminate|].
    inversion H; subst; clear H.
    set (u := mkUser (fresh_id (map u_id (Users w))) email (new_user_hasFullAccount env1)).
    exists u. split; [reflexivity|]. split; [reflexivity|].
    assert (Hfind' : find (fun u0 => (u_email u0 =? email)%string)
                          (Users (set_Users (Users w ++ [u]) w)) = Some u).
    { simpl. apply find_app_last; [exact Hfind|]. simpl. apply String.eqb_refl. }
    split; [simpl; apply in_or_app; right; left; reflexivity|].
    split.
    + right. split; [reflexivity|]. intros u' Hin Heq.
      pose proof (find_none _ _ Hfind u' Hin) as Hn. simpl in Hn.
      rewrite Heq, String.eqb_refl in Hn. discriminate.
    + intros o2 w2 H.
      destruct (storage_fault env2 User_findOne); [inversion H; eauto|].
      rewrite Hfind' in H. inversion H. auto.
Qed.

Lemma getOrCreateUser_reuses_user_witness :
  let w1 := set_Users [Sample.bob] Sample.world in
  exists u,
    VUser Sample.bob = VUser u /\ u_email u = "bob@example.com" /\ In u (Users w1) /\
    (w1 = Sample.world \/
     (Users w1 = (Users Sample.world ++ [u])%list /\
      forall u', In u' (Users Sample.world) -> u_email u' <> "bob@example.com")) /\
    forall o2 w2,
      getOrCreateUser Sample.env "bob@example.com" w1 = (o2, w2) ->
      w2 = w1 /\ (o2 = Done (VUser u) \/ exists e, o2 = Fail e).
Proof.
  intros w1.
  apply (getOrCreateUser_reuses_user Sample.env Sample.env "bob@example.com" Sample.world).
  reflexivity.
Defined.

(** ** What the card workflow never does *)

(** [post] as written never answers with success.  Whatever the request and
    the answers of the collaborators: the only steps that are started are the
    first six, in declaration order; no Transaction row and no membership row
    is written; and the response, when there is one after validation, is
    [next] with the error of the step that failed and the request payload
    attached. *)
Theorem post_never_answers_success (req : Request) (env : Env) (w : World) :
  (forall u b, fst (post req env w) <> Responded (send_user u b)) /\
  Transactions (snd (post req env w)) = Transactions w /\
  UserGroups (snd (post req env w)) = UserGroups w /\
  (forall c wf tr,
      post_graph req env w = (c, wf, tr) ->
      exists k,
        map ev_step tr
        = firstn k [ "getGroupStripeAccount"; "getExistingPaymentMethod"; "createCustomer";
                     "createPaymentMethod"; "createCharge"; "createDonation" ]) /\
  (post_validate (required_payment req) = None ->
   forall r, fst (post req env w) = Responded r ->
             exists e ev, r = next e (Some (required_payment req)) /\
                          In ev (snd (post_graph req env w)) /\ ev_result ev = Fail e).
Proof.
  assert (Hshape : forall c wf tr,
             post_graph req env w = (c, wf, tr) ->
             (exists k,
                 map ev_step tr
                 = firstn k [ "getGroupStripeAccount"; "getExistingPaymentMethod";
                              "createCustomer"; "createPaymentMethod"; "createCharge";
                              "createDonation" ]) /\
             (forall e, c = Failed e -> exists ev, In ev tr /\ ev_result ev = Fail e)).
  { intros c wf tr. rewrite post_graph_chain. cbn [run_chain]. intros H.
    chain_step H E1; [chain_step H E2; [chain_step H E3; [chain_step H E4;
      [chain_step H E5; [chain_step H E6|..]|..]|..]|..]|..];
      inversion H; subst; clear H;
      (split;
       [ first [ exists 1%nat; reflexivity | exists 2%nat; reflexivity
               | exists 3%nat; reflexivity | exists 4%nat; reflexivity
               | exists 5%nat; reflexivity | exists 6%nat; reflexivity ]
       | intros ? Hc; try discriminate Hc; inversion Hc; subst;
         match goal with
         | |- exists ev, In ev ?l /\ _ =>
           exists (last l (mkEvent "" Pending w)); cbn [last]; split;
           [ cbn [In]; repeat (first [left; reflexivity | right]) | reflexivity ]
         end ]). }
  destruct (post_graph req env w) as [[c wf] tr] eqn:Hg.
  destruct (post_graph_stops_at_createDonation req env w c wf tr Hg) as (HT & HU & Hc).
  destruct (Hshape c wf tr eq_refl) as [Hk Hfail].
  unfold post. rewrite Hg.
  destruct (post_validate (required_payment req)) as [e0|] eqn:Hv; cbn [fst snd].
  - repeat split; try discriminate.
    intros c0 wf0 tr0 H0. inversion H0; subst. exact Hk.
  - split; [|split; [exact HT | split; [exact HU | split]]].
    + intros u b Hr. destruct c; cbn in Hr; try discriminate Hr.
      exfalso. apply (Hc r). reflexivity.
    + intros c0 wf0 tr0 H0. inversion H0; subst. exact Hk.
    + intros _ r Hr. destruct c as [r0|e| | |]; cbn in Hr; try discriminate Hr.
      * exfalso. apply (Hc r0). reflexivity.
      * inversion Hr; subst. destruct (Hfail e eq_refl) as (ev & Hin & Hres).
        exists e, ev. auto.
Qed.

Lemma post_never_answers_success_witness :
  let declined := Sample.with_charge (inl Sample.card_declined) Sample.env in
  exists e ev,
    next (StripeFailure Sample.card_declined) (Some (required_payment Sample.one_time))
    = next e (Some (required_payment Sample.one_time)) /\
    In ev (snd (post_graph Sample.one_time declined Sample.world)) /\
    ev_result ev = Fail e.
Proof.
  intros declined.
  apply (proj2 (proj2 (proj2 (proj2 (post_never_answers_success
                                       Sample.one_time declined Sample.world))))).
  - reflexivity.
  - reflexivity.
Defined.

(** ** Relations every step keeps *)

Lemma run_chain_rel (R : World -> World -> Prop) :
  (forall w, R w w) ->
  (forall a b c, R a b -> R b c -> R a c) ->
  forall steps,
    (forall n f r w o w', In (n, f) steps -> f r w = (o, w') -> R w w') ->
    forall r w c wf tr,
      run_chain steps r w = (c, wf, tr) ->
      R w wf /\ Forall (fun ev => R w (ev_world ev)) tr.
Proof.
  intros Hrefl Htrans steps. induction steps as [|[n f] rest IH]; intros Hstep r w c wf tr H.
  - inversion H; subst. split; [apply Hrefl | constructor].
  - cbn [run_chain] in H. destruct (f r w) as [o w'] eqn:Hf.
    assert (HR : R w w') by (apply (Hstep n f r w o w'); [left; reflexivity | exact Hf]).
    destruct o.
    + destruct (run_chain rest ((n, v) :: r) w') as [[c1 wf1] tr1] eqn:Hrec.
      inversion H; subst; clear H.
      apply IH in Hrec; [|intros; eapply Hstep; [right|]; eassumption].
      destruct Hrec as [HR1 HF1]. split; [eapply Htrans; eassumption|].
      constructor; [exact HR|].
      eapply Forall_impl; [|exact HF1]. intros ev Hev. eapply Htrans; eassumption.
    + inversion H; subst. split; [exact HR | constructor; [exact HR | constructor]].
    + inversion H; subst. split; [exact HR | constructor; [exact HR | constructor]].
    + inversion H; subst. split; [exact HR | constructor; [exact HR | constructor]].
Qed.

(** A reflexive and transitive relation between worlds that each step of a
    handler keeps is kept by the handler. *)
Section HandlerRelations.

Variable R : World -> World -> Prop.
Hypothesis R_refl : forall w, R w w.
Hypothesis R_trans : forall a b c, R a b -> R b c -> R a c.

Lemma post_keeps (req : Request) (env : Env) :
  (forall r w o w',
      PostSteps.getGroupStripeAccount req env r w = (o, w') \/
      PostSteps.getExistingPaymentMethod req env r w = (o, w') \/
      PostSteps.createCustomer req env r w = (o, w') \/
      PostSteps.createPaymentMethod req env r w = (o, w') \/
      PostSteps.createCharge req env r w = (o, w') \/
      PostSteps.createDonation req env r w = (o, w') -> R w w') ->
  forall w, R w (snd (post req env w)).
Proof.
  intros Hstep w. unfold post.
  destruct (post_validate (required_payment req)); [apply R_refl|].
  destruct (post_graph req env w) as [[c wf] tr] eqn:Hg. cbn [snd].
  rewrite post_graph_chain in Hg.
  apply (run_chain_rel R R_refl R_trans) in Hg; [exact (proj1 Hg)|].
  intros n f r w0 o w' Hin Hf. apply (Hstep r w0 o w').
  cbn [In] in Hin.
  destruct Hin as [Hin|[Hin|[Hin|[Hin|[Hin|[Hin|[]]]]]]]; inversion Hin; subst; tauto.
Qed.

Lemma paypalDonation_keeps (req : Request) (env : Env) :
  (forall r w o w',
      PaypalDonationSteps.getPaypalConfig env r w = (o, w') \/
      PaypalDonationSteps.createTransaction req env r w = (o, w') \/
      PaypalDonationSteps.createPlan req env r w = (o, w') \/
      PaypalDonationSteps.activatePlan env r w = (o, w') \/
      PaypalDonationSteps.createBillingAgreement env r w = (o, w') \/
      PaypalDonationSteps.updateSubscription env r w = (o, w') -> R w w') ->
  forall w, R w (snd (paypalDonation req env w)).
Proof.
  intros Hstep w. unfold paypalDonation.
  destruct (paypalDonation_validate (required_payment req)); [apply R_refl|].
  destruct (paypalDonation_graph req env w) as [[c wf] tr] eqn:Hg. cbn [snd].
  rewrite paypalDonation_graph_chain in Hg.
  apply (run_chain_rel R R_refl R_trans) in Hg; [exact (proj1 Hg)|].
  intros n f r w0 o w' Hin Hf. apply (Hstep r w0 o w').
  cbn [In] in Hin.
  destruct Hin as [Hin|[Hin|[Hin|[Hin|[Hin|[Hin|[]]]]]]]; inversion Hin; subst; tauto.
Qed.

Lemma paypalCallback_keeps (req : CallbackRequest) (env : Env) :
  (forall r w o w',
      PaypalCallbackSteps.getPaypalConfig env r w = (o, w') \/
      PaypalCallbackSteps.executeBillingAgreement req env r w = (o, w') \/
      PaypalCallbackSteps.activateSubscription req env r w = (o, w') \/
      PaypalCallbackSteps.getOrCreateUser_step env r w = (o, w') \/
      PaypalCallbackSteps.addUserToGroup req env r w = (o, w') \/
      PaypalCallbackSteps.updateTransaction req env r w = (o, w') -> R w w') ->
  forall w, R w (snd (paypalCallback req env w)).
Proof.
  intros Hstep w. unfold paypalCallback.
  destruct (paypalCallback_validate req); [apply R_refl|].
  destruct (paypalCallback_graph req env w) as [[c wf] tr] eqn:Hg. cbn [snd].
  rewrite paypalCallback_graph_chain in Hg.
  apply (run_chain_rel R R_refl R_trans) in Hg; [exact (proj1 Hg)|].
  intros n f r w0 o w' Hin Hf. apply (Hstep r w0 o w').
  cbn [In] in Hin.
  destruct Hin as [Hin|[Hin|[Hin|[Hin|[Hin|[Hin|[]]]]]]]; inversion Hin; subst; tauto.
Qed.

End HandlerRelations.

(** ** Requests to the card provider *)

Lemma getOrCreatePlan_cases (env : Env) (plan : Plan) (w : World) res w' :
  getOrCreatePlan env plan w = (res, w') ->
  (w' = send (stripe_plans_retrieve (plan_id plan)) w /\
   ((exists existing, plans_retrieve env = inr existing /\ res = Ok existing) \/
    (exists err, plans_retrieve env = inl err /\ ~ no_such_plan err /\
                 res = Err (StripeFailure err)))) \/
  (w' = send (stripe_plans_create plan) (send (stripe_plans_retrieve (plan_id plan)) w) /\
   exists err, plans_retrieve env = inl err /\ no_such_plan err /\
               res = of_stripe (plans_create env)).
Proof.
  unfold getOrCreatePlan. intros H.
  destruct (plans_retrieve env) as [err|existing] eqn:Hr.
  - destruct (opt_str_eqb (se_type err) (Some "StripeInvalidRequest")
              && contains_str (se_message err) "No such plan") eqn:Ht;
      inversion H; subst; clear H.
    + right. split; [reflexivity|]. exists err. apply no_such_plan_test in Ht. auto.
    + left. split; [reflexivity|]. right. exists err. split; [reflexivity|].
      split; [|reflexivity]. intros Hn. apply no_such_plan_test in Hn. congruence.
  - inversion H; subst; clear H. left. split; [reflexivity|]. left. eauto.
Qed.

Lemma getOrCreatePlan_resolves (env : Env) (plan : Plan) (w : World) res w' :
  getOrCreatePlan env plan w = (res, w') ->
  forall resolved, res = Ok resolved -> resolved_plan env resolved.
Proof.
  intros H resolved ->. apply getOrCreatePlan_cases in H.
  destruct H as [[_ [(existing & Hr & He) | (err & _ & _ & He)]] | [_ (err & Hr & Hn & He)]].
  - inversion He; subst. left. exact Hr.
  - discriminate He.
  - right. exists err. split; [exact Hr|]. split; [exact Hn|].
    destruct (plans_create env); inversion He. reflexivity.
Qed.

(** Every request [post] sends is one of these.  A customer creation for
    the token and email of the request.  For a request without a month or
    year interval, a charge of the amount times 100, in the currency of the
    request or else of the collective, described as a one time donation to
    the collective.  For a month or year request, the retrieval and the
    creation (only after a retrieval that reported no such plan) of the plan
    whose id and name are [utils.planId] of (currency, interval, amount times
    100), and a subscription to the plan [getOrCreatePlan] resolved, with
    application fee percent 5.  The amount times 100 is the product of
    doubles, which nothing rounds to an integer.  A one-time request never
    touches plans or subscriptions, a recurring one never charges, and
    nothing is sent to the wallet provider or to the mailer. *)
Theorem post_sends_only (req : Request) (env : Env) (w : World) :
  grows (post_sends req env) (calls w) (calls (snd (post req env w))).
Proof.
  apply (post_keeps (fun a b => grows (post_sends req env) (calls a) (calls b))).
  - intros w0. apply grows_refl.
  - intros a b c. apply grows_trans.
  - intros r w0 o w' [H|[H|[H|[H|[H|H]]]]].
    + unfold PostSteps.getGroupStripeAccount in H. break_step; apply grows_refl.
    + unfold PostSteps.getExistingPaymentMethod in H. break_step; apply grows_refl.
    + unfold PostSteps.createCustomer in H.
      break_step; try apply grows_refl; apply grows_one; repeat split.
    + unfold PostSteps.createPaymentMethod in H. break_step; apply grows_refl.
    + unfold PostSteps.createCharge in H.
      destruct (lookup "getGroupStripeAccount" r);
        try (inversion H; subst; apply grows_refl).
      destruct (lookup "createPaymentMethod" r) as [ | | |pm| | | | | | | |];
        try (inversion H; subst; apply grows_refl).
      destruct (contains_in ["month"; "year"] (p_interval (required_payment req))) eqn:Hsub.
      * apply month_or_year_test in Hsub.
        match type of H with
        | context [getOrCreatePlan env ?plan w0] =>
          destruct (getOrCreatePlan env plan w0) as [res w1] eqn:Hplan
        end.
        pose proof (getOrCreatePlan_resolves _ _ _ _ _ Hplan) as Hresolved.
        apply getOrCreatePlan_cases in Hplan.
        destruct Hplan as [[-> _] | [-> (err & Hr & Hn & _)]];
          (destruct res as [resolved|e];
           [ destruct (of_stripe (customers_createSubscription env)) | ]);
          inversion H; subst; clear H; cbn [calls send];
          repeat (apply grows_snoc); try apply grows_refl;
          first
            [ split; [exact Hsub | reflexivity]
            | split; [exact Hsub | split; [reflexivity | exists err; split; assumption]]
            | split; [exact Hsub |];
              split; [reflexivity |]; split; [reflexivity |];
              exists resolved; split; [apply Hresolved; reflexivity | reflexivity] ].
      * assert (Hnot : ~ is_month_or_year (p_interval (required_payment req))).
        { intros Hm. apply month_or_year_test in Hm. congruence. }
        break_step; try apply grows_refl; cbn [calls send];
          apply grows_one; cbn [post_sends]; repeat split; assumption.
    + unfold PostSteps.createDonation in H. break_step; apply grows_refl.
Qed.

(** ** Donations *)

Lemma post_early_steps_keep_rows (req : Request) (env : Env) r w o w' :
  PostSteps.getGroupStripeAccount req env r w = (o, w') \/
  PostSteps.getExistingPaymentMethod req env r w = (o, w') \/
  PostSteps.createCustomer req env r w = (o, w') \/
  PostSteps.createPaymentMethod req env r w = (o, w') \/
  PostSteps.createCharge req env r w = (o, w') ->
  Donations w' = Donations w /\ Users w' = Users w /\ Subscriptions w' = Subscriptions w.
Proof.
  intros [H|[H|[H|[H|H]]]].
  - unfold PostSteps.getGroupStripeAccount in H. break_step; repeat split.
  - unfold PostSteps.getExistingPaymentMethod in H. break_step; repeat split.
  - unfold PostSteps.createCustomer in H. break_step; repeat split.
  - unfold PostSteps.createPaymentMethod in H. break_step; repeat split.
  - unfold PostSteps.createCharge, getOrCreatePlan in H. break_step; repeat split.
Qed.

Lemma post_createCharge_yields (req : Request) (env : Env) r w v w' :
  PostSteps.createCharge req env r w = (Done v, w') ->
  exists charge,
    v = VCharge charge /\
    (is_month_or_year (p_interval (required_payment req)) ->
     customers_createSubscription env = inr charge) /\
    (~ is_month_or_year (p_interval (required_payment req)) ->
     charges_create env = inr charge).
Proof.
  unfold PostSteps.createCharge. intros H.
  destruct (lookup "getGroupStripeAccount" r); try discriminate H.
  destruct (lookup "createPaymentMethod" r); try discriminate H.
  destruct (contains_in ["month"; "year"] (p_interval (required_payment req))) eqn:Hsub.
  - match type of H with
    | context [getOrCreatePlan env ?plan w] =>
      destruct (getOrCreatePlan env plan w) as [res w1]
    end.
    destruct res; [|discriminate H].
    destruct (customers_createSubscription env) as [e|charge]; cbn in H; [discriminate H|].
    inversion H; subst. exists charge. split; [reflexivity|]. split; [reflexivity|].
    intros Hn. apply month_or_year_test in Hsub. contradiction.
  - destruct (charges_create env) as [e|charge]; cbn in H; [discriminate H|].
    inversion H; subst. exists charge. split; [reflexivity|]. split; [|reflexivity].
    intros Hm. apply month_or_year_test in Hm. congruence.
Qed.

Lemma post_createDonation_writes (req : Request) (env : Env) r w o w' charge :
  lookup "createCharge" r = VCharge charge ->
  (is_month_or_year (p_interval (required_payment req)) ->
   customers_createSubscription env = inr charge) ->
  (~ is_month_or_year (p_interval (required_payment req)) ->
   charges_create env = inr charge) ->
  PostSteps.createDonation req env r w = (o, w') ->
  Donations w' = Donations w \/
  exists d, Donations w' = (Donations w ++ [d])%list /\ post_writes req env d.
Proof.
  unfold PostSteps.createDonation. intros Hc Hsubscribed Hcharged H. rewrite Hc in H.
  destruct (charge_currency charge) as [currency|] eqn:Hcur;
    [|inversion H; subst; left; reflexivity].
  destruct (req_user req) as [u|] eqn:Hu; [|inversion H; subst; left; reflexivity].
  destruct (storage_fault env Donation_create);
    inversion H; subst; clear H; [left; reflexivity|].
  right. eexists. split; [reflexivity|].
  unfold post_writes. cbn [d_CollectiveId d_amount d_title d_UserId d_currency d_subscription].
  repeat split; try reflexivity.
  - exists u. split; [exact Hu | reflexivity].
  - exists charge. split; [exact Hcur|]. split.
    + intros Hm. split; [exact (Hsubscribed Hm)|].
      apply month_or_year_test in Hm. rewrite Hm. reflexivity.
    + intros Hm. split; [exact (Hcharged Hm)|].
      rewrite (month_or_year_test_false _ Hm). reflexivity.
Qed.

(** A run of [post] writes at most one Donation row.  The row is for the
    user and the collective of the request; its amount is the amount times
    100, the product of doubles, which nothing rounds to an integer; its
    currency is the one of what the provider answered (to the subscription
    request for a month or year interval, to the charge request otherwise:
    the currency of the charge, else of its plan); and it embeds a
    subscription descriptor, with the amount as given, the id of the
    provider's subscription and the provider's answer itself, exactly when
    the interval is month or year. *)
Theorem post_writes_at_most_one_donation (req : Request) (env : Env) (w : World) :
  Donations (snd (post req env w)) = Donations w \/
  exists d, Donations (snd (post req env w)) = (Donations w ++ [d])%list /\
            post_writes req env d.
Proof.
  unfold post. destruct (post_validate (required_payment req)); [left; reflexivity|].
  destruct (post_graph req env w) as [[c wf] tr] eqn:Hg. cbn [snd].
  rewrite post_graph_chain in Hg. cbn [run_chain] in Hg.
  chain_step Hg E1; [chain_step Hg E2; [chain_step Hg E3; [chain_step Hg E4;
    [chain_step Hg E5; [chain_step Hg E6|..]|..]|..]|..]|..];
    inversion Hg; subst; clear Hg;
    try (pose proof (post_early_steps_keep_rows req env _ _ _ _
                       (or_introl E1)) as [D1 _]);
    try (pose proof (post_early_steps_keep_rows req env _ _ _ _
                       (or_intror (or_introl E2))) as [D2 _]);
    try (pose proof (post_early_steps_keep_rows req env _ _ _ _
                       (or_intror (or_intror (or_introl E3)))) as [D3 _]);
    try (pose proof (post_early_steps_keep_rows req env _ _ _ _
                       (or_intror (or_intror (or_intror (or_introl E4))))) as [D4 _]);
    try (pose proof (post_early_steps_keep_rows req env _ _ _ _
                       (or_intror (or_intror (or_intror (or_intror E5))))) as [D5 _]);
    try (left; congruence);
    apply post_createCharge_yields in E5; destruct E5 as (charge & -> & Hm & Hn);
    (apply post_createDonation_writes with (charge := charge) in E6;
     [ | reflexivity | exact Hm | exact Hn ]);
    (destruct E6 as [E6 | [d [E6 Hd]]];
     [ left; congruence
     | right; exists d; split; [congruence | exact Hd] ]).
Qed.

(** A request without an authenticated user: [createPaymentMethod] tolerates
    the missing user, [createDonation] does not.  Whatever the collaborators
    answer, no Donation row is written, and every PaymentMethod row written
    has no owner. *)
Theorem post_without_user_writes_no_donation (req : Request) (env : Env) (w : World) :
  req_user req = None ->
  Donations (snd (post req env w)) = Donations w /\
  grows (fun pm => pm_UserId pm = None)
        (PaymentMethods w) (PaymentMethods (snd (post req env w))).
Proof.
  intros Hu. split.
  - apply (post_keeps (fun a b => Donations b = Donations a)).
    + reflexivity.
    + intros a b c Hab Hbc. congruence.
    + intros r w0 o w' [H|[H|[H|[H|[H|H]]]]];
        try (eapply post_early_steps_keep_rows; eauto 6; fail).
      unfold PostSteps.createDonation in H. rewrite Hu in H.
      break_step; reflexivity.
  - apply (post_keeps (fun a b => grows (fun pm => pm_UserId pm = None)
                                        (PaymentMethods a) (PaymentMethods b))).
    + intros w0. apply grows_refl.
    + intros a b c. apply grows_trans.
    + intros r w0 o w' [H|[H|[H|[H|[H|H]]]]].
      * unfold PostSteps.getGroupStripeAccount in H. break_step; apply grows_refl.
      * unfold PostSteps.getExistingPaymentMethod in H. break_step; apply grows_refl.
      * unfold PostSteps.createCustomer in H. break_step; apply grows_refl.
      * unfold PostSteps.createPaymentMethod in H. rewrite Hu in H.
        break_step; try apply grows_refl. apply grows_one. reflexivity.
      * unfold PostSteps.createCharge, getOrCreatePlan in H. break_step; apply grows_refl.
      * unfold PostSteps.createDonation in H. break_step; apply grows_refl.
Qed.

Lemma post_without_user_witness :
  let w' := snd (post Sample.anonymous Sample.env Sample.world) in
  (Donations w' = Donations Sample.world /\
   grows (fun pm => pm_UserId pm = None)
         (PaymentMethods Sample.world) (PaymentMethods w')) /\
  fst (post Sample.anonymous Sample.env Sample.world)
  = Uncaught (TypeError "Cannot read property 'id' of undefined") /\
  map stripe_amount (calls w') = [None; Some (number_of_Z 1000)].
Proof.
  intros w'. split; [|split].
  - apply (post_without_user_writes_no_donation Sample.anonymous Sample.env Sample.world).
    reflexivity.
  - reflexivity.
  - reflexivity.
Defined.

(** ** A token seen for the first time *)

Lemma post_createCustomer_new (req : Request) (env : Env) r w o w' :
  lookup "getExistingPaymentMethod" r = VNull ->
  PostSteps.createCustomer req env r w = (o, w') ->
  PaymentMethods w' = PaymentMethods w /\
  forall v, o = Done v ->
    exists customer,
      v = VCustomer customer /\ customers_create env = inr customer /\
      calls w' = (calls w ++ [stripe_customers_create
                                (p_stripeToken (required_payment req))
                                ("Paying " ++ show (p_email (required_payment req))
                                 ++ " to " ++ g_name (req_group req))
                                (p_email (required_payment req))])%list.
Proof.
  unfold PostSteps.createCustomer. intros Hl H. rewrite Hl in H. cbn [truthy_value] in H.
  split; [break_step; reflexivity|].
  intros v Hv. subst o.
  destruct (lookup "getGroupStripeAccount" r); try discriminate H.
  destruct (customers_create env) as [err|customer]; cbn [of_stripe] in H;
    inversion H; subst.
  exists customer. repeat split.
Qed.

Lemma post_createPaymentMethod_new (req : Request) (env : Env) r w o w' customer :
  lookup "getExistingPaymentMethod" r = VNull ->
  lookup "createCustomer" r = VCustomer customer ->
  PostSteps.createPaymentMethod req env r w = (o, w') ->
  (w' = w /\ exists e, o = Fail e) \/
  (PaymentMethods w'
   = (PaymentMethods w
      ++ [mkPaymentMethod (fresh_id (map pm_id (PaymentMethods w)))
                          (p_stripeToken (required_payment req)) (cus_id customer)
                          "stripe" (option_map u_id (req_user req))])%list /\
   calls w' = calls w).
Proof.
  unfold PostSteps.createPaymentMethod. intros Hl Hc H. rewrite Hl, Hc in H.
  cbn [truthy_value] in H.
  destruct (storage_fault env PaymentMethod_create); inversion H; subst.
  - left. split; [reflexivity | eauto].
  - right. split; reflexivity.
Qed.

Lemma post_step_keeps_calls (req : Request) (env : Env) r w o w' c :
  PostSteps.getGroupStripeAccount req env r w = (o, w') \/
  PostSteps.getExistingPaymentMethod req env r w = (o, w') \/
  PostSteps.createCustomer req env r w = (o, w') \/
  PostSteps.createPaymentMethod req env r w = (o, w') \/
  PostSteps.createCharge req env r w = (o, w') \/
  PostSteps.createDonation req env r w = (o, w') ->
  In c (calls w) -> In c (calls w').
Proof.
  intros H Hin. apply post_step_effect in H. destruct H as [_ Hc].
  eapply grows_incl; eassumption.
Qed.

(** When no PaymentMethod row exists for the token, [post] writes one only
    after the provider has created the customer, and the row refers to it:
    either the PaymentMethod table is left as it is, or exactly one row is
    added, with a fresh id, the token of the request, service stripe, the
    user of the request if any, and as [serviceId] the id of the customer
    the provider answered with, the creation request for that token being in
    the log. *)
Theorem post_new_token_method_refers_to_customer (req : Request) (env : Env) (w : World) :
  existing_method (p_stripeToken (required_payment req)) w = None ->
  PaymentMethods (snd (post req env w)) = PaymentMethods w \/
  exists customer,
    customers_create env = inr customer /\
    PaymentMethods (snd (post req env w))
    = (PaymentMethods w
       ++ [mkPaymentMethod (fresh_id (map pm_id (PaymentMethods w)))
                           (p_stripeToken (required_payment req)) (cus_id customer)
                           "stripe" (option_map u_id (req_user req))])%list /\
    In (stripe_customers_create
          (p_stripeToken (required_payment req))
          ("Paying " ++ show (p_email (required_payment req))
           ++ " to " ++ g_name (req_group req))
          (p_email (required_payment req)))
       (calls (snd (post req env w))).
Proof.
  intros Hex. unfold post.
  destruct (post_validate (required_payment req)); [left; reflexivity|].
  destruct (post_graph req env w) as [[c wf] tr] eqn:Hg. cbn [snd].
  rewrite post_graph_chain in Hg. cbn [run_chain] in Hg.
  chain_step Hg E1; [chain_step Hg E2; [chain_step Hg E3; [chain_step Hg E4;
    [chain_step Hg E5; [chain_step Hg E6|..]|..]|..]|..]|..];
    inversion Hg; subst; clear Hg;
    try apply post_getGroupStripeAccount_world in E1;
    try apply post_getExistingPaymentMethod_spec in E2;
    subst; settle_outcomes; subst; try rewrite Hex in *;
    try (apply post_createCustomer_new in E3; [|reflexivity];
         destruct E3 as [P3 E3]);
    try (left; congruence);
    specialize (E3 _ eq_refl); destruct E3 as (customer & -> & Hcus & C3);
    pose proof E4 as E4';
    (apply post_createPaymentMethod_new with (customer := customer) in E4;
     [|reflexivity|reflexivity]);
    try (pose proof (post_createCharge_spec _ _ _ _ _ _ E5) as [P5 _]);
    try (pose proof (post_createDonation_spec _ _ _ _ _ _ E6) as [P6 _]);
    (destruct E4 as [[-> [? He]] | [P4 C4]];
     [first [discriminate He | left; congruence]|]);
    right; exists customer; (split; [exact Hcus|]);
    (split;
     [ congruence
     | try (eapply post_step_keeps_calls;
            [right; right; right; right; right; exact E6|]);
       try (eapply post_step_keeps_calls;
            [right; right; right; right; left; exact E5|]);
       rewrite C4, C3; apply in_or_app; right; left; reflexivity ]).
Qed.

Lemma post_new_token_witness :
  let w' := snd (post Sample.one_time Sample.env Sample.world) in
  PaymentMethods w' = PaymentMethods Sample.world \/
  exists customer,
    customers_create Sample.env = inr customer /\
    PaymentMethods w'
    = (PaymentMethods Sample.world
       ++ [mkPaymentMethod 1 (Some "tok_valid") (cus_id customer) "stripe" (Some 1)])%list /\
    In (stripe_customers_create (Some "tok_valid")
          "Paying alice@example.com to WWCode Austin" (Some "alice@example.com"))
       (calls w').
Proof.
  intros w'.
  apply (post_new_token_method_refers_to_customer Sample.one_time Sample.env Sample.world).
  reflexivity.
Defined.

(** ** The wallet initiation *)

(** The initiation writes Transactions and Subscriptions and nothing else:
    whatever the request and the answers, it creates no user, no membership,
    no donation and no payment method. *)
Theorem paypalDonation_grants_nothing (req : Request) (env : Env) (w : World) :
  Users (snd (paypalDonation req env w)) = Users w /\
  UserGroups (snd (paypalDonation req env w)) = UserGroups w /\
  Donations (snd (paypalDonation req env w)) = Donations w /\
  PaymentMethods (snd (paypalDonation req env w)) = PaymentMethods w.
Proof.
  apply (paypalDonation_keeps
           (fun a b => Users b = Users a /\ UserGroups b = UserGroups a /\
                       Donations b = Donations a /\ PaymentMethods b = PaymentMethods a)).
  - intros w0. repeat split.
  - intros a b c (U1 & G1 & D1 & P1) (U2 & G2 & D2 & P2). repeat split; congruence.
  - intros r w0 o w' [H|[H|[H|[H|[H|H]]]]].
    + unfold PaypalDonationSteps.getPaypalConfig in H. break_step; repeat split.
    + unfold PaypalDonationSteps.createTransaction, transactions__create in H.
      break_step; repeat split.
    + unfold PaypalDonationSteps.createPlan in H. break_step; repeat split.
    + unfold PaypalDonationSteps.activatePlan in H. break_step; repeat split.
    + unfold PaypalDonationSteps.createBillingAgreement in H. break_step; repeat split.
    + unfold PaypalDonationSteps.updateSubscription in H. break_step; repeat split.
Qed.

Lemma initiation_createTransaction_rows (req : Request) (env : Env) r w v w' :
  PaypalDonationSteps.createTransaction req env r w = (Done v, w') ->
  exists tx s,
    v = VTransaction tx /\
    Transactions w' = (Transactions w ++ [tx])%list /\
    Subscriptions w' = (Subscriptions w ++ [s])%list /\
    calls w' = calls w /\ now w' = now w /\
    t_id tx = fresh_id (map t_id (Transactions w)) /\
    t_deletedAt tx = Some (now w) /\
    t_UserId tx = None /\
    t_GroupId tx = Some (g_id (req_group req)) /\
    t_SubscriptionId tx = Some (s_id s) /\
    s_id s = fresh_id (map s_id (Subscriptions w)) /\
    s_isActive s = false /\ s_activatedAt s = None /\
    s_interval s = p_interval (required_payment req).
Proof.
  unfold PaypalDonationSteps.createTransaction, transactions__create. intros H.
  destruct (storage_fault env transactions_create); [discriminate|].
  cbn in H. inversion H; subst; clear H.
  eexists. eexists. repeat split.
Qed.

Lemma initiation_provider_step_keeps_rows (req : Request) (env : Env) r w o w' :
  PaypalDonationSteps.createPlan req env r w = (o, w') \/
  PaypalDonationSteps.activatePlan env r w = (o, w') \/
  PaypalDonationSteps.createBillingAgreement env r w = (o, w') ->
  Transactions w' = Transactions w /\ Subscriptions w' = Subscriptions w /\
  now w' = now w.
Proof.
  intros [H|[H|H]].
  - unfold PaypalDonationSteps.createPlan in H. break_step; repeat split.
  - unfold PaypalDonationSteps.activatePlan in H. break_step; repeat split.
  - unfold PaypalDonationSteps.createBillingAgreement in H. break_step; repeat split.
Qed.

Lemma initiation_createBillingAgreement_yields (env : Env) r w v w' :
  PaypalDonationSteps.createBillingAgreement env r w = (Done v, w') ->
  exists a, v = VAgreement a /\ billingAgreement_create env = Ok a.
Proof.
  unfold PaypalDonationSteps.createBillingAgreement. intros H.
  break_step. eexists. split; reflexivity.
Qed.

Lemma initiation_updateSubscription_yields (env : Env) r w v w' tx a :
  lookup "createTransaction" r = VTransaction tx ->
  lookup "createBillingAgreement" r = VAgreement a ->
  PaypalDonationSteps.updateSubscription env r w = (Done v, w') ->
  Transactions w' = Transactions w /\
  exists found,
    In found (Subscriptions w) /\ Some (s_id found) = t_SubscriptionId tx /\
    Subscriptions w'
    = map (fun s => if s_id s =? s_id found
                    then mkSubscription (s_id s) (s_amount s) (s_currency s) (s_interval s)
                                        (mkSubscriptionData (Some a) None)
                                        (s_isActive s) (s_activatedAt s)
                    else s) (Subscriptions w).
Proof.
  unfold PaypalDonationSteps.updateSubscription. intros Ht Ha H. rewrite Ht, Ha in H.
  destruct (storage_fault env transaction_getSubscription); [discriminate|].
  destruct (find (fun s => opt_Z_eqb (Some (s_id s)) (t_SubscriptionId tx))
                 (Subscriptions w)) as [found|] eqn:Hfind; [|discriminate].
  destruct (storage_fault env subscription_save); [discriminate|].
  inversion H; subst; clear H. split; [reflexivity|].
  apply find_some in Hfind. destruct Hfind as [Hin Heq].
  exists found. split; [exact Hin|]. split; [|reflexivity].
  destruct (t_SubscriptionId tx) as [sid|]; [|discriminate].
  simpl in Heq. apply Z.eqb_eq in Heq. congruence.
Qed.

Lemma initiation_createPlan_sends (req : Request) (env : Env) r w o w' tx w0 :
  lookup "createTransaction" r = VTransaction tx ->
  t_id tx = fresh_id (map t_id (Transactions w0)) ->
  PaypalDonationSteps.createPlan req env r w = (o, w') ->
  (w' = w /\ exists x, o = Throw x) \/
  (calls w' = (calls w ++ firstn 1 (initiation_requests req env w0))%list /\
   now w' = now w /\
   ((exists e, o = Fail e) \/
    exists plan, o = Done (VBillingPlan plan) /\ billingPlan_create env = Ok plan)).
Proof.
  unfold PaypalDonationSteps.createPlan, initiation_requests. intros Ht Hid H.
  rewrite Ht in H. destruct (p_interval (required_payment req)) as [i|].
  - right. destruct (billingPlan_create env) as [plan|e]; inversion H; subst; clear H;
      cbn [calls send firstn now]; rewrite Hid; (split; [reflexivity|]);
      (split; [reflexivity|]); eauto.
  - left. inversion H; subst. split; [reflexivity | eauto].
Qed.

Lemma initiation_activatePlan_sends (env : Env) r w o w' plan :
  lookup "createPlan" r = VBillingPlan plan ->
  PaypalDonationSteps.activatePlan env r w = (o, w') ->
  calls w' = (calls w ++ [paypal_billingPlan_activate (bp_id plan)])%list /\
  now w' = now w.
Proof.
  unfold PaypalDonationSteps.activatePlan. intros Hp H. rewrite Hp in H.
  destruct (billingPlan_activate env); inversion H; split; reflexivity.
Qed.

Lemma initiation_createBillingAgreement_sends (env : Env) r w o w' plan :
  lookup "createPlan" r = VBillingPlan plan ->
  PaypalDonationSteps.createBillingAgreement env r w = (o, w') ->
  calls w' = (calls w ++ [paypal_billingAgreement_create (bp_id plan) (now w + 4)])%list.
Proof.
  unfold PaypalDonationSteps.createBillingAgreement. intros Hp H. rewrite Hp in H.
  destruct (billingAgreement_create env); inversion H; reflexivity.
Qed.

Lemma initiation_updateSubscription_calls (env : Env) r w o w' :
  PaypalDonationSteps.updateSubscription env r w = (o, w') -> calls w' = calls w.
Proof.
  unfold PaypalDonationSteps.updateSubscription. intros H. break_step; reflexivity.
Qed.

Lemma transactions__create_calls (env : Env) (p : CreatePayload) w o w' :
  transactions__create env p w = (o, w') ->
  calls w' = calls w /\ ((exists v, o = Done v) \/ (w' = w /\ exists e, o = Fail e)).
Proof.
  intros H. apply transactions__create_spec in H. destruct H as [Hc [[-> He] | [tx [-> _]]]].
  - split; [reflexivity|]. right. split; [reflexivity | exact He].
  - split; [exact Hc|]. left. eauto.
Qed.

(** *** The wallet initiation, stage by stage *)

Lemma initiation_getPaypalConfig_stage (env : Env) r w o w' :
  PaypalDonationSteps.getPaypalConfig env r w = (o, w') ->
  w' = w /\
  ((exists e, o = Fail e /\ forall ca, group_getConnectedAccount env <> Ok (Some ca)) \/
   (exists v ca, o = Done v /\ group_getConnectedAccount env = Ok (Some ca))).
Proof.
  unfold PaypalDonationSteps.getPaypalConfig. intros H.
  destruct (group_getConnectedAccount env) as [[ca|]|e]; inversion H; subst;
    (split; [reflexivity|]).
  - right. eauto.
  - left. eexists. split; [reflexivity | discriminate].
  - left. eexists. split; [reflexivity | discriminate].
Qed.

Lemma initiation_createTransaction_stage (req : Request) (env : Env) r w o w' :
  PaypalDonationSteps.createTransaction req env r w = (o, w') ->
  calls w' = calls w /\ now w' = now w /\
  ((exists e, o = Fail e /\ storage_fault env transactions_create = Some e) \/
   (exists tx, o = Done (VTransaction tx) /\
               storage_fault env transactions_create = None /\
               t_id tx = fresh_id (map t_id (Transactions w)))).
Proof.
  unfold PaypalDonationSteps.createTransaction, transactions__create. intros H.
  destruct (storage_fault env transactions_create) as [e|] eqn:Hf.
  - inversion H; subst. repeat split. left. eauto.
  - cbn in H. inversion H; subst; clear H. repeat split. right.
    eexists. split; [reflexivity|]. split; reflexivity.
Qed.

Lemma initiation_createPlan_stage (req : Request) (env : Env) r w o w' tx w0 :
  paypalDonation_validate (required_payment req) = None ->
  lookup "createTransaction" r = VTransaction tx ->
  t_id tx = fresh_id (map t_id (Transactions w0)) ->
  PaypalDonationSteps.createPlan req env r w = (o, w') ->
  calls w' = (calls w ++ firstn 1 (initiation_requests req env w0))%list /\
  now w' = now w /\
  ((exists e, o = Fail e /\ billingPlan_create env = Err e) \/
   (exists plan, o = Done (VBillingPlan plan) /\ billingPlan_create env = Ok plan)).
Proof.
  unfold paypalDonation_validate, PaypalDonationSteps.createPlan, initiation_requests.
  intros Hv Ht Hid H. rewrite Ht in H.
  destruct (p_interval (required_payment req)) as [i|]; [|discriminate Hv].
  destruct (billingPlan_create env) as [plan|e]; inversion H; subst; clear H;
    cbn [calls send firstn now]; rewrite Hid; (split; [reflexivity|]);
    (split; [reflexivity|]); eauto.
Qed.

Lemma initiation_activatePlan_stage (env : Env) r w o w' plan :
  lookup "createPlan" r = VBillingPlan plan ->
  PaypalDonationSteps.activatePlan env r w = (o, w') ->
  calls w' = (calls w ++ [paypal_billingPlan_activate (bp_id plan)])%list /\
  now w' = now w /\
  ((exists e, o = Fail e /\ billingPlan_activate env = Some e) \/
   (exists v, o = Done v /\ billingPlan_activate env = None)).
Proof.
  unfold PaypalDonationSteps.activatePlan. intros Hp H. rewrite Hp in H.
  destruct (billingPlan_activate env); inversion H; subst;
    (split; [reflexivity|]); (split; [reflexivity|]); eauto.
Qed.

(** The requests of the wallet initiation go out in a fixed order, and each
    one exactly when everything before it succeeded.  The provider log grows
    by the first [k] of: the creation of the billing plan (whose callback URL
    carries the id of the provisional transaction written just before), the
    activation of the plan the provider answered with, and the creation of
    the agreement against that plan.  The first is sent exactly when the
    request passed validation, the credentials were read and the provisional
    transaction was stored; the second exactly when, moreover, the provider
    created the plan; the third exactly when, moreover, the provider
    activated it. *)
Theorem paypalDonation_sends_in_order (req : Request) (env : Env) (w : World) :
  exists k,
    calls (snd (paypalDonation req env w))
    = (calls w ++ firstn k (initiation_requests req env w))%list /\
    (k <= 3)%nat /\
    ((1 <= k)%nat <->
     paypalDonation_validate (required_payment req) = None /\
     (exists ca, group_getConnectedAccount env = Ok (Some ca)) /\
     storage_fault env transactions_create = None) /\
    ((2 <= k)%nat <-> (1 <= k)%nat /\ exists plan, billingPlan_create env = Ok plan) /\
    ((3 <= k)%nat <-> (2 <= k)%nat /\ billingPlan_activate env = None).
Proof.
  unfold paypalDonation.
  destruct (paypalDonation_validate (required_payment req)) as [e0|] eqn:Hv.
  { exists 0%nat. cbn [snd firstn]. rewrite app_nil_r. split; [reflexivity|].
    split; [lia|].
    repeat match goal with |- _ /\ _ => split | |- _ <-> _ => split end;
      intros H; try lia.
    destruct H as [H _]. discriminate H. }
  destruct (paypalDonation_graph req env w) as [[c wf] tr] eqn:Hg. cbn [snd].
  rewrite paypalDonation_graph_chain in Hg. cbn [run_chain] in Hg.
  chain_step Hg E1; apply initiation_getPaypalConfig_stage in E1;
    destruct E1 as [-> [(e1 & O1 & G1) | (v1 & ca & O1 & G1)]]; try discriminate O1.
  2: { inversion Hg; subst. exists 0%nat. cbn [firstn]. rewrite app_nil_r.
       split; [reflexivity|]. split; [lia|].
       repeat match goal with |- _ /\ _ => split | |- _ <-> _ => split end;
         intros H; try lia.
       exfalso. destruct H as (_ & [ca Hca] & _). exact (G1 ca Hca). }
  chain_step Hg E2; apply initiation_createTransaction_stage in E2;
    destruct E2 as (C2 & N2 & [(e2 & O2 & F2) | (tx & O2 & F2 & Hid)]);
    try discriminate O2.
  2: { inversion Hg; subst. exists 0%nat. cbn [firstn]. rewrite app_nil_r.
       split; [exact C2|]. split; [lia|].
       repeat match goal with |- _ /\ _ => split | |- _ <-> _ => split end;
         intros H; try lia.
       exfalso. destruct H as (_ & _ & Hf). congruence. }
  inversion O2; subst v0; clear O2.
  assert (Hone : paypalDonation_validate (required_payment req) = None /\
                 (exists ca, group_getConnectedAccount env = Ok (Some ca)) /\
                 storage_fault env transactions_create = None) by eauto.
  rewrite Hv in Hone at 1.
  chain_step Hg E3;
    (apply initiation_createPlan_stage with (tx := tx) (w0 := w) in E3;
     [|exact Hv|reflexivity|exact Hid]);
    destruct E3 as (C3 & N3 & [(e3 & O3 & P3) | (plan & O3 & P3)]); try discriminate O3.
  2: { inversion Hg; subst. exists 1%nat. split; [rewrite C3, C2; reflexivity|].
       split; [lia|]. split; [split; [intros _; exact Hone | lia]|].
       split; (split; [lia|]).
       - intros [_ [plan Hp]]. congruence.
       - intros [H _]. lia. }
  inversion O3; subst v0; clear O3.
  assert (Hthree : initiation_requests req env w
                   = (firstn 1 (initiation_requests req env w)
                      ++ [paypal_billingPlan_activate (bp_id plan);
                          paypal_billingAgreement_create (bp_id plan) (now w + 4)])%list).
  { unfold initiation_requests. rewrite P3. reflexivity. }
  chain_step Hg E4;
    (apply initiation_activatePlan_stage with (plan := plan) in E4; [|reflexivity]);
    destruct E4 as (C4 & N4 & [(e4 & O4 & A4) | (v4 & O4 & A4)]); try discriminate O4.
  2: { inversion Hg; subst. exists 2%nat.
       split; [rewrite C4, C3, C2, Hthree, <- app_assoc; reflexivity|].
       split; [lia|]. split; [split; [intros _; exact Hone | lia]|].
       split; [split; [intros _; split; [lia | eauto] | lia]|].
       split; [lia|]. intros [_ H]. congruence. }
  assert (Hnow : now w2 = now w) by congruence.
  assert (Hall : forall w', calls w' = (calls w2 ++ [paypal_billingAgreement_create
                                                       (bp_id plan) (now w2 + 4)])%list ->
                 exists k,
                   calls w' = (calls w ++ firstn k (initiation_requests req env w))%list /\
                   (k <= 3)%nat /\
                   ((1 <= k)%nat <->
                    @None error = None /\
                    (exists ca, group_getConnectedAccount env = Ok (Some ca)) /\
                    storage_fault env transactions_create = None) /\
                   ((2 <= k)%nat <->
                    (1 <= k)%nat /\ exists plan, billingPlan_create env = Ok plan) /\
                   ((3 <= k)%nat <-> (2 <= k)%nat /\ billingPlan_activate env = None)).
  { intros w' C5. exists 3%nat.
    split; [rewrite C5, Hnow, C4, C3, C2, Hthree, <- !app_assoc; reflexivity|].
    split; [lia|]. split; [split; [intros _; exact Hone | lia]|].
    split; [split; [intros _; split; [lia | eauto] | lia]|].
    split; [intros _; split; [lia | exact A4] | lia]. }
  chain_step Hg E5;
    (apply initiation_createBillingAgreement_sends with (plan := plan) in E5;
     [|reflexivity]);
    try solve [inversion Hg; subst; apply Hall; exact E5].
  chain_step Hg E6; apply initiation_updateSubscription_calls in E6;
    inversion Hg; subst; apply Hall; congruence.
Qed.

Lemma update_last_row {A : Type} (key : A -> Z) (f : A -> A) (old : list A) (s0 : A) :
  ~ In (key s0) (map key old) ->
  map (fun s => if key s =? key s0 then f s else s) (old ++ [s0])
  = (old ++ [f s0])%list.
Proof.
  intros Hnew. rewrite map_app. cbn [map]. rewrite Z.eqb_refl. f_equal.
  induction old as [|a old IH]; [reflexivity|].
  cbn [map] in *. destruct (key a =? key s0) eqn:E.
  - apply Z.eqb_eq in E. exfalso. apply Hnew. left. exact E.
  - f_equal. apply IH. intros Hin. apply Hnew. right. exact Hin.
Qed.

(** When the wallet initiation answers with approval links, they are the
    links of the agreement the provider created; all three requests went
    out, in order; one Transaction row and one Subscription row were
    written, the transaction refers to the subscription, and the
    subscription, still inactive, holds that agreement. *)
Theorem paypalDonation_answers_links (req : Request) (env : Env) (w : World) links :
  fst (paypalDonation req env w) = Responded (send_links links) ->
  exists a tx s,
    billingAgreement_create env = Ok a /\ links = ag_links a /\
    calls (snd (paypalDonation req env w))
    = (calls w ++ initiation_requests req env w)%list /\
    Transactions (snd (paypalDonation req env w)) = (Transactions w ++ [tx])%list /\
    Subscriptions (snd (paypalDonation req env w)) = (Subscriptions w ++ [s])%list /\
    t_SubscriptionId tx = Some (s_id s) /\
    sdata_agreement (s_data s) = Some a /\
    s_isActive s = false.
Proof.
  unfold paypalDonation.
  destruct (paypalDonation_validate (required_payment req)); [discriminate|].
  destruct (paypalDonation_graph req env w) as [[c wf] tr] eqn:Hg. cbn [fst snd].
  rewrite paypalDonation_graph_chain in Hg. cbn [run_chain] in Hg.
  chain_step Hg E1; [|inversion Hg; subst; discriminate..].
  apply initiation_getPaypalConfig_world in E1; subst.
  chain_step Hg E2; [|inversion Hg; subst; discriminate..].
  apply initiation_createTransaction_rows in E2.
  destruct E2 as (tx & s & -> & T2 & S2 & C2 & N2 & Hid & _ & _ & _ & Hsub & Hsid & Hact & _).
  chain_step Hg E3; [|inversion Hg; subst; discriminate..].
  pose proof (initiation_provider_step_keeps_rows req env _ _ _ _ (or_introl E3))
    as (T3 & S3 & N3).
  apply initiation_createPlan_sends with (tx := tx) (w0 := w) in E3;
    [|reflexivity|exact Hid].
  destruct E3 as [[_ [? Hx]] | (C3 & _ & [[? Ho] | (plan & Ho & Hplan)])];
    try discriminate.
  inversion Ho; subst v0; clear Ho.
  chain_step Hg E4; [|inversion Hg; subst; discriminate..].
  pose proof (initiation_provider_step_keeps_rows req env _ _ _ _
                (or_intror (or_introl E4))) as (T4 & S4 & N4).
  apply initiation_activatePlan_sends with (plan := plan) in E4; [|reflexivity].
  destruct E4 as [C4 _].
  chain_step Hg E5; [|inversion Hg; subst; discriminate..].
  pose proof (initiation_provider_step_keeps_rows req env _ _ _ _
                (or_intror (or_intror E5))) as (T5 & S5 & N5).
  pose proof (initiation_createBillingAgreement_yields _ _ _ _ _ E5) as (a & -> & Ha).
  apply initiation_createBillingAgreement_sends with (plan := plan) in E5; [|reflexivity].
  chain_step Hg E6; [|inversion Hg; subst; discriminate..].
  pose proof (initiation_updateSubscription_calls _ _ _ _ _ E6) as C6.
  apply initiation_updateSubscription_yields with (tx := tx) (a := a) in E6;
    [|reflexivity..].
  destruct E6 as (T6 & found & _ & Hfound & S6).
  inversion Hg; subst c wf tr; clear Hg.
  cbn [PaypalDonationSteps.completion_callback lookup String.eqb Ascii.eqb Bool.eqb].
  intros Hl. inversion Hl; subst links; clear Hl.
  assert (Hkey : s_id found = s_id s) by congruence.
  rewrite Hkey in S6. rewrite S5, S4, S3, S2 in S6.
  rewrite (update_last_row s_id) in S6
    by (rewrite Hsid; apply fresh_id_not_in).
  eexists a, tx, _. split; [exact Ha|]. split; [reflexivity|].
  split.
  { assert (Hnow : now w2 = now w) by congruence.
    rewrite C6, E5, C4, C3, C2, Hnow. unfold initiation_requests. rewrite Hplan.
    cbn [firstn]. rewrite <- !app_assoc. reflexivity. }
  split; [congruence|]. split; [exact S6|].
  cbn [s_id s_data sdata_agreement s_isActive]. auto.
Qed.

Lemma paypalDonation_answers_links_witness :
  let out := paypalDonation Sample.wallet Sample.env Sample.world in
  exists a tx s,
    billingAgreement_create Sample.env = Ok a /\
    ["https://approve.example/I-1"] = ag_links a /\
    calls (snd out)
    = (calls Sample.world
       ++ initiation_requests Sample.wallet Sample.env Sample.world)%list /\
    Transactions (snd out) = (Transactions Sample.world ++ [tx])%list /\
    Subscriptions (snd out) = (Subscriptions Sample.world ++ [s])%list /\
    t_SubscriptionId tx = Some (s_id s) /\
    sdata_agreement (s_data s) = Some a /\
    s_isActive s = false.
Proof.
  intros out.
  apply (paypalDonation_answers_links Sample.wallet Sample.env Sample.world).
  vm_compute. reflexivity.
Defined.

(** ** The wallet callback, stage by stage *)

Lemma callback_getPaypalConfig_stage (env : Env) r w o w' :
  PaypalCallbackSteps.getPaypalConfig env r w = (o, w') ->
  w' = w /\
  ((exists e, o = Fail e /\ forall ca, group_getConnectedAccount env <> Ok (Some ca)) \/
   (exists v ca, o = Done v /\ group_getConnectedAccount env = Ok (Some ca))).
Proof.
  unfold PaypalCallbackSteps.getPaypalConfig. intros H.
  destruct (group_getConnectedAccount env) as [[ca|]|e]; inversion H; subst;
    (split; [reflexivity|]).
  - right. eauto.
  - left. eexists. split; [reflexivity | discriminate].
  - left. eexists. split; [reflexivity | discriminate].
Qed.

Lemma callback_executeBillingAgreement_stage (req : CallbackRequest) (env : Env) r w o w' :
  PaypalCallbackSteps.executeBillingAgreement req env r w = (o, w') ->
  w' = send (paypal_billingAgreement_execute (show (cb_token req))) w /\
  ((exists e, o = Fail e /\ billingAgreement_execute env = Err e) \/
   (exists a, o = Done (VAgreement a) /\ billingAgreement_execute env = Ok a)).
Proof.
  unfold PaypalCallbackSteps.executeBillingAgreement. intros H.
  destruct (billingAgreement_execute env) as [a|e]; inversion H; subst;
    (split; [reflexivity|]); eauto.
Qed.

Lemma callback_activateSubscription_stage (req : CallbackRequest) (env : Env) r w o w' a :
  lookup "executeBillingAgreement" r = VAgreement a ->
  PaypalCallbackSteps.activateSubscription req env r w = (o, w') ->
  (exists e, o = Fail e /\ w' = w) \/
  (exists v sub,
      o = Done v /\ In sub (Subscriptions w) /\
      Some (s_id sub) = t_SubscriptionId (cb_paranoidtransaction req) /\
      w' = update_subscription (s_id sub) (activated a (now w)) w).
Proof.
  unfold PaypalCallbackSteps.activateSubscription. intros Ha H. rewrite Ha in H.
  destruct (storage_fault env transaction_getSubscription);
    [inversion H; subst; eauto|].
  destruct (find _ (Subscriptions w)) as [sub|] eqn:Hfind; [|inversion H; subst; eauto].
  destruct (storage_fault env subscription_save); inversion H; subst; [eauto|].
  right. exists VUndefined, sub. apply find_some in Hfind. destruct Hfind as [Hin Heq].
  split; [reflexivity|]. split; [exact Hin|]. split; [|reflexivity].
  destruct (t_SubscriptionId (cb_paranoidtransaction req)) as [sid|]; [|discriminate].
  simpl in Heq. apply Z.eqb_eq in Heq. congruence.
Qed.

Lemma callback_getOrCreateUser_stage (env : Env) r w o w' a :
  lookup "executeBillingAgreement" r = VAgreement a ->
  PaypalCallbackSteps.getOrCreateUser_step env r w = (o, w') ->
  (exists e, o = Fail e /\ w' = w) \/
  (exists u,
      o = Done (VUser u) /\ u_email u = ag_payer_email a /\
      ((In u (Users w) /\ w' = w) \/
       ((forall u', In u' (Users w) -> u_email u' <> ag_payer_email a) /\
        w' = set_Users (Users w ++ [u]) w))).
Proof.
  unfold PaypalCallbackSteps.getOrCreateUser_step, getOrCreateUser, users__create.
  intros Ha H. rewrite Ha in H.
  destruct (storage_fault env User_findOne); [inversion H; subst; eauto|].
  destruct (find _ (Users w)) as [u|] eqn:Hfind.
  - inversion H; subst. right. exists u.
    apply find_some in Hfind. destruct Hfind as [Hin He]. apply String.eqb_eq in He.
    split; [reflexivity|]. split; [exact He|]. left. split; [exact Hin | reflexivity].
  - destruct (storage_fault env users_create); inversion H; subst; [eauto|].
    right. eexists. split; [reflexivity|]. split; [reflexivity|]. right.
    split; [|reflexivity]. intros u' Hin Heq.
    pose proof (find_none _ _ Hfind u' Hin) as Hn. simpl in Hn.
    rewrite Heq, String.eqb_refl in Hn. discriminate.
Qed.

Lemma callback_addUserToGroup_stage (req : CallbackRequest) (env : Env) r w o w' u :
  lookup "getOrCreateUser" r = VUser u ->
  PaypalCallbackSteps.addUserToGroup req env r w = (o, w') ->
  (exists e, o = Fail e /\ w' = w) \/
  (exists v,
      o = Done v /\
      (((1 <= count_backer (cb_group req) u w)%nat /\ w' = w) \/
       (count_backer (cb_group req) u w = 0%nat /\
        w' = set_UserGroups
               (UserGroups w ++ [mkUserGroup (g_id (cb_group req)) (u_id u) BACKER]) w))).
Proof.
  unfold PaypalCallbackSteps.addUserToGroup, findOrAddBacker, addUserWithRole, count_backer.
  intros Hu H. rewrite Hu in H.
  destruct (storage_fault env UserGroup_findOne); [inversion H; subst; eauto|].
  destruct (find _ (UserGroups w)) eqn:Hfind.
  - inversion H; subst. right. eexists. split; [reflexivity|]. left.
    split; [eapply find_some_filter; eauto | reflexivity].
  - destruct (storage_fault env group_addUserWithRole); inversion H; subst; [eauto|].
    right. eexists. split; [reflexivity|]. right.
    split; [|reflexivity]. rewrite (find_none_filter _ _ Hfind). reflexivity.
Qed.

Lemma callback_updateTransaction_stage (req : CallbackRequest) (env : Env) r w o w' u :
  lookup "getOrCreateUser" r = VUser u ->
  PaypalCallbackSteps.updateTransaction req env r w = (o, w') ->
  (exists e, o = Fail e /\ storage_fault env transaction_restore = Some e /\ w' = w) \/
  (exists e, o = Fail e /\ storage_fault env transaction_restore = None /\
             storage_fault env transaction_setUser = Some e /\
             w' = set_Transactions
                    (map (reveal_for (t_id (cb_paranoidtransaction req))) (Transactions w))
                    w) \/
  (exists v, o = Done v /\
             w' = set_Transactions
                    (map (restore_for (t_id (cb_paranoidtransaction req)) u)
                         (Transactions w)) w).
Proof.
  unfold PaypalCallbackSteps.updateTransaction. intros Hu H. rewrite Hu in H.
  destruct (storage_fault env transaction_restore) eqn:F1; [inversion H; subst; eauto|].
  destruct (storage_fault env transaction_setUser) eqn:F2; inversion H; subst.
  - right. left. eexists. repeat split.
  - right. right. eexists. split; [reflexivity|].
    unfold update_transaction, set_Transactions. cbn. f_equal.
    rewrite map_map. apply map_ext. intros t. unfold restore_for.
    destruct (t_id t =? t_id (cb_paranoidtransaction req)) eqn:E; cbn; rewrite E;
      reflexivity.
Qed.

(** How far an invocation of the wallet callback got, what it answered and
    the world it left. *)
Lemma paypalCallback_stages (req : CallbackRequest) (env : Env) (w : World) :
  let group := cb_group req in
  let id := t_id (cb_paranoidtransaction req) in
  let out := paypalCallback req env w in
  (exists e, out = (Responded (next e None), w) /\
             (paypalCallback_validate req = Some e \/
              forall ca, group_getConnectedAccount env <> Ok (Some ca))) \/
  (paypalCallback_validate req = None /\
   (exists ca, group_getConnectedAccount env = Ok (Some ca)) /\
   exists w2,
     w2 = send (paypal_billingAgreement_execute (show (cb_token req))) w /\
     ((exists e, out = (Responded (next e None), w2) /\
                 billingAgreement_execute env = Err e) \/
      exists a,
        billingAgreement_execute env = Ok a /\
        ((exists e, out = (Responded (next e None), w2)) \/
         exists sub w3,
           In sub (Subscriptions w2) /\
           Some (s_id sub) = t_SubscriptionId (cb_paranoidtransaction req) /\
           w3 = update_subscription (s_id sub) (activated a (now w2)) w2 /\
           ((exists e, out = (Responded (next e None), w3)) \/
            exists u w4,
              u_email u = ag_payer_email a /\
              ((In u (Users w3) /\ w4 = w3) \/
               ((forall u', In u' (Users w3) -> u_email u' <> ag_payer_email a) /\
                w4 = set_Users (Users w3 ++ [u]) w3)) /\
              ((exists e, out = (Responded (next e None), w4)) \/
               exists w5,
                 (((1 <= count_backer group u w4)%nat /\ w5 = w4) \/
                  (count_backer group u w4 = 0%nat /\
                   w5 = set_UserGroups
                          (UserGroups w4 ++ [mkUserGroup (g_id group) (u_id u) BACKER])
                          w4)) /\
                 ((exists e, out = (Responded (next e None), w5) /\
                             storage_fault env transaction_restore = Some e) \/
                  (exists e, out = (Responded (next e None),
                                    set_Transactions
                                      (map (reveal_for id) (Transactions w5)) w5) /\
                             storage_fault env transaction_restore = None /\
                             storage_fault env transaction_setUser = Some e) \/
                  out = (Responded
                           (redirect (config_host_website env ++ "/" ++ g_slug group
                                      ++ "?status=payment_success&userid="
                                      ++ string_of_Z (u_id u)
                                      ++ "&has_full_account="
                                      ++ show_bool (u_hasFullAccount u))),
                         set_Transactions
                           (map (restore_for id u) (Transactions w5)) w5))))))).
Proof.
  intros group id out. subst out. unfold paypalCallback.
  destruct (paypalCallback_validate req) as [e0|] eqn:Hv; [left; eauto|].
  destruct (paypalCallback_graph req env w) as [[c wf] tr] eqn:Hg.
  rewrite paypalCallback_graph_chain in Hg. cbn [run_chain] in Hg.
  chain_step Hg E1; apply callback_getPaypalConfig_stage in E1;
    destruct E1 as [-> [(e1 & O1 & G1) | (v1 & ca & O1 & G1)]];
    try discriminate O1.
  2: { inversion Hg; subst. left. eexists. split; [reflexivity | right; exact G1]. }
  right. split; [reflexivity|]. split; [eauto|].
  chain_step Hg E2; apply callback_executeBillingAgreement_stage in E2;
    destruct E2 as [-> [(e2 & O2 & G2) | (a & O2 & G2)]];
    try discriminate O2; (eexists; split; [reflexivity|]).
  2: { inversion Hg; inversion O2; subst. left. eexists. split; [reflexivity | exact G2]. }
  inversion O2; subst v0; clear O2. right. exists a. split; [exact G2|].
  chain_step Hg E3; (apply callback_activateSubscription_stage with (a := a) in E3;
                     [|reflexivity]);
    destruct E3 as [(e3 & O3 & ->) | (v3 & sub & O3 & I3 & S3 & ->)];
    try discriminate O3.
  2: { inversion Hg; subst. left. eexists. reflexivity. }
  right. exists sub. eexists. split; [exact I3|]. split; [exact S3|]. split; [reflexivity|].
  chain_step Hg E4; (apply callback_getOrCreateUser_stage with (a := a) in E4;
                     [|reflexivity]);
    destruct E4 as [(e4 & O4 & ->) | (u & O4 & M4 & W4)];
    try discriminate O4.
  2: { inversion Hg; subst. left. eexists. reflexivity. }
  inversion O4; subst v2; clear O4. right. exists u. eexists. split; [exact M4|].
  split; [exact W4|].
  chain_step Hg E5; (apply callback_addUserToGroup_stage with (u := u) in E5;
                     [|reflexivity]);
    destruct E5 as [(e5 & O5 & ->) | (v5 & O5 & W5)];
    try discriminate O5.
  2: { inversion Hg; subst. left. eexists. reflexivity. }
  right. eexists. split; [exact W5|].
  chain_step Hg E6; (apply callback_updateTransaction_stage with (u := u) in E6;
                     [|reflexivity]);
    destruct E6 as [(e6 & O6 & F6 & ->) | [(e6 & O6 & F6 & F6' & ->) | (v6 & O6 & ->)]];
    try discriminate O6; inversion Hg; subst; clear Hg.
  - right. right. reflexivity.
  - inversion O6; subst. left. eexists. split; [reflexivity | exact F6].
  - inversion O6; subst. right. left. eexists. split; [reflexivity | split; assumption].
Qed.

(** Case analysis on how far the wallet callback got. *)
Ltac callback_cases req env w :=
  let HS := fresh "HS" in
  pose proof (paypalCallback_stages req env w) as HS; cbv zeta in HS;
  destruct HS as
    [ (e' & Hout & Hwhy)
    | (Hv & (ca & Hca) & w2 & Hw2 &
       [ (e' & Hout & Hbae)
       | (a & Hbae &
          [ (e' & Hout)
          | (sub & w3 & Hsub & Hsid & Hw3 &
             [ (e' & Hout)
             | (u & w4 & Hmail & Hw4 &
                [ (e' & Hout)
                | (w5 & Hw5 &
                   [ (e' & Hout & Hf)
                   | [ (e' & Hout & Hf & Hf') | Hout ] ]) ]) ]) ]) ]) ];
  rewrite Hout; cbn [fst snd];
  try (destruct Hw5 as [[Hold5 Hw5] | [Hnew5 Hw5]]);
  try (destruct Hw4 as [[Hold4 Hw4] | [Hnew4 Hw4]]);
  subst.

Lemma revealed_row_visible (id : Z) (l : list Transaction) :
  In id (map t_id l) ->
  exists t, In t (filter visible (map (reveal_for id) l)) /\ t_id t = id.
Proof.
  intros Hin. apply in_map_iff in Hin. destruct Hin as [t0 [Hid Hin]].
  exists (reveal_for id t0).
  assert (Hr : reveal_for id t0 = with_deletedAt t0 None).
  { unfold reveal_for. rewrite Hid, Z.eqb_refl. reflexivity. }
  split; [|rewrite Hr; exact Hid].
  apply filter_In. split; [apply in_map; exact Hin|].
  rewrite Hr. reflexivity.
Qed.

(** C3, as the code has it: a Transaction written by the wallet initiation
    is provisional until the callback restores it, and it is attached to
    the payer when the [setUser] after the restore succeeds.  (1) Whatever
    the collaborators answer, in the world left by every step of
    [paypalDonation] and in the final one the normal (paranoid) query returns
    exactly what it returned before the request, and every Transaction row
    whose id was not in use before is soft-deleted and hidden; when the graph
    completes, the row handed on as [results.createTransaction] is such a
    row.  (2) When the transaction of the callback request is hidden, it
    stays hidden in the world left by every step of [paypalCallback] other
    than [updateTransaction].  (3) In the world the callback leaves, whatever
    it answered, one of three holds: the restore did not take place, the
    rows are as before, the transaction is still hidden and [next] received
    an error; or the restore took place and [setUser] failed, [next]
    received that error, and the transaction is returned by the normal
    query, restored and otherwise as it was, so attached to no user; or the
    callback redirected, and the normal query returns the transaction with
    [UserId] the id of a stored user whose email is the payer email of the
    executed agreement. *)
Theorem C3_provisional_until_restored :
  (forall req env w c wf tr,
      paypalDonation_graph req env w = (c, wf, tr) ->
      (forall w', w' = wf \/ (exists ev, In ev tr /\ ev_world ev = w') ->
          Transaction_findAll w' = Transaction_findAll w /\
          forall t, In t (Transactions w') ->
                    ~ In (t_id t) (map t_id (Transactions w)) ->
                    visible t = false /\ hidden (t_id t) w') /\
      (forall r', c = Completed r' ->
          exists tx, lookup "createTransaction" r' = VTransaction tx /\
                     In tx (Transactions wf) /\
                     ~ In (t_id tx) (map t_id (Transactions w)))) /\
  (forall req env w c wf tr,
      paypalCallback_graph req env w = (c, wf, tr) ->
      hidden (t_id (cb_paranoidtransaction req)) w ->
      forall ev, In ev tr -> ev_step ev <> "updateTransaction" ->
                 hidden (t_id (cb_paranoidtransaction req)) (ev_world ev)) /\
  (forall req env w,
      hidden (t_id (cb_paranoidtransaction req)) w ->
      In (t_id (cb_paranoidtransaction req)) (map t_id (Transactions w)) ->
      let id := t_id (cb_paranoidtransaction req) in
      let out := paypalCallback req env w in
      (Transactions (snd out) = Transactions w /\ hidden id (snd out) /\
       exists e, fst out = Responded (next e None)) \/
      (exists e t,
          fst out = Responded (next e None) /\
          storage_fault env transaction_restore = None /\
          storage_fault env transaction_setUser = Some e /\
          Transactions (snd out) = map (reveal_for id) (Transactions w) /\
          In t (Transaction_findAll (snd out)) /\ t_id t = id) \/
      (exists url t u a,
          fst out = Responded (redirect url) /\
          billingAgreement_execute env = Ok a /\
          In u (Users (snd out)) /\ u_email u = ag_payer_email a /\
          In t (Transaction_findAll (snd out)) /\
          t_id t = id /\ t_UserId t = Some (u_id u))).
Proof.
  split; [|split].
  - intros req env w c wf tr Hg.
    destruct (paypalDonation_graph_facts req env w c wf tr Hg) as (Hev & Hwf & Hdone).
    split.
    + intros w' [-> | [ev [Hin <-]]]; apply (initiation_effect_findAll req); auto.
    + intros r' Hc. destruct (Hdone r' Hc) as (tx & Hl & Hin & [_ Hnew]).
      exists tx. auto.
  - intros req env w c wf tr Hg Hhid ev Hin Hne.
    destruct (paypalCallback_graph_facts req env w c wf tr Hg) as (Hev & _ & _).
    destruct (Hev ev Hin Hne) as [HT _].
    apply (hidden_same_rows _ w); assumption.
  - intros req env w Hhid Hrow id out. subst id out.
    callback_cases req env w.
    all: try (left; split; [reflexivity|];
              split; [apply (hidden_same_rows _ w); [reflexivity | exact Hhid]
                     | eexists; reflexivity]).
    all: try (right; left;
              destruct (revealed_row_visible (t_id (cb_paranoidtransaction req))
                                             (Transactions w) Hrow) as (t & Hin & Hid);
              exists e', t; split; [reflexivity|]; split; [exact Hf|];
              split; [exact Hf'|]; split; [reflexivity|]; split; [exact Hin | exact Hid]).
    all: right; right;
      destruct (restored_row_visible (t_id (cb_paranoidtransaction req)) u
                                     (Transactions w) Hrow) as (t & Hin & Hid & Huid);
      eexists; exists t, u, a; split; [reflexivity|]; split; [exact Hbae|];
      (split; [cbn; first [exact Hold4 | apply in_or_app; right; left; reflexivity]|]);
      split; [exact Hmail|]; split; [exact Hin|]; split; [exact Hid | exact Huid].
Qed.

Lemma C3_provisional_witness :
  let g1 := paypalDonation_graph Sample.wallet Sample.env Sample.world in
  let g2 := paypalCallback_graph Sample.callback Sample.env Sample.initiated in
  let out := paypalCallback Sample.callback Sample.env Sample.initiated in
  (Transaction_findAll (snd (fst g1)) = Transaction_findAll Sample.world /\
   forall t, In t (Transactions (snd (fst g1))) ->
             ~ In (t_id t) (map t_id (Transactions Sample.world)) ->
             visible t = false /\ hidden (t_id t) (snd (fst g1))) /\
  (exists tx, lookup "createTransaction"
                (match fst (fst g1) with Completed r => r | _ => [] end) = VTransaction tx /\
              In tx (Transactions (snd (fst g1))) /\
              ~ In (t_id tx) (map t_id (Transactions Sample.world))) /\
  hidden 1 (ev_world (nth 4 (snd g2) (mkEvent "" Pending Sample.world))) /\
  ((Transactions (snd out) = Transactions Sample.initiated /\ hidden 1 (snd out) /\
    exists e, fst out = Responded (next e None)) \/
   (exists e t,
       fst out = Responded (next e None) /\
       storage_fault Sample.env transaction_restore = None /\
       storage_fault Sample.env transaction_setUser = Some e /\
       Transactions (snd out) = map (reveal_for 1) (Transactions Sample.initiated) /\
       In t (Transaction_findAll (snd out)) /\ t_id t = 1) \/
   (exists url t u a,
       fst out = Responded (redirect url) /\
       billingAgreement_execute Sample.env = Ok a /\
       In u (Users (snd out)) /\ u_email u = ag_payer_email a /\
       In t (Transaction_findAll (snd out)) /\
       t_id t = 1 /\ t_UserId t = Some (u_id u))).
Proof.
  intros g1 g2 out.
  destruct C3_provisional_until_restored as (I1 & I2 & I3).
  specialize (I1 Sample.wallet Sample.env Sample.world
                 (fst (fst g1)) (snd (fst g1)) (snd g1)).
  assert (E1 : paypalDonation_graph Sample.wallet Sample.env Sample.world
               = (fst (fst g1), snd (fst g1), snd g1)) by (vm_compute; reflexivity).
  specialize (I1 E1). destruct I1 as [I1a I1b].
  assert (Hhid : hidden (t_id (cb_paranoidtransaction Sample.callback)) Sample.initiated).
  { unfold hidden. vm_compute. intros H. exact H. }
  split; [|split; [|split]].
  - apply I1a. left. reflexivity.
  - apply (I1b (match fst (fst g1) with Completed r => r | _ => [] end)).
    vm_compute. reflexivity.
  - apply (I2 Sample.callback Sample.env Sample.initiated
              (fst (fst g2)) (snd (fst g2)) (snd g2)).
    + vm_compute. reflexivity.
    + exact Hhid.
    + vm_compute. do 4 right. left. reflexivity.
    + vm_compute. discriminate.
  - apply (I3 Sample.callback Sample.env Sample.initiated Hhid).
    vm_compute. left. reflexivity.
Defined.

(** C3 as stated fails: the restore of the callback succeeds and storage
    then refuses [transaction.setUser].  The transaction, hidden before the
    callback, is now returned by the normal query, and it is attached to no
    user, although the payer was resolved and stored. *)
Lemma C3_restored_without_user :
  let env := Sample.env_with (inl Sample.not_found) Sample.setUser_fails in
  let out := paypalCallback Sample.callback env Sample.initiated in
  hidden 1 Sample.initiated /\
  fst out = Responded (next (StorageFailure "connection lost") None) /\
  map (fun t => (t_id t, t_UserId t)) (Transaction_findAll (snd out)) = [(1, None)] /\
  map u_email (Users (snd out)) = ["bob@example.com"].
Proof.
  intros env out. split.
  - unfold hidden. vm_compute. intros H. exact H.
  - vm_compute. repeat split.
Qed.

(** The wallet callback either leaves the world exactly as it was, or it
    had a token and read the collective's credentials and sent the provider
    one request: the execution of the agreement, with the token of the
    query.  Nothing else is ever sent. *)
Theorem paypalCallback_executes_at_most_once (req : CallbackRequest) (env : Env) (w : World) :
  snd (paypalCallback req env w) = w \/
  (paypalCallback_validate req = None /\
   (exists ca, group_getConnectedAccount env = Ok (Some ca)) /\
   calls (snd (paypalCallback req env w))
   = (calls w ++ [paypal_billingAgreement_execute (show (cb_token req))])%list).
Proof.
  callback_cases req env w; [left; reflexivity | right..];
    (split; [exact Hv|]); (split; [eauto|]); reflexivity.
Qed.

Lemma count_backer_added (group : Group) (u : User) (w : World) :
  (1 <= count_backer group u
          (set_UserGroups (UserGroups w ++ [mkUserGroup (g_id group) (u_id u) BACKER]) w))%nat.
Proof.
  unfold count_backer. cbn [UserGroups set_UserGroups]. rewrite filter_app, length_app.
  cbn [filter]. rewrite is_membership_new. cbn [List.length]. lia.
Qed.

(** When the wallet callback redirects, the agreement was executed; the
    redirect names the stored user whose email is the payer's, by id and
    account completeness; that user is a BACKER of the collective; the
    transaction is restored and attached to that user; and the subscription
    of the transaction is active since the time of the call and records the
    id of the executed agreement. *)
Theorem paypalCallback_redirect (req : CallbackRequest) (env : Env) (w : World) url :
  fst (paypalCallback req env w) = Responded (redirect url) ->
  let wf := snd (paypalCallback req env w) in
  exists a u sub,
    billingAgreement_execute env = Ok a /\
    u_email u = ag_payer_email a /\ In u (Users wf) /\
    url = (config_host_website env ++ "/" ++ g_slug (cb_group req)
           ++ "?status=payment_success&userid=" ++ string_of_Z (u_id u)
           ++ "&has_full_account=" ++ show_bool (u_hasFullAccount u))%string /\
    (1 <= count_backer (cb_group req) u wf)%nat /\
    Transactions wf
    = map (restore_for (t_id (cb_paranoidtransaction req)) u) (Transactions w) /\
    In sub (Subscriptions w) /\
    Some (s_id sub) = t_SubscriptionId (cb_paranoidtransaction req) /\
    Subscriptions wf
    = map (fun s => if s_id s =? s_id sub then activated a (now w) s else s)
          (Subscriptions w).
Proof.
  intros H wf. subst wf. revert H.
  callback_cases req env w; intros H; try discriminate H;
    inversion H; subst url; clear H;
    exists a, u, sub; (split; [exact Hbae|]); (split; [exact Hmail|]);
    (split; [cbn; first [exact Hold4 | apply in_or_app; right; left; reflexivity]|]);
    (split; [reflexivity|]);
    (split; [first [exact Hold5 | apply count_backer_added]|]);
    (split; [reflexivity|]); (split; [exact Hsub|]); (split; [exact Hsid|]);
    reflexivity.
Qed.

Lemma paypalCallback_redirect_witness :
  let out := paypalCallback Sample.callback Sample.env Sample.initiated in
  exists a u sub,
    billingAgreement_execute Sample.env = Ok a /\
    u_email u = ag_payer_email a /\ In u (Users (snd out)) /\
    "https://www.example/wwcode-austin?status=payment_success&userid=1&has_full_account=false"
    = (config_host_website Sample.env ++ "/" ++ g_slug (cb_group Sample.callback)
       ++ "?status=payment_success&userid=" ++ string_of_Z (u_id u)
       ++ "&has_full_account=" ++ show_bool (u_hasFullAccount u))%string /\
    (1 <= count_backer (cb_group Sample.callback) u (snd out))%nat /\
    Transactions (snd out)
    = map (restore_for (t_id (cb_paranoidtransaction Sample.callback)) u)
          (Transactions Sample.initiated) /\
    In sub (Subscriptions Sample.initiated) /\
    Some (s_id sub) = t_SubscriptionId (cb_paranoidtransaction Sample.callback) /\
    Subscriptions (snd out)
    = map (fun s => if s_id s =? s_id sub then activated a (now Sample.initiated) s else s)
          (Subscriptions Sample.initiated).
Proof.
  intros out.
  apply (paypalCallback_redirect Sample.callback Sample.env Sample.initiated).
  vm_compute. reflexivity.
Defined.

(** The wallet callback writes at most one User row, for the payer's email
    and only when no user had it, and at most one membership row, the
    BACKER row of a stored user who had none. *)
Theorem paypalCallback_writes_at_most_one_user_and_membership
  (req : CallbackRequest) (env : Env) (w : World) :
  let wf := snd (paypalCallback req env w) in
  (Users wf = Users w \/
   exists a u,
     billingAgreement_execute env = Ok a /\ u_email u = ag_payer_email a /\
     Users wf = (Users w ++ [u])%list /\
     forall u', In u' (Users w) -> u_email u' <> ag_payer_email a) /\
  (UserGroups wf = UserGroups w \/
   exists u,
     In u (Users wf) /\ count_backer (cb_group req) u w = 0%nat /\
     UserGroups wf
     = (UserGroups w ++ [mkUserGroup (g_id (cb_group req)) (u_id u) BACKER])%list).
Proof.
  intros wf. subst wf.
  callback_cases req env w;
    (split;
     [ first [ left; reflexivity
             | right; exists a, u; repeat split; assumption ]
     | first [ left; reflexivity
             | right; exists u; split;
               [ cbn; first [exact Hold4 | apply in_or_app; right; left; reflexivity]
               | split; [exact Hnew5 | reflexivity] ] ] ]).
Qed.

(** A wallet callback that reports an error to [next] has deleted nothing
    and has undone nothing: the Transaction rows are as before, or, when it
    is [setUser] that failed, the transaction is restored but attached to no
    user; the Subscription rows are as before, or the subscription of the
    transaction is already active. *)
Theorem paypalCallback_failure_effects (req : CallbackRequest) (env : Env) (w : World) e :
  fst (paypalCallback req env w) = Responded (next e None) ->
  let wf := snd (paypalCallback req env w) in
  (Transactions wf = Transactions w \/
   (storage_fault env transaction_restore = None /\
    storage_fault env transaction_setUser = Some e /\
    Transactions wf
    = map (reveal_for (t_id (cb_paranoidtransaction req))) (Transactions w))) /\
  (Subscriptions wf = Subscriptions w \/
   exists a sub,
     billingAgreement_execute env = Ok a /\ In sub (Subscriptions w) /\
     Some (s_id sub) = t_SubscriptionId (cb_paranoidtransaction req) /\
     Subscriptions wf
     = map (fun s => if s_id s =? s_id sub then activated a (now w) s else s)
           (Subscriptions w)).
Proof.
  intros H wf. subst wf. revert H.
  callback_cases req env w; intros H; try discriminate H;
    inversion H; subst; clear H;
    (split;
     [ first [ left; reflexivity
             | right; split; [assumption | split; [assumption | reflexivity]] ]
     | first [ left; reflexivity
             | right; exists a, sub; repeat split; assumption ] ]).
Qed.

Lemma paypalCallback_failure_effects_witness :
  let env := Sample.env_with (inl Sample.not_found) Sample.setUser_fails in
  let wf := snd (paypalCallback Sample.callback env Sample.initiated) in
  (Transactions wf = Transactions Sample.initiated \/
   (storage_fault env transaction_restore = None /\
    storage_fault env transaction_setUser = Some (StorageFailure "connection lost") /\
    Transactions wf
    = map (reveal_for (t_id (cb_paranoidtransaction Sample.callback)))
          (Transactions Sample.initiated))) /\
  (Subscriptions wf = Subscriptions Sample.initiated \/
   exists a sub,
     billingAgreement_execute env = Ok a /\ In sub (Subscriptions Sample.initiated) /\
     Some (s_id sub) = t_SubscriptionId (cb_paranoidtransaction Sample.callback) /\
     Subscriptions wf
     = map (fun s => if s_id s =? s_id sub then activated a (now Sample.initiated) s else s)
           (Subscriptions Sample.initiated)).
Proof.
  intros env wf.
  apply (paypalCallback_failure_effects Sample.callback env Sample.initiated
           (StorageFailure "connection lost")).
  vm_compute. reflexivity.
Defined.


